(** * part_detection: attention centroids, rigid transforms and triplet sampling

  A shallow embedding of [lib.py] (landmark_coordinates, rigid_transform)
  and of [datasets.py] (WhaleDataset, WhaleTripletDataset), with the
  properties of the natural-language specification stated over it. *)

From Stdlib Require Import List ZArith QArith Qfield Lia Lqa Bool Arith String.
From Stdlib Require Import Permutation.
Import ListNotations.

Set Implicit Arguments.

(** ** Python calls: a value or a raised exception *)

Module Py.

(** The exceptions the embedded code can raise. *)
Inductive exn : Type :=
| ValueError          (* np.random.randint(0): "high <= 0" *)
| IndexError          (* list / ndarray index out of range *)
| ZeroDivisionError   (* Python float division 1/0.0 *)
| FileNotFoundError   (* imread on a missing file *)
| AxisError.          (* np.flip on a missing axis *)

Inductive outcome (A : Type) : Type :=
| Ok (a : A)
| Raise (e : exn).
Arguments Ok {A} a.
Arguments Raise {A} e.

Definition raises {A} (o : outcome A) : bool :=
  match o with Ok _ => false | Raise _ => true end.

(** State and exceptions: what was written to the state before an
    exception stays written, as for attributes of a Python object. *)
Definition M (S A : Type) : Type := S -> outcome A * S.

Definition ret {S A} (a : A) : M S A := fun s => (Ok a, s).

Definition bind {S A B} (m : M S A) (k : A -> M S B) : M S B :=
  fun s => match m s with
           | (Ok a, s') => k a s'
           | (Raise e, s') => (Raise e, s')
           end.

Definition throw {S A} (e : exn) : M S A := fun s => (Raise e, s).

Definition get {S} : M S S := fun s => (Ok s, s).

Definition modify {S} (f : S -> S) : M S unit := fun s => (Ok tt, f s).

Definition lift {S A} (o : outcome A) : M S A := fun s => (o, s).

(** Sequencing of calls that only can raise. *)
Definition and_then {A B} (o : outcome A) (k : A -> outcome B) : outcome B :=
  match o with
  | Ok a => k a
  | Raise e => Raise e
  end.

End Py.

Import Py.

Declare Scope py_scope.
Delimit Scope py_scope with py.
Notation "x <- m ;; k" := (bind m (fun x => k))
(at level 61, m at next level, right associativity) : py_scope.
Notation "' p <- m ;; k" := (bind m (fun x => let p := x in k))
(at level 61, p pattern, m at next level, right associativity) : py_scope.
Notation "m ;;; k" := (bind m (fun _ => k))
  (at level 61, right associativity) : py_scope.
Notation "x <-- o ;; k" := (and_then o (fun x => k))
  (at level 61, o at next level, right associativity) : py_scope.

(** ** lib.py *)

Module Lib.

(** *** Tensors

    A 4-D tensor is its shape and its entries.  Entries are finite
    numbers; float arithmetic is idealised to exact rationals, and the one
    IEEE feature that is kept is that tensor division by zero does not
    raise but yields an infinity or a NaN. *)
Record Tensor4 : Type := {
  shape0 : nat;
  shape1 : nat;
  shape2 : nat;
  shape3 : nat;
  entry : nat -> nat -> nat -> nat -> Q
}.

(** Value of an element after a tensor division. *)
Inductive tfloat : Type :=
| Fin (q : Q)
| Inf
| NaN.

(** Elementwise [a / b] of torch. *)
Definition tdiv (a b : Q) : tfloat :=
  if Qeq_bool b 0 then (if Qeq_bool a 0 then NaN else Inf)
  else Fin (a / b).

(** [Σ_{k ∈ l} f k], and the reduction [.sum(dim)] over an axis of extent
    n, [Σ_{k < n} f k]. *)
Definition sum_over (l : list nat) (f : nat -> Q) : Q :=
  fold_right (fun k acc => f k + acc) 0 l.

Definition sum_upto (n : nat) (f : nat -> Q) : Q := sum_over (seq 0 n) f.

(** [torch.arange(n)[k]] *)
Definition arange (k : nat) : Q := inject_Z (Z.of_nat k).

(** [torch.meshgrid(torch.arange(n), torch.arange(m))] with the default
    "ij" indexing: the first grid varies along the first axis, the second
    grid along the second axis. *)
Definition meshgrid_fst (i j : nat) : Q := arange i.
Definition meshgrid_snd (i j : nat) : Q := arange j.

Record Landmarks : Type := {
  loc_x : nat -> nat -> tfloat;          (* [batch, part] *)
  loc_y : nat -> nat -> tfloat;          (* [batch, part] *)
  grid_x : nat -> nat -> nat -> nat -> Q; (* [1, 1, shape2, shape3] *)
  grid_y : nat -> nat -> nat -> nat -> Q
}.

(** [t.sum(3).sum(2)] at [b, p]. *)
Definition sum32 (n2 n3 : nat) (t : nat -> nat -> nat -> nat -> Q)
           (b p : nat) : Q :=
  sum_upto n2 (fun i => sum_upto n3 (fun j => t b p i j)).

Definition landmark_coordinates (maps : Tensor4) : outcome Landmarks :=
  let gx := meshgrid_fst in
  let gy := meshgrid_snd in
  (* unsqueeze(0).unsqueeze(0): broadcast over batch and part *)
  let grid_x := fun (_ _ i j : nat) => gx i j in
  let grid_y := fun (_ _ i j : nat) => gy i j in
  let n2 := shape2 maps in
  let n3 := shape3 maps in
  let map_sums := sum32 n2 n3 (entry maps) in
  let maps_x := fun b p i j => grid_x b p i j * entry maps b p i j in
  let maps_y := fun b p i j => grid_y b p i j * entry maps b p i j in
  let loc_x := fun b p => tdiv (sum32 n2 n3 maps_x b p) (map_sums b p) in
  let loc_y := fun b p => tdiv (sum32 n2 n3 maps_y b p) (map_sums b p) in
  Ok {| loc_x := loc_x; loc_y := loc_y; grid_x := grid_x; grid_y := grid_y |}.





(** All entries of channel [b, p] inside the grid are nonnegative. *)
Definition nonneg_channel (maps : Tensor4) (b p : nat) : Prop :=
  forall i j, (i < shape2 maps)%nat -> (j < shape3 maps)%nat ->
              0 <= entry maps b p i j.


(** What the specification claims of a channel of zero mass: the call
    fails. *)
Definition spec_empty_mass_claim (maps : Tensor4) : Prop :=
  exists e, landmark_coordinates maps = Raise e.

(** Total mass of channel [b, p]. *)
Definition mass (maps : Tensor4) (b p : nat) : Q :=
  sum32 (shape2 maps) (shape3 maps) (entry maps) b p.

(** A one-hot channel: a 1 x 1 x h x w map with value [m] at cell
    (r0, c0) and 0 elsewhere. *)
Definition one_hot (h w r0 c0 : nat) (m : Q) : Tensor4 :=
  {| shape0 := 1; shape1 := 1; shape2 := h; shape3 := w;
     entry := fun _ _ i j =>
                if (Nat.eqb i r0 && Nat.eqb j c0)%bool then m else 0 |}.

(** *** rigid_transform *)

Inductive InterpolationMode : Type := NEAREST | BILINEAR.

(** The arguments of one call of [torchvision.transforms.functional.affine];
    [a_interpolation = None] when the keyword is not passed. *)
Record AffineCall : Type := {
  a_angle : Z;
  a_translate : list Z;
  a_scale : Q;
  a_shear : Z;
  a_interpolation : option InterpolationMode
}.

(** Python's [a / b] on floats. *)
Definition py_truediv (a b : Q) : outcome Q :=
  if Qeq_bool b 0 then Raise ZeroDivisionError else Ok (a / b).

Section RigidTransform.

(** Images and the library's affine warp are external. *)
Variable Img : Type.
Variable affine : Img -> AffineCall -> outcome Img.

(** The state is the log of the calls made to [affine]. *)
Definition call_affine (img : Img) (angle : Z) (translate : list Z)
           (scale : Q) (shear : Z) (interpolation : option InterpolationMode)
  : M (list AffineCall) Img :=
  let c := {| a_angle := angle; a_translate := translate; a_scale := scale;
              a_shear := shear; a_interpolation := interpolation |} in
  fun log => (affine img c, log ++ [c]).

Definition rigid_transform (img : Img) (angle : Z) (translate : list Z)
           (scale : Q) (invert : bool) : M (list AffineCall) Img :=
  let shear := 0%Z in
  let bilinear := BILINEAR in
  if negb invert then
    call_affine img angle translate scale shear (Some bilinear)
  else
    (let translate := map Z.opp translate in
     img <- call_affine img 0%Z translate 1 shear None ;;
     inv <- lift (py_truediv 1 scale) ;;
     call_affine img (- angle)%Z [0%Z; 0%Z] inv shear None)%py.

End RigidTransform.

End Lib.

(** ** datasets.py *)

Module Datasets.

Local Open Scope Z_scope.
Local Open Scope nat_scope.

(** *** Python and numpy containers *)

(** [l[idx]] on a list or a 1-D ndarray: negative indices count from the
    end, anything else out of range raises IndexError. *)
Definition position (n : nat) (idx : Z) : Z :=
  if (idx <? 0)%Z then (idx + Z.of_nat n)%Z else idx.

Definition py_getitem {A} (l : list A) (idx : Z) : outcome A :=
  let n := Z.of_nat (List.length l) in
  let pos := position (List.length l) idx in
  if ((0 <=? pos)%Z && (pos <? n)%Z)%bool then
    match nth_error l (Z.to_nat pos) with
    | Some a => Ok a
    | None => Raise IndexError
    end
  else Raise IndexError.

(** [xs[mask]] with a boolean mask of the same length. *)
Definition bool_mask {A} (xs : list A) (mask : list bool) : list A :=
  map fst (filter snd (combine xs mask)).

(** [np.where(mask)[0]]: the positions at which the mask is true, in
    increasing order. *)
Definition np_where (mask : list bool) : list nat :=
  bool_mask (seq 0 (List.length mask)) mask.

(** [x in l] and [l.index(x)] on a list of strings. *)
Definition py_in (x : string) (l : list string) : bool :=
  existsb (String.eqb x) l.

Fixpoint py_index (x : string) (l : list string) : option nat :=
  match l with
  | [] => None
  | y :: l' => if String.eqb x y then Some 0%nat
               else option_map S (py_index x l')
  end.

(** [np.unique]: the sorted distinct values. *)
Fixpoint insert_unique (x : string) (l : list string) : list string :=
  match l with
  | [] => [x]
  | y :: l' => match String.compare x y with
               | Eq => l
               | Lt => x :: l
               | Gt => y :: insert_unique x l'
               end
  end.

Definition np_unique (l : list string) : list string :=
  fold_right insert_unique [] l.

(** [a[k] += 1] *)
Fixpoint incr_at (k : nat) (a : list nat) : list nat :=
  match a, k with
  | [], _ => []
  | x :: a', O => S x :: a'
  | x :: a', S k' => x :: incr_at k' a'
  end.

(** *** WhaleDataset.__init__ *)

(** A row of train.csv, as read by pandas. *)
Record Row : Type := { Image : string; Id : string }.

Record WhaleDataset : Type := {
  data_path : string;
  alt_data_path : option string;
  unique_labels : list string;
  mode : string;
  labels : list nat;
  label_ids : list string;
  names : list string;
  height : Z
}.

Definition set_height (h : Z) (d : WhaleDataset) : WhaleDataset :=
  {| data_path := data_path d; alt_data_path := alt_data_path d;
     unique_labels := unique_labels d; mode := mode d;
     labels := labels d; label_ids := label_ids d; names := names d;
     height := h |}.

(** The local lists of the constructor's loop. *)
Record Acc : Type := {
  acc_labels : list nat;
  acc_label_ids : list string;
  acc_setid : list nat;
  acc_names : list string;
  unique_labels_seen : list nat
}.

(** One iteration of [for i in range(len(train_data))]. *)
Definition init_step (uniq : list string) (a : Acc) (row : Row) : Acc :=
  if py_in (Id row) uniq then
    match py_index (Id row) uniq with
    | Some k =>
        let labels := acc_labels a ++ [k] in
        let label_ids := acc_label_ids a ++ [Id row] in
        let names := acc_names a ++ [Image row] in
        let setid :=
          if Nat.eqb (nth k (unique_labels_seen a) 0%nat) 0
          then acc_setid a ++ [2%nat]
          else acc_setid a ++ [1%nat] in
        {| acc_labels := labels; acc_label_ids := label_ids;
           acc_setid := setid; acc_names := names;
           unique_labels_seen := incr_at k (unique_labels_seen a) |}
    | None => a   (* not reached: [index] is guarded by [in] *)
    end
  else a.

Definition init_loop (uniq : list string) (train_data : list Row) : Acc :=
  fold_left (init_step uniq) train_data
    {| acc_labels := []; acc_label_ids := []; acc_setid := [];
       acc_names := [];
       unique_labels_seen := repeat 0%nat (List.length uniq) |}.

(** The constructor; [train_data] is the table [pd.read_csv] returns.  For a
    mode other than the three below no array attribute is set and the
    object cannot be used: [None]. *)
Definition WhaleDataset_init (data_path : string) (train_data : list Row)
           (mode : string) (height : Z) (alt_data_path : option string)
  : option WhaleDataset :=
  let unique_labels := np_unique (map Id train_data) in
  let a := init_loop unique_labels train_data in
  let mk := fun labels label_ids names =>
    {| data_path := data_path; alt_data_path := alt_data_path;
       unique_labels := unique_labels; mode := mode;
       labels := labels; label_ids := label_ids; names := names;
       height := height |} in
  if String.eqb mode "train"%string then
    let m := map (Nat.eqb 1) (acc_setid a) in
    Some (mk (bool_mask (acc_labels a) m) (bool_mask (acc_label_ids a) m)
             (bool_mask (acc_names a) m))
  else if String.eqb mode "val"%string then
    let m := map (Nat.eqb 2) (acc_setid a) in
    Some (mk (bool_mask (acc_labels a) m) (bool_mask (acc_label_ids a) m)
             (bool_mask (acc_names a) m))
  else if String.eqb mode "no_set"%string then
    Some (mk (acc_labels a) (acc_label_ids a) (acc_names a))
  else None.

(** The samples of a dataset: (label, label id, file name) per index. *)
Definition samples (d : WhaleDataset) : list (nat * string * string) :=
  combine (combine (labels d) (label_ids d)) (names d).

(** The label the constructor gives an identifier: its position among the
    sorted distinct identifiers. *)
Definition label_of (uniq : list string) (id : string) : nat :=
  match py_index id uniq with
  | Some k => k
  | None => O
  end.

Definition sample_of (uniq : list string) (r : Row) : nat * string * string :=
  (label_of uniq (Id r), Id r, Image r).

(** The set ids the loop appends, from the counters [seen] on. *)
Fixpoint setids (uniq : list string) (seen : list nat) (rows : list Row)
  : list nat :=
  match rows with
  | [] => []
  | r :: rs =>
      let k := label_of uniq (Id r) in
      (if Nat.eqb (nth k seen 0) 0 then 2 else 1)
        :: setids uniq (incr_at k seen) rs
  end.

(** The wording of the split: the rows whose identifier has not occurred
    in an earlier row ([seen] holds the identifiers of the earlier rows),
    and the other rows. *)
Fixpoint first_occurrences (seen : list string) (rows : list Row)
  : list Row :=
  match rows with
  | [] => []
  | r :: rs =>
      if py_in (Id r) seen then first_occurrences (Id r :: seen) rs
      else r :: first_occurrences (Id r :: seen) rs
  end.

Fixpoint later_occurrences (seen : list string) (rows : list Row)
  : list Row :=
  match rows with
  | [] => []
  | r :: rs =>
      if py_in (Id r) seen then r :: later_occurrences (Id r :: seen) rs
      else later_occurrences (Id r :: seen) rs
  end.

(** The counters agree with the identifiers met so far: the counter of a
    label is zero exactly when its identifier has not been met. *)
Definition seen_agree (uniq : list string) (seen : list nat)
           (met : list string) : Prop :=
  List.length seen = List.length uniq /\
  forall x, In x uniq ->
            (nth (label_of uniq x) seen 0 = 0 <-> ~ In x met).

(** *** Images

    Pixel values are outside the model: an array is the expression that
    produced it, and its shape is computed from the shape of the decoded
    file. *)
Inductive ndarray : Type :=
| Decoded (path : string) (shp : list Z)
| Flip (a : ndarray) (axis : nat)
| Resize (a : ndarray) (rows cols : Z)
| Stack3 (a : ndarray)
| Transpose201 (a : ndarray)
| Float32Div255 (a : ndarray).

Fixpoint shape (a : ndarray) : list Z :=
  match a with
  | Decoded _ shp => shp
  | Flip a _ => shape a
  | Resize a r c => r :: c :: skipn 2 (shape a)
  | Stack3 a => shape a ++ [3%Z]
  | Transpose201 a =>
      match shape a with
      | [d0; d1; d2] => [d2; d0; d1]
      | s => s
      end
  | Float32Div255 a => shape a
  end.

Definition np_flip (a : ndarray) (axis : nat) : outcome ndarray :=
  if Nat.ltb axis (List.length (shape a)) then Ok (Flip a axis)
  else Raise AxisError.

(** [np.transpose(a, axes=(2, 0, 1))] *)
Definition np_transpose_201 (a : ndarray) : outcome ndarray :=
  if Nat.eqb (List.length (shape a)) 3 then Ok (Transpose201 a)
  else Raise ValueError.

(** *** The heap of a sampling call *)

Inductive event : Type :=
| SetHeight (h : Z)                     (* orig_dataset.height = h *)
| Fetch (idx : Z) (h : Z)               (* orig_dataset[idx] at height h *)
| Randint (high : nat) (drawn : nat).   (* np.random.randint(high) *)

Definition is_set_height (e : event) : bool :=
  match e with SetHeight _ => true | _ => false end.

Definition is_fetch (e : event) : bool :=
  match e with Fetch _ _ => true | _ => false end.

(** [orig] is the one WhaleDataset object the triplet wrapper and its
    creator share; [tape] and [cursor] are numpy's global generator;
    [trace] records the effects in program order. *)
Record Heap : Type := {
  orig : WhaleDataset;
  tape : nat -> nat;
  cursor : nat;
  trace : list event
}.

Definition log (e : event) : M Heap unit :=
  modify (fun s => {| orig := orig s; tape := tape s; cursor := cursor s;
                      trace := trace s ++ [e] |}).

(** [self.orig_dataset.height = h] *)
Definition assign_height (h : Z) : M Heap unit :=
  (modify (fun s => {| orig := set_height h (orig s); tape := tape s;
                       cursor := cursor s; trace := trace s |}) ;;;
   log (SetHeight h))%py.

(** [np.random.randint(high)]: an integer of [0, high), ValueError when the
    range is empty. *)
Definition randint (high : nat) : M Heap nat :=
  fun s =>
    match high with
    | O => (Raise ValueError, s)
    | S _ =>
        let k := Nat.modulo (tape s (cursor s)) high in
        (Ok k, {| orig := orig s; tape := tape s; cursor := S (cursor s);
                  trace := trace s ++ [Randint high k] |})
    end.

(** Apart from [height], a computation leaves the wrapped dataset as it
    was, whatever its outcome. *)
Definition keeps_fields {A} (m : M Heap A) : Prop :=
  forall s, set_height 0%Z (orig (snd (m s))) = set_height 0%Z (orig s).

Section World.

(** The file system and the image libraries. *)
Variable path_join : list string -> string.          (* os.path.join *)
Variable isfile : string -> bool.                    (* os.path.isfile *)
Variable decoded_shape : string -> option (list Z).  (* shape imread yields *)

Definition imread (path : string) : outcome ndarray :=
  match decoded_shape path with
  | Some shp => Ok (Decoded path shp)
  | None => Raise FileNotFoundError
  end.

(** [skimage.transform.resize(im, (rows, cols))] *)
Definition resize (im : ndarray) (rows cols : Z) : ndarray :=
  Resize im rows cols.

(** *** WhaleDataset.__getitem__ *)

Definition WhaleDataset_getitem (self : WhaleDataset) (idx : Z)
  : outcome (ndarray * nat) :=
  (from_alt <--
     match alt_data_path self with
     | Some alt =>
         name <-- py_getitem (names self) idx ;;
         if isfile (path_join [alt; name]) then
           name <-- py_getitem (names self) idx ;;
           im <-- imread (path_join [alt; name]) ;;
           im <-- np_flip im 2 ;;
           Ok (Some im)
         else Ok None
     | None => Ok None
     end ;;
   im <--
     match from_alt with
     | Some im => Ok im
     | None =>
         name <-- py_getitem (names self) idx ;;
         imread (path_join [data_path self; "train"%string; name])
     end ;;
   let im := resize im (height self) (height self * 2)%Z in
   label <-- py_getitem (labels self) idx ;;
   let im := if Nat.eqb (List.length (shape im)) 2 then Stack3 im else im in
   im <-- np_transpose_201 im ;;
   Ok (Float32Div255 im, label))%py.

(** The label with which a dataset serves an index, when it does. *)
Definition label_at (d : WhaleDataset) (idx : Z) : option nat :=
  match WhaleDataset_getitem d idx with
  | Ok (_, label) => Some label
  | Raise _ => None
  end.

(** The dataset serves each of its indices [0 .. len - 1]. *)
Definition serves (d : WhaleDataset) : bool :=
  forallb (fun j => negb (raises (WhaleDataset_getitem d (Z.of_nat j))))
          (seq 0 (List.length (labels d))).

(** [self.orig_dataset[idx]]: a call on the shared object, at whatever
    height it holds at that moment. *)
Definition orig_getitem (idx : Z) : M Heap (ndarray * nat) :=
  (s <- get ;;
   log (Fetch idx (height (orig s))) ;;;
   lift (WhaleDataset_getitem (orig s) idx))%py.

(** *** WhaleTripletDataset *)

Record WhaleTripletDataset : Type := { height_list : list Z }.

Definition WhaleTripletDataset_init (height_list : option (list Z))
  : WhaleTripletDataset :=
  match height_list with
  | None => {| height_list := [256; 256; 256]%Z |}
  | Some l => {| height_list := l |}
  end.

Definition WhaleTripletDataset_len (s : Heap) : nat :=
  List.length (labels (orig s)).

(** The candidate positions of the two draws for anchor label [lab]. *)
Definition same_label (d : WhaleDataset) (lab : nat) : list nat :=
  np_where (map (fun l => Nat.eqb l lab) (labels d)).

Definition other_label (d : WhaleDataset) (lab : nat) : list nat :=
  np_where (map (fun l => negb (Nat.eqb l lab)) (labels d)).

Definition WhaleTripletDataset_getitem (self : WhaleTripletDataset) (idx : Z)
  : M Heap (ndarray * ndarray * ndarray * nat * nat) :=
  (h <- lift (py_getitem (height_list self) 0) ;;
   assign_height h ;;;
   '(im, lab) <- orig_getitem idx ;;
   s <- get ;;
   let opts := np_where (map (fun l => Nat.eqb l lab) (labels (orig s))) in
   k <- randint (List.length opts) ;;
   let positive_idx := nth k opts 0%nat in
   let opts :=
     np_where (map (fun l => negb (Nat.eqb l lab)) (labels (orig s))) in
   k <- randint (List.length opts) ;;
   let negative_idx := nth k opts 0%nat in
   h <- lift (py_getitem (height_list self) 1) ;;
   assign_height h ;;;
   '(im_pos, _) <- orig_getitem (Z.of_nat positive_idx) ;;
   h <- lift (py_getitem (height_list self) 2) ;;
   assign_height h ;;;
   '(im_neg, lab_neg) <- orig_getitem (Z.of_nat negative_idx) ;;
   ret (im, im_pos, im_neg, lab, lab_neg))%py.

End World.

End Datasets.

(** ** Example data: the label vectors of the specification *)

Module Examples.

Import Datasets.

Definition ex_path_join (parts : list string) : string :=
  String.concat "/" parts.

Definition ex_isfile (path : string) : bool := false.

Definition ex_decoded_shape (path : string) : option (list Z) :=
  Some [480; 640; 3]%Z.

(** LabelVector [0, 0, 1, 1, 2] *)
Definition ex_whales : WhaleDataset :=
  {| data_path := "happyWhale"; alt_data_path := None;
     unique_labels := ["w_0"; "w_1"; "w_2"]%string; mode := "no_set";
     labels := [0; 0; 1; 1; 2]%nat;
     label_ids := ["w_0"; "w_0"; "w_1"; "w_1"; "w_2"]%string;
     names := ["a.jpg"; "b.jpg"; "c.jpg"; "d.jpg"; "e.jpg"]%string;
     height := 256%Z |}.

(** LabelVector [7, 7, 7] *)
Definition ex_one_label : WhaleDataset :=
  {| data_path := "happyWhale"; alt_data_path := None;
     unique_labels := []; mode := "no_set";
     labels := [7; 7; 7]%nat;
     label_ids := ["w_7"; "w_7"; "w_7"]%string;
     names := ["a.jpg"; "b.jpg"; "c.jpg"]%string;
     height := 256%Z |}.

Definition ex_heap (d : WhaleDataset) : Heap :=
  {| orig := d; tape := fun n => (7 + 3 * n)%nat; cursor := 0%nat;
     trace := [] |}.

(** HeightList [32, 64, 128] *)
Definition ex_triplet : WhaleTripletDataset :=
  WhaleTripletDataset_init (Some [32; 64; 128]%Z).

End Examples.
From Stdlib Require Import Sorted.


(** ** lib.py, continued: landmarks_to_rgb and get_epoch *)

Module LibMore.

Import Lib Datasets.
Import Ascii.

(** *** landmarks_to_rgb *)

(** [COLORS]: 27 RGB triples, the same nine colours three times over. *)
Definition COLORS : list (list Q) :=
  [[3#4; 0; 0]; [0; 3#4; 0]; [0; 0; 3#4]; [1#2; 1#2; 0]; [1#2; 0; 1#2];
   [0; 1#2; 1#2]; [3#4; 1#4; 0]; [3#4; 0; 1#4]; [0; 3#4; 1#4];
   [3#4; 0; 0]; [0; 3#4; 0]; [0; 0; 3#4]; [1#2; 1#2; 0]; [1#2; 0; 1#2];
   [0; 1#2; 1#2]; [3#4; 1#4; 0]; [3#4; 0; 1#4]; [0; 3#4; 1#4];
   [3#4; 0; 0]; [0; 3#4; 0]; [0; 0; 3#4]; [1#2; 1#2; 0]; [1#2; 0; 1#2];
   [0; 1#2; 1#2]; [3#4; 1#4; 0]; [3#4; 0; 1#4]; [0; 3#4; 1#4]].

(** A 3-D array [number of parts, width_map, height_map]. *)
Record Tensor3 : Type := {
  dim0 : nat;
  dim1 : nat;
  dim2 : nat;
  cell : nat -> nat -> nat -> Q
}.

(** [for k in ks: s = body(k, s)], stopping at the first exception. *)
Fixpoint for_each {S} (ks : list nat) (body : nat -> S -> outcome S) (s : S)
  : outcome S :=
  match ks with
  | [] => Ok s
  | k :: ks' =>
      match body k s with
      | Ok s' => for_each ks' body s'
      | Raise e => Raise e
      end
  end.

(** [rgb[:, :, c] += maps[m, :, :] * COLORS[m % 25][c]] *)
Definition rgb_update (maps : Tensor3) (m c : nat)
           (rgb : nat -> nat -> nat -> Q)
  : outcome (nat -> nat -> nat -> Q) :=
  (color <-- py_getitem COLORS (Z.of_nat (Nat.modulo m 25)) ;;
   w <-- py_getitem color (Z.of_nat c) ;;
   Ok (fun i j c' =>
         if Nat.eqb c' c then rgb i j c' + cell maps m i j * w
         else rgb i j c'))%py.

Definition landmarks_to_rgb (maps : Tensor3)
  : outcome (nat -> nat -> nat -> Q) :=
  let rgb := fun (_ _ _ : nat) => 0 in   (* np.zeros((dim1, dim2, 3)) *)
  for_each (seq 0 (dim0 maps))
    (fun m rgb => for_each (seq 0 3) (fun c rgb => rgb_update maps m c rgb)
                           rgb)
    rgb.

(** The weight of colour channel [c] for part [m]. *)
Definition color_weight (m c : nat) : Q :=
  nth c (nth (Nat.modulo m 25) COLORS []) 0.


(** *** get_epoch *)

(** ['_' in f] *)
Fixpoint has_char (c : Ascii.ascii) (f : string) : bool :=
  match f with
  | EmptyString => false
  | String a f' => if Ascii.eqb a c then true else has_char c f'
  end.

(** [f.split('_')[0]]: what precedes the first separator. *)
Fixpoint split_head (c : Ascii.ascii) (f : string) : string :=
  match f with
  | EmptyString => EmptyString
  | String a f' => if Ascii.eqb a c then EmptyString
                   else String a (split_head c f')
  end.

Section GetEpoch.

(** [os.listdir] and the builtin [int] on strings. *)
Variable listdir : string -> outcome (list string).
Variable py_int : string -> outcome Z.

(** The loop [for f in files], from the current [epoch] on. *)
Fixpoint epoch_loop (files : list string) (epoch : Z) : outcome Z :=
  match files with
  | [] => Ok epoch
  | f :: files' =>
      if has_char "_"%char f then
        match py_int (split_head "_"%char f) with
        | Ok fepoch =>
            if (fepoch >? epoch)%Z then epoch_loop files' fepoch
            else epoch_loop files' epoch
        | Raise e => Raise e
        end
      else epoch_loop files' epoch
  end.

Definition get_epoch (model_name : string) : outcome Z :=
  (files <-- listdir (String.append "../results_"%string model_name) ;;
   let epoch := 0%Z in
   epoch_loop files epoch)%py.

(** The epoch a file name carries, when it has a separator and its head
    parses. *)
Definition carries (f : string) (v : Z) : Prop :=
  has_char "_" f = true /\ py_int (split_head "_" f) = Ok v.

Definition all_parse (files : list string) : Prop :=
  forall f, In f files -> has_char "_" f = true ->
            exists v, py_int (split_head "_" f) = Ok v.

End GetEpoch.



(** Example data: a results directory, and the builtin [int] restricted
    to plain ASCII digit strings. *)
Fixpoint digits_value (s : string) (acc : Z) : option Z :=
  match s with
  | EmptyString => Some acc
  | String a s' =>
      let n := nat_of_ascii a in
      if (Nat.leb 48 n && Nat.leb n 57)%bool
      then digits_value s' (acc * 10 + Z.of_nat (n - 48))%Z
      else None
  end.

Definition ex_py_int (s : string) : outcome Z :=
  match s with
  | EmptyString => Raise ValueError
  | _ => match digits_value s 0%Z with
         | Some v => Ok v
         | None => Raise ValueError
         end
  end.


Definition ex_files : list string :=
  ["12_net.pt"; "3_net.pt"; "log.txt"; "40_opt.pt"]%string.

Definition ex_listdir (dir : string) : outcome (list string) := Ok ex_files.

Definition ex_listdir_rev (dir : string) : outcome (list string) :=
  Ok (rev ex_files).

Definition ex_listdir_stray (dir : string) : outcome (list string) :=
  Ok ["12_net.pt"; "notes_old.txt"]%string.

End LibMore.

(** ** datasets.py, continued *)

Module DatasetsMore.

Import Datasets.


(** *** Exceptions beyond the builtin index and value errors *)

Inductive error : Type :=
| Builtin (e : exn)     (* IndexError, ValueError, ... *)
| RuntimeError
| KeyError.

Inductive result (A : Type) : Type :=
| Done (a : A)
| Failed (e : error).
Arguments Done {A} a.
Arguments Failed {A} e.

Definition of_outcome {A} (o : outcome A) : result A :=
  match o with
  | Ok a => Done a
  | Raise e => Failed (Builtin e)
  end.

Definition then_do {A B} (r : result A) (k : A -> result B) : result B :=
  match r with
  | Done a => k a
  | Failed e => Failed e
  end.

(** A dict with integer keys, in insertion order: [d[k] = v] and [d[k]]. *)
Fixpoint dict_set {V} (k : Z) (v : V) (d : list (Z * V)) : list (Z * V) :=
  match d with
  | [] => [(k, v)]
  | (k', v') :: d' =>
      if Z.eqb k' k then (k, v) :: d' else (k', v') :: dict_set k v d'
  end.

Fixpoint dict_get {V} (d : list (Z * V)) (k : Z) : result V :=
  match d with
  | [] => Failed KeyError
  | (k', v) :: d' => if Z.eqb k' k then Done v else dict_get d' k
  end.

(** *** CUBDataset *)

(** A row of the frame after the two merges on 'id'. *)
Record CubRow : Type := {
  cub_id : Z;
  cub_train : Z;
  cub_filename : string;
  cub_label : Z
}.

(** A row of parts/part_locs.txt. *)
Record PartRow : Type := {
  part_image : Z;     (* column 'id' *)
  part_id : Z;
  part_x : Q;
  part_y : Q;
  part_visible : Z
}.

Record CUBDataset : Type := {
  cub_mode : string;
  trainsamples : option (list nat);
  ids : list Z;
  cub_names : list string;
  cub_labels : list Z;
  parts : list (Z * list PartRow);
  cub_height : Z
}.

(** A frame is its rows with their index labels; a merge numbers them
    0, 1, 2, ... *)
Definition frame (rows : list CubRow) : list (nat * CubRow) :=
  combine (seq 0 (List.length rows)) rows.

(** [dataset.loc[dataset['train'] == v]] *)
Definition loc_train (v : Z) (df : list (nat * CubRow))
  : list (nat * CubRow) :=
  filter (fun r => Z.eqb (cub_train (snd r)) v) df.

(** [int(x)] on a number: truncation toward zero. *)
Definition py_int_of (x : Q) : Z := Z.quot (Qnum x) (Z.pos (Qden x)).

(** [l[:k]] *)
Definition slice_to {A} (l : list A) (k : Z) : list A :=
  if (0 <=? k)%Z then firstn (Z.to_nat k) l
  else firstn (List.length l - Z.to_nat (- k)) l.

(** [df.iloc[positions]] and [df.index[positions]]: IndexError out of
    range. *)
Fixpoint iloc {A} (df : list A) (positions : list nat) : outcome (list A) :=
  match positions with
  | [] => Ok []
  | p :: ps =>
      match nth_error df p, iloc df ps with
      | Some r, Ok rs => Ok (r :: rs)
      | None, _ => Raise IndexError
      | _, Raise e => Raise e
      end
  end.

(** [df.drop(index_labels)] *)
Definition drop (df : list (nat * CubRow)) (index_labels : list nat)
  : list (nat * CubRow) :=
  filter (fun r => negb (existsb (Nat.eqb (fst r)) index_labels)) df.

(** The loop [for i in self.ids: parts[i] = image_parts[id == i]]. *)
Definition collect_parts (image_parts : list PartRow) (ids : list Z)
  : list (Z * list PartRow) :=
  fold_left
    (fun parts i =>
       dict_set i (filter (fun p => Z.eqb (part_image p) i) image_parts)
                parts)
    ids [].

Section CUB.

(** What [np.random.shuffle] leaves in the array it is given. *)
Variable shuffle : list nat -> list nat.

(** The constructor, after the tables are read and merged: [dataset] is
    the merged frame, [image_parts] the parts table.  [split] is 0.9 in
    datasets.py and a parameter in inrae_big/datasets.py, where the class
    labels are also shifted by [label_shift] = 1; [int(len * split)] is
    computed exactly (as floats do for tables of fewer than 2^49 rows). *)
Definition CUBDataset_init_with (split : Q) (label_shift : Z)
           (dataset : list CubRow) (image_parts : list PartRow)
           (mode : string) (height : Z) (train_samples : option (list nat))
  : result CUBDataset :=
  let image_parts :=
    filter (fun p => negb (Z.eqb (part_visible p) 0)) image_parts in
  let dataset := frame dataset in
  then_do
    (if String.eqb mode "train" then
       let dataset := loc_train 1 dataset in
       let samples := seq 0 (List.length dataset) in
       let samples := shuffle samples in
       let trainsamples :=
         slice_to samples
           (py_int_of (inject_Z (Z.of_nat (List.length samples)) * split)) in
       then_do (of_outcome (iloc dataset trainsamples))
               (fun dataset => Done (Some trainsamples, dataset))
     else if String.eqb mode "test" then
       Done (None, loc_train 0 dataset)
     else if String.eqb mode "val" then
       let dataset := loc_train 1 dataset in
       match train_samples with
       | None => Failed RuntimeError
       | Some train_samples =>
           then_do (of_outcome (iloc (map fst dataset) train_samples))
                   (fun index_labels =>
                      Done (None, drop dataset index_labels))
       end
     else Done (None, dataset))
    (fun '(trainsamples, dataset) =>
       let ids := map (fun r => cub_id (snd r)) dataset in
       Done {| cub_mode := mode; trainsamples := trainsamples;
               ids := ids;
               cub_names := map (fun r => cub_filename (snd r)) dataset;
               cub_labels :=
                 map (fun r => (cub_label (snd r) - label_shift)%Z) dataset;
               parts := collect_parts image_parts ids;
               cub_height := height |}).

(** datasets.py *)
Definition CUBDataset_init := CUBDataset_init_with (9 # 10) 0.


End CUB.

Definition CUBDataset_len (self : CUBDataset) : nat :=
  List.length (cub_labels self).

Definition get_visible_parts (self : CUBDataset) (idx : Z)
  : result (list PartRow) :=
  then_do (of_outcome (py_getitem (ids self) idx))
          (fun dataset_id => dict_get (parts self) dataset_id).

(** The samples of a dataset: (id, file name, label) per index. *)
Definition cub_samples (d : CUBDataset) : list (Z * string * Z) :=
  combine (combine (ids d) (cub_names d)) (cub_labels d).

Definition cub_sample_of (label_shift : Z) (r : CubRow) : Z * string * Z :=
  (cub_id r, cub_filename r, (cub_label r - label_shift)%Z).

(** Example data: six merged rows, four of them training rows. *)
Definition ex_cub_rows : list CubRow :=
  [ {| cub_id := 1; cub_train := 1; cub_filename := "a.jpg"; cub_label := 1 |};
    {| cub_id := 2; cub_train := 0; cub_filename := "b.jpg"; cub_label := 1 |};
    {| cub_id := 3; cub_train := 1; cub_filename := "c.jpg"; cub_label := 2 |};
    {| cub_id := 4; cub_train := 1; cub_filename := "d.jpg"; cub_label := 2 |};
    {| cub_id := 5; cub_train := 0; cub_filename := "e.jpg"; cub_label := 3 |};
    {| cub_id := 6; cub_train := 1; cub_filename := "f.jpg"; cub_label := 3 |}
  ]%Z%string.

Definition ex_cub_parts : list PartRow :=
  [ {| part_image := 1; part_id := 1; part_x := 10; part_y := 20;
       part_visible := 1 |};
    {| part_image := 1; part_id := 2; part_x := 0; part_y := 0;
       part_visible := 0 |};
    {| part_image := 3; part_id := 1; part_x := 5; part_y := 6;
       part_visible := 1 |} ]%Z.

Definition ex_shuffle (l : list nat) : list nat := rev l.

(** *** PartImageNetDataset (datasets.py) *)

(** What [COCO(annFile)] holds: the categories by id, the annotations of
    each annotated image by image id, the images by id. *)
Record CocoCat : Type := { cat_name : string; supercategory : string }.

Record CocoAnn : Type := {
  category_id : Z;
  segmentation : list (list Q)
}.

Record CocoImg : Type := {
  img_id : Z;
  file_name : string;
  img_width : Z;
  img_height : Z
}.

Record COCO : Type := {
  cats : list (Z * CocoCat);
  imgToAnns : list (Z * list CocoAnn);
  imgs : list (Z * CocoImg)
}.

Record PartImageNetDataset : Type := {
  pin_mode : string;
  pin_data_path : string;
  coco : COCO;
  unique_label_names : list string;
  pin_label_ids : list string;
  pin_labels : list nat;
  pin_height : Z
}.

(** The inner loop: the supercategory of each annotation's category. *)
Fixpoint supercats_of (c : COCO) (anns : list CocoAnn)
  : result (list string) :=
  match anns with
  | [] => Done []
  | ann :: anns' =>
      then_do (dict_get (cats c) (category_id ann))
        (fun cat =>
           then_do (supercats_of c anns')
                   (fun supercats => Done (supercategory cat :: supercats)))
  end.

(** The body of the loop over the images: the one supercategory of the
    image's annotations. *)
Definition image_supercat (c : COCO) (anns : list CocoAnn) : result string :=
  then_do (supercats_of c anns)
    (fun supercats =>
       if negb (Nat.leb (List.length (nodup string_dec supercats)) 1)
       then Failed RuntimeError
       else match supercats with
            | [] => Failed (Builtin IndexError)
            | supercat :: _ => Done supercat
            end).

Fixpoint image_labels (c : COCO) (items : list (Z * list CocoAnn))
         (imgToLabels : list (Z * string)) : result (list (Z * string)) :=
  match items with
  | [] => Done imgToLabels
  | (id, anns) :: items' =>
      then_do (image_supercat c anns)
        (fun supercat => image_labels c items' (dict_set id supercat imgToLabels))
  end.

(** [sorted(items, key=lambda x: x[0])], a stable sort. *)
Fixpoint insert_by_key {V} (x : Z * V) (l : list (Z * V)) : list (Z * V) :=
  match l with
  | [] => [x]
  | y :: l' => if (fst x <=? fst y)%Z then x :: l
               else y :: insert_by_key x l'
  end.

Definition sorted_by_key {V} (l : list (Z * V)) : list (Z * V) :=
  fold_right insert_by_key [] l.

(** [[names.index(x) for x in xs]] *)
Fixpoint index_all (names : list string) (xs : list string)
  : result (list nat) :=
  match xs with
  | [] => Done []
  | x :: xs' =>
      match py_index x names with
      | Some k => then_do (index_all names xs') (fun ks => Done (k :: ks))
      | None => Failed (Builtin ValueError)
      end
  end.

Definition PartImageNetDataset_init (data_path : string) (c : COCO)
           (mode : string) (height : Z) : result PartImageNetDataset :=
  let unique_label_names :=
    np_unique (map (fun x => supercategory (snd x)) (cats c)) in
  then_do (image_labels c (imgToAnns c) [])
    (fun imgToLabels =>
       let label_ids := map snd (sorted_by_key imgToLabels) in
       then_do (index_all unique_label_names label_ids)
         (fun labels =>
            Done {| pin_mode := mode; pin_data_path := data_path;
                    coco := c; unique_label_names := unique_label_names;
                    pin_label_ids := label_ids; pin_labels := labels;
                    pin_height := height |})).

(** Every annotation of every listed image names a known category, and
    every listed image has an annotation. *)
Definition coco_resolves (c : COCO) : Prop :=
  forall id anns, In (id, anns) (imgToAnns c) ->
    anns <> [] /\
    forall ann, In ann anns ->
                exists cat, dict_get (cats c) (category_id ann) = Done cat.

(** The category of an annotation is known and of supercategory [sc]. *)
Definition resolves_to (c : COCO) (ann : CocoAnn) (sc : string) : Prop :=
  exists cat, dict_get (cats c) (category_id ann) = Done cat /\
              supercategory cat = sc.

(** The annotations of an image share the supercategory [sc]. *)
Definition uniform_image (c : COCO) (anns : list CocoAnn) (sc : string)
  : Prop :=
  forall ann, In ann anns -> resolves_to c ann sc.

(** The image [id] is listed with annotations of supercategory [name]. *)
Definition labelled_by (c : COCO) (id : Z) (name : string) : Prop :=
  exists anns, In (id, anns) (imgToAnns c) /\ uniform_image c anns name.

(** Example data: two supercategories, three annotated images. *)
Definition ex_coco : COCO :=
  {| cats := [ (0, {| cat_name := "head"; supercategory := "bird" |});
               (1, {| cat_name := "wing"; supercategory := "bird" |});
               (2, {| cat_name := "fin"; supercategory := "fish" |}) ]%Z;
     imgToAnns :=
       [ (7, [ {| category_id := 2; segmentation := [] |} ]);
         (3, [ {| category_id := 0; segmentation := [] |};
               {| category_id := 1; segmentation := [] |} ]);
         (5, [ {| category_id := 1; segmentation := [] |} ]) ]%Z;
     imgs := [] |}.

(** The same with an image annotated with a bird part and a fish part. *)
Definition ex_coco_mixed : COCO :=
  {| cats := cats ex_coco;
     imgToAnns :=
       [ (7, [ {| category_id := 2; segmentation := [] |} ]);
         (3, [ {| category_id := 0; segmentation := [] |};
               {| category_id := 2; segmentation := [] |} ]) ]%Z;
     imgs := [] |}.

(** *** PartImageNetDataset.__getitem__ and getmasks *)

Section PartImageNetAccess.

Variable path_join : list string -> string.
Variable decoded_shape : string -> option (list Z).

(** [idx] is looked up as an image id in [coco.imgs] for the file and as a
    position in [labels] for the label. *)
Definition PartImageNetDataset_getitem (self : PartImageNetDataset) (idx : Z)
  : result (ndarray * nat) :=
  then_do (dict_get (imgs (coco self)) idx)     (* coco.loadImgs([idx])[0] *)
    (fun img =>
       let img_filename := file_name img in
       let img_filename_prefix :=
         LibMore.split_head (Ascii.ascii_of_nat 95) img_filename in
       let filename :=
         path_join [pin_data_path self; pin_mode self; img_filename_prefix;
                    file_name img] in
       then_do (of_outcome (imread decoded_shape filename))
         (fun im =>
            let im := resize im (pin_height self) (pin_height self) in
            then_do (of_outcome (py_getitem (pin_labels self) idx))
              (fun label =>
                 let im := if Nat.eqb (List.length (shape im)) 2
                           then Stack3 im else im in
                 then_do (of_outcome (np_transpose_201 im))
                         (fun im => Done (Float32Div255 im, label))))).

End PartImageNetAccess.

(** A polygon mask drawn on a canvas and resized: pixel values are outside
    the model. *)
Record Mask : Type := {
  canvas : Z * Z;              (* polygon2mask((width, height), p) *)
  polygon : list (Q * Q);
  resized_to : Z * Z
}.

(** [np.array(seg).reshape((int(len(seg) / 2), 2))]: ValueError unless the
    length is even. *)
Fixpoint pair_up (seg : list Q) : outcome (list (Q * Q)) :=
  match seg with
  | [] => Ok []
  | [_] => Raise ValueError
  | x :: y :: seg' =>
      match pair_up seg' with
      | Ok poly => Ok ((x, y) :: poly)
      | Raise e => Raise e
      end
  end.

(** The loop [for seg in ann['segmentation']], appending to [polygons]. *)
Fixpoint polygons_of_segs (segs : list (list Q))
         (polygons : list (list (Q * Q))) : outcome (list (list (Q * Q))) :=
  match segs with
  | [] => Ok polygons
  | seg :: segs' =>
      match pair_up seg with
      | Ok poly => polygons_of_segs segs' (polygons ++ [poly])
      | Raise e => Raise e
      end
  end.

(** The loop [for ann in anns]. *)
Fixpoint polygons_of_anns (anns : list CocoAnn)
         (polygons : list (list (Q * Q))) : outcome (list (list (Q * Q))) :=
  match anns with
  | [] => Ok polygons
  | ann :: anns' =>
      match polygons_of_segs (segmentation ann) polygons with
      | Ok polygons' => polygons_of_anns anns' polygons'
      | Raise e => Raise e
      end
  end.

(** [coco.loadAnns(coco.getAnnIds(imgIds=id, iscrowd=None))]: the
    annotations [imgToAnns] holds for the image, none when it has no
    entry. *)
Fixpoint anns_of_image (items : list (Z * list CocoAnn)) (id : Z)
  : list CocoAnn :=
  match items with
  | [] => []
  | (id', anns) :: items' =>
      if Z.eqb id' id then anns else anns_of_image items' id
  end.

(** The dict [{'category_id': [...], 'mask': [...]}] as its two lists. *)
Definition getmasks (self : PartImageNetDataset) (idx : Z)
  : result (list Z * list Mask) :=
  let c := coco self in
  then_do (dict_get (imgs c) idx)               (* coco.loadImgs(idx)[0] *)
    (fun img =>
       let anns := anns_of_image (imgToAnns c) (img_id img) in
       let cat_ids := map category_id anns in
       then_do (of_outcome (polygons_of_anns anns []))
         (fun polygons =>
            let drawn :=
              map (fun cp =>
                     (fst cp,
                      {| canvas := (img_width img, img_height img);
                         polygon := snd cp;
                         resized_to := (256, 256)%Z |}))
                  (combine cat_ids polygons) in   (* zip(cat_ids, polygons) *)
            Done (map fst drawn, map snd drawn))).



(** Example data: an image with a one-polygon and a two-polygon
    annotation. *)
Definition ex_coco_polys : COCO :=
  {| cats := cats ex_coco;
     imgToAnns :=
       [ (4%Z, [ {| category_id := 0%Z;
                    segmentation := [[0; 0; 4; 0; 4; 4]]%Q |};
                 {| category_id := 1%Z;
                    segmentation :=
                      [[1; 1; 2; 1; 2; 2]; [5; 5; 6; 5; 6; 6]]%Q |}
               ]) ];
     imgs := [ (4, {| img_id := 4; file_name := "n01_12.JPEG";
                      img_width := 500; img_height := 375 |}) ]%Z |}.

(** The same image with a polygon of five coordinates. *)
Definition ex_coco_odd : COCO :=
  {| cats := cats ex_coco;
     imgToAnns :=
       [ (4%Z, [ {| category_id := 0%Z;
                    segmentation := [[0; 0; 4; 0; 4; 4]]%Q |};
                 {| category_id := 1%Z;
                    segmentation := [[1; 1; 2; 1; 2]]%Q |}
               ]) ];
     imgs := imgs ex_coco_polys |}.

(** Three annotated images with the ids 0, 1, 2, listed out of order. *)
Definition ex_coco_aligned : COCO :=
  {| cats := cats ex_coco;
     imgToAnns :=
       [ (2, [ {| category_id := 2; segmentation := [] |} ]);
         (0, [ {| category_id := 0; segmentation := [] |};
               {| category_id := 1; segmentation := [] |} ]);
         (1, [ {| category_id := 1; segmentation := [] |} ]) ]%Z;
     imgs := [ (0, {| img_id := 0; file_name := "n01_0.JPEG";
                      img_width := 500; img_height := 375 |});
               (1, {| img_id := 1; file_name := "n01_1.JPEG";
                      img_width := 500; img_height := 375 |});
               (2, {| img_id := 2; file_name := "n02_2.JPEG";
                      img_width := 500; img_height := 375 |}) ]%Z |}.


Definition ex_pin_odd : PartImageNetDataset :=
  {| pin_mode := "train"; pin_data_path := "pim"; coco := ex_coco_odd;
     unique_label_names := ["bird"; "fish"]%string;
     pin_label_ids := ["bird"]%string; pin_labels := [0%nat];
     pin_height := 224 |}.

Definition ex_pin_aligned : PartImageNetDataset :=
  {| pin_mode := "train"; pin_data_path := "pim"; coco := ex_coco_aligned;
     unique_label_names := ["bird"; "fish"]%string;
     pin_label_ids := ["bird"; "bird"; "fish"]%string;
     pin_labels := [0; 0; 1]%nat;
     pin_height := 224 |}.

(** A grey file for image 1, colour files otherwise. *)
Definition ex_pin_shapes (path : string) : option (list Z) :=
  if String.eqb path "pim/train/n01/n01_1.JPEG" then Some [375; 500]%Z
  else Some [375; 500; 3]%Z.

End DatasetsMore.

(** ** Example data: a label table and a dataset with an alternative path *)

Module ExamplesMore.

Import Datasets Examples.

Definition ex_rows : list Row :=
  [ {| Image := "a.jpg"; Id := "w_2" |}; {| Image := "b.jpg"; Id := "w_1" |};
    {| Image := "c.jpg"; Id := "w_2" |}; {| Image := "d.jpg"; Id := "w_0" |};
    {| Image := "e.jpg"; Id := "w_1" |} ]%string.

(** One decoded shape per file: a colour file, a grey file, an RGBA file
    and a stack of frames. *)
Definition ex_shapes (path : string) : option (list Z) :=
  if String.eqb path "happyWhale/train/a.jpg" then Some [480; 640; 3]%Z
  else if String.eqb path "happyWhale/train/b.jpg" then Some [480; 640]%Z
  else if String.eqb path "happyWhale/train/c.jpg" then Some [480; 640; 4]%Z
  else if String.eqb path "happyWhale/train/d.jpg"
       then Some [5; 480; 640; 3]%Z
  else if String.eqb path "alt/a.jpg" then Some [100; 200; 3]%Z
  else if String.eqb path "alt/b.jpg" then Some [100; 200]%Z
  else None.

Definition ex_isfile_alt (path : string) : bool :=
  orb (String.eqb path "alt/a.jpg") (String.eqb path "alt/b.jpg").

Definition ex_whales_alt : WhaleDataset :=
  {| data_path := "happyWhale"; alt_data_path := Some "alt"%string;
     unique_labels := ["w_0"; "w_1"; "w_2"]%string; mode := "no_set";
     labels := [0; 0; 1; 1; 2]%nat;
     label_ids := ["w_0"; "w_0"; "w_1"; "w_1"; "w_2"]%string;
     names := ["a.jpg"; "b.jpg"; "c.jpg"; "d.jpg"; "e.jpg"]%string;
     height := 256%Z |}.

(** LabelVector [0, 1, 1, 2]: the label of index 0 occurs once. *)
Definition ex_lone_anchor : WhaleDataset :=
  {| data_path := "happyWhale"; alt_data_path := None;
     unique_labels := ["w_0"; "w_1"; "w_2"]%string; mode := "no_set";
     labels := [0; 1; 1; 2]%nat;
     label_ids := ["w_0"; "w_1"; "w_1"; "w_2"]%string;
     names := ["a.jpg"; "b.jpg"; "c.jpg"; "d.jpg"]%string;
     height := 256%Z |}.

(** HeightList [32, 64]: one entry short. *)
Definition ex_triplet_short : WhaleTripletDataset :=
  WhaleTripletDataset_init (Some [32; 64]%Z).

End ExamplesMore.

(** * Properties of lib.py *)

Section SumLemmas.

Import Lib.


Lemma sum_over_nonneg (l : list nat) (f : nat -> Q) :
  (forall k, In k l -> 0 <= f k) -> 0 <= sum_over l f.
Proof.
  induction l as [|a l IH]; intros P; simpl.
  - apply Qle_refl.
  - assert (0 <= f a) by (apply P; now left).
    assert (0 <= sum_over l f) by (apply IH; intros; apply P; now right).
    lra.
Qed.



Lemma sum_over_all_zero (l : list nat) (f : nat -> Q) :
  (forall k, In k l -> f k == 0) -> sum_over l f == 0.
Proof.
  induction l as [|a l IH]; intros Hz; simpl.
  - reflexivity.
  - rewrite (Hz a (or_introl eq_refl)), IH; [ring|].
    intros; apply Hz; now right.
Qed.

(** A sum of nonnegative terms is zero only when every term is. *)
Lemma sum_over_zero_inv (l : list nat) (f : nat -> Q) :
  (forall k, In k l -> 0 <= f k) -> sum_over l f == 0 ->
  forall k, In k l -> f k == 0.
Proof.
  induction l as [|a l IH]; intros P Hz k Hk; simpl in *.
  - contradiction.
  - assert (Ha : 0 <= f a) by (apply P; now left).
    assert (Hl : 0 <= sum_over l f)
      by (apply sum_over_nonneg; intros; apply P; now right).
    destruct Hk as [<-|Hk].
    + lra.
    + apply IH; auto. lra.
Qed.




Lemma sum_upto_all_zero (n : nat) (f : nat -> Q) :
  (forall k, (k < n)%nat -> f k == 0) -> sum_upto n f == 0.
Proof.
  intros Hz. apply sum_over_all_zero. intros k Hk. apply Hz.
  apply in_seq in Hk. lia.
Qed.

Lemma sum_upto_nonneg (n : nat) (f : nat -> Q) :
  (forall k, (k < n)%nat -> 0 <= f k) -> 0 <= sum_upto n f.
Proof.
  intros P. apply sum_over_nonneg. intros k Hk. apply P.
  apply in_seq in Hk. lia.
Qed.


Lemma sum_upto_zero_inv (n : nat) (f : nat -> Q) :
  (forall k, (k < n)%nat -> 0 <= f k) -> sum_upto n f == 0 ->
  forall k, (k < n)%nat -> f k == 0.
Proof.
  intros P Hz k Hk. apply (@sum_over_zero_inv (seq 0 n) f); auto.
  - intros j Hj. apply P. apply in_seq in Hj. lia.
  - apply in_seq. lia.
Qed.


End SumLemmas.

Section Division.

Import Lib.


Lemma tdiv_zero (n d : Q) : d == 0 -> tdiv n d = NaN \/ tdiv n d = Inf.
Proof.
  intros Hd. unfold tdiv.
  apply Qeq_bool_iff in Hd. rewrite Hd.
  destruct (Qeq_bool n 0); auto.
Qed.

Lemma tdiv_zero_zero (n d : Q) : n == 0 -> d == 0 -> tdiv n d = NaN.
Proof.
  intros Hn Hd. unfold tdiv.
  apply Qeq_bool_iff in Hd, Hn. now rewrite Hd, Hn.
Qed.




End Division.

Section Centroid.

Import Lib.

Variable maps : Tensor4.
Variables b p : nat.

Let H := shape2 maps.
Let W := shape3 maps.
Let a := entry maps b p.

(** The two weighted sums and the mass the code divides. *)
Lemma loc_x_unfold (r : Landmarks) :
  landmark_coordinates maps = Ok r ->
  loc_x r b p =
    tdiv (sum_upto H (fun i => sum_upto W (fun j => arange i * a i j)))
         (mass maps b p).
Proof. intros E. injection E as <-. reflexivity. Qed.

Lemma loc_y_unfold (r : Landmarks) :
  landmark_coordinates maps = Ok r ->
  loc_y r b p =
    tdiv (sum_upto H (fun i => sum_upto W (fun j => arange j * a i j)))
         (mass maps b p).
Proof. intros E. injection E as <-. reflexivity. Qed.






(** On an all-zero channel every weighted sum vanishes. *)
Lemma weighted_sum_zero_mass (g : nat -> nat -> Q) :
  nonneg_channel maps b p -> mass maps b p == 0 ->
  sum_upto H (fun i => sum_upto W (fun j => g i j * a i j)) == 0.
Proof.
  intros N Hz. apply sum_upto_all_zero. intros i Hi.
  apply sum_upto_all_zero. intros j Hj.
  assert (E : a i j == 0).
  { unfold mass, sum32 in Hz.
    assert (R := @sum_upto_zero_inv H
                   (fun i' => sum_upto W (fun j' => entry maps b p i' j'))
                   (fun i' Hi' => @sum_upto_nonneg W _
                                    (fun j' Hj' => N i' j' Hi' Hj'))
                   Hz i Hi).
    cbv beta in R.
    apply (@sum_upto_zero_inv W (fun j' => entry maps b p i j')
             (fun j' Hj' => N i j' Hi Hj') R j Hj). }
  rewrite E. ring.
Qed.

End Centroid.

Section LandmarkCoordinates.

Import Lib.




(** C4, as stated, fails: on the all-zero 1 x 1 map no exception is
    raised. *)
Lemma landmark_coordinates_zero_map_returns :
  mass (one_hot 1 1 0 0 0) 0 0 == 0 /\
  ~ spec_empty_mass_claim (one_hot 1 1 0 0 0).
Proof.
  split; [vm_compute; reflexivity|].
  intros (e & E). discriminate E.
Qed.

(** C4 (amended): when channel (b, p) has total mass exactly zero the call
    raises nothing: it returns, and both coordinates of that channel are
    non-finite (NaN or an infinity); on a channel of nonnegative entries
    (an all-zero channel) both are NaN. *)
Theorem landmark_coordinates_zero_mass (maps : Tensor4) (b p : nat) :
  mass maps b p == 0 ->
  exists r,
    landmark_coordinates maps = Ok r /\
    (loc_x r b p = NaN \/ loc_x r b p = Inf) /\
    (loc_y r b p = NaN \/ loc_y r b p = Inf) /\
    (nonneg_channel maps b p -> loc_x r b p = NaN /\ loc_y r b p = NaN).
Proof.
  intros Hm.
  destruct (landmark_coordinates maps) as [r|e] eqn:E; [|discriminate E].
  exists r. split; [reflexivity|].
  rewrite (loc_x_unfold b p E), (loc_y_unfold b p E).
  split; [apply tdiv_zero; exact Hm|].
  split; [apply tdiv_zero; exact Hm|].
  intros N. split; apply tdiv_zero_zero; try exact Hm.
  - apply (weighted_sum_zero_mass (fun i _ => arange i) N Hm).
  - apply (weighted_sum_zero_mass (fun _ j => arange j) N Hm).
Qed.

Lemma landmark_coordinates_zero_mass_witness :
  mass (one_hot 1 1 0 0 0) 0 0 == 0 /\
  exists r,
    landmark_coordinates (one_hot 1 1 0 0 0) = Ok r /\
    (loc_x r 0 0 = NaN \/ loc_x r 0 0 = Inf) /\
    (loc_y r 0 0 = NaN \/ loc_y r 0 0 = Inf) /\
    (nonneg_channel (one_hot 1 1 0 0 0) 0 0 ->
     loc_x r 0 0 = NaN /\ loc_y r 0 0 = NaN).
Proof.
  split.
  - vm_compute. reflexivity.
  - apply (@landmark_coordinates_zero_mass (one_hot 1 1 0 0 0) 0 0).
    vm_compute. reflexivity.
Defined.





End LandmarkCoordinates.

Section RigidTransformFacts.

Import Lib.

Variable Img : Type.
Variable affine : Img -> AffineCall -> outcome Img.

(** The forward mode is one bilinear call with the parameters as given. *)
Lemma rigid_transform_forward (img : Img) (angle : Z) (translate : list Z)
      (scale : Q) (log : list AffineCall) :
  rigid_transform affine img angle translate scale false log =
  let c := {| a_angle := angle; a_translate := translate; a_scale := scale;
              a_shear := 0; a_interpolation := Some BILINEAR |} in
  (affine img c, log ++ [c]).
Proof. reflexivity. Qed.

(** C2: in inverse mode, for a nonzero scale, exactly two affine calls are
    made, in this order: a translation by -translate with angle 0, scale 1
    and shear 0, then, on the image the first call returned, a rotation by
    -angle with scale 1/scale, translation (0, 0) and shear 0; the calls
    made are never a single one. *)
Theorem rigid_transform_inverse_two_calls (img img1 : Img) (angle : Z)
        (translate : list Z) (scale : Q) (log : list AffineCall) :
  let undo_translate :=
    {| a_angle := 0; a_translate := map Z.opp translate; a_scale := 1;
       a_shear := 0; a_interpolation := None |} in
  let undo_rotate_scale :=
    {| a_angle := - angle; a_translate := [0%Z; 0%Z]; a_scale := 1 / scale;
       a_shear := 0; a_interpolation := None |} in
  ~ scale == 0 ->
  affine img undo_translate = Ok img1 ->
  rigid_transform affine img angle translate scale true log =
    (affine img1 undo_rotate_scale,
     log ++ [undo_translate; undo_rotate_scale]) /\
  forall c, snd (rigid_transform affine img angle translate scale true log)
            <> log ++ [c].
Proof.
  intros c1 c2 Hs H1.
  assert (E : rigid_transform affine img angle translate scale true log =
              (affine img1 c2, log ++ [c1; c2])).
  { unfold rigid_transform, call_affine, bind, lift, py_truediv. simpl.
    fold c1. rewrite H1.
    destruct (Qeq_bool scale 0) eqn:Q0.
    - apply Qeq_bool_iff in Q0. contradiction.
    - fold c2. rewrite <- app_assoc. reflexivity. }
  split; [exact E|].
  intros c. rewrite E. simpl. intros A.
  apply app_inv_head in A. discriminate A.
Qed.

End RigidTransformFacts.

Lemma rigid_transform_inverse_two_calls_witness :
  let affine := fun (img : list Lib.AffineCall) c => Ok (img ++ [c]) in
  let c1 := {| Lib.a_angle := 0; Lib.a_translate := [-10; 5]%Z;
               Lib.a_scale := 1; Lib.a_shear := 0;
               Lib.a_interpolation := None |} in
  let c2 := {| Lib.a_angle := -45; Lib.a_translate := [0; 0]%Z;
               Lib.a_scale := 1 / 2; Lib.a_shear := 0;
               Lib.a_interpolation := None |} in
  ~ 2 == 0 /\
  affine [] c1 = Ok [c1] /\
  Lib.rigid_transform affine [] 45 [10; -5]%Z 2 true [] =
    (Ok [c1; c2], [c1; c2]).
Proof.
  intros affine c1 c2.
  split; [discriminate|]. split; [reflexivity|].
  apply (@rigid_transform_inverse_two_calls _ affine [] [c1] 45%Z
           [10; -5]%Z 2 []).
  - discriminate.
  - reflexivity.
Defined.

(** * Properties of datasets.py *)

Section Containers.

Import Datasets.
Local Open Scope nat_scope.

Lemma py_in_iff (x : string) (l : list string) :
  py_in x l = true <-> In x l.
Proof.
  unfold py_in. rewrite existsb_exists. split.
  - intros (y & Hy & E). apply String.eqb_eq in E. now subst.
  - intros I. exists x. split; [exact I|apply String.eqb_refl].
Qed.

Lemma py_index_sound (x : string) (l : list string) (k : nat) :
  py_index x l = Some k -> nth_error l k = Some x.
Proof.
  revert k. induction l as [|y l IH]; intros k; simpl; [discriminate|].
  destruct (String.eqb_spec x y) as [->|N].
  - intros [= <-]. reflexivity.
  - destruct (py_index x l) as [j|]; simpl; [|discriminate].
    intros [= <-]. simpl. now apply IH.
Qed.

Lemma py_index_complete (x : string) (l : list string) :
  In x l -> exists k, py_index x l = Some k.
Proof.
  induction l as [|y l IH]; simpl; [contradiction|].
  intros I. destruct (String.eqb_spec x y) as [->|N]; [now exists O|].
  destruct I as [->|I]; [congruence|].
  destruct (IH I) as (k & ->). now exists (S k).
Qed.

Lemma insert_unique_in (x y : string) (l : list string) :
  In y (insert_unique x l) <-> y = x \/ In y l.
Proof.
  induction l as [|z l IH]; simpl.
  - intuition.
  - destruct (String.compare x z) eqn:C; simpl.
    + apply String.compare_eq_iff in C. subst. intuition.
    + intuition.
    + rewrite IH. intuition.
Qed.

(** [np.unique] keeps every value. *)
Lemma np_unique_in (x : string) (l : list string) :
  In x (np_unique l) <-> In x l.
Proof.
  induction l as [|y l IH]; simpl; [reflexivity|].
  rewrite insert_unique_in, IH. intuition.
Qed.

Lemma label_of_sound (uniq : list string) (x : string) :
  In x uniq -> nth_error uniq (label_of uniq x) = Some x.
Proof.
  intros I. unfold label_of.
  destruct (py_index_complete x uniq I) as (k & E). rewrite E.
  now apply py_index_sound.
Qed.

(** Distinct identifiers get distinct labels. *)
Lemma label_of_inj (uniq : list string) (x y : string) :
  In x uniq -> In y uniq -> label_of uniq x = label_of uniq y -> x = y.
Proof.
  intros Ix Iy E.
  assert (Hx := label_of_sound uniq x Ix).
  assert (Hy := label_of_sound uniq y Iy).
  rewrite E in Hx. congruence.
Qed.

Lemma label_of_lt (uniq : list string) (x : string) :
  In x uniq -> label_of uniq x < List.length uniq.
Proof.
  intros I. apply nth_error_Some. rewrite (label_of_sound uniq x I).
  discriminate.
Qed.

Lemma incr_at_length (k : nat) (a : list nat) :
  List.length (incr_at k a) = List.length a.
Proof.
  revert k. induction a as [|x a IH]; intros [|k]; simpl; auto.
Qed.

Lemma incr_at_same (k : nat) (a : list nat) :
  k < List.length a -> nth k (incr_at k a) O = S (nth k a O).
Proof.
  revert k. induction a as [|x a IH]; intros [|k]; simpl; try lia; auto.
  intros L. apply IH. lia.
Qed.

Lemma incr_at_other (k j : nat) (a : list nat) :
  k <> j -> nth j (incr_at k a) O = nth j a O.
Proof.
  revert k j. induction a as [|x a IH]; intros [|k] [|j]; simpl; auto;
    try congruence.
Qed.

Lemma bool_mask_cons {A} (x : A) (xs : list A) (m : bool) (ms : list bool) :
  bool_mask (x :: xs) (m :: ms) =
  if m then x :: bool_mask xs ms else bool_mask xs ms.
Proof. unfold bool_mask. simpl. destruct m; reflexivity. Qed.

Lemma combine_map_map {A B C} (f : A -> B) (g : A -> C) (l : list A) :
  combine (map f l) (map g l) = map (fun x => (f x, g x)) l.
Proof. induction l; simpl; congruence. Qed.

Lemma NoDup_map_on {A B} (f : A -> B) (l : list A) :
  (forall x y, In x l -> In y l -> f x = f y -> x = y) ->
  NoDup l -> NoDup (map f l).
Proof.
  induction l as [|a l IH]; intros Inj ND; simpl; [constructor|].
  inversion ND as [|? ? Hnot ND']; subst. constructor.
  - intros I. apply in_map_iff in I. destruct I as (y & E & Iy).
    assert (y = a) by (apply Inj; simpl; auto). subst. contradiction.
  - apply IH; auto. intros x y Ix Iy. apply Inj; simpl; auto.
Qed.

End Containers.

Section WhaleSplit.

Import Datasets.
Local Open Scope nat_scope.

Variable uniq : list string.

Lemma seen_agree_init : seen_agree uniq (repeat 0 (List.length uniq)) [].
Proof.
  split; [apply repeat_length|].
  intros x _. split; [auto|intros _].
  destruct (nth_in_or_default (label_of uniq x)
              (repeat 0 (List.length uniq)) 0) as [I|E]; [|exact E].
  now apply repeat_spec in I.
Qed.

Lemma seen_agree_step (seen : list nat) (met : list string) (y : string) :
  In y uniq -> seen_agree uniq seen met ->
  seen_agree uniq (incr_at (label_of uniq y) seen) (y :: met).
Proof.
  intros Iy (L & A). split; [now rewrite incr_at_length|].
  intros x Ix.
  destruct (Nat.eq_dec (label_of uniq y) (label_of uniq x)) as [E|N].
  - assert (x = y) by (symmetry; now apply label_of_inj with uniq).
    subst x. rewrite incr_at_same.
    + split; [discriminate|]. intros C. exfalso. apply C. now left.
    + rewrite L. now apply label_of_lt.
  - rewrite (incr_at_other seen N), (A x Ix). simpl. split.
    + intros C [->|I]; [congruence|contradiction].
    + intros C I. apply C. now right.
Qed.

(** What the loop has appended after [rows]. *)
Lemma init_loop_appends (rows : list Row) (a : Acc) :
  (forall r, In r rows -> In (Id r) uniq) ->
  let a' := fold_left (init_step uniq) rows a in
  acc_labels a' = acc_labels a ++ map (fun r => label_of uniq (Id r)) rows /\
  acc_label_ids a' = acc_label_ids a ++ map Id rows /\
  acc_names a' = acc_names a ++ map Image rows /\
  acc_setid a' = acc_setid a ++ setids uniq (unique_labels_seen a) rows.
Proof.
  revert a. induction rows as [|r rows IH]; intros a U; simpl.
  - now rewrite !app_nil_r.
  - assert (Ir : In (Id r) uniq) by (apply U; now left).
    assert (Urest : forall r', In r' rows -> In (Id r') uniq)
      by (intros; apply U; now right).
    destruct (IH (init_step uniq a r) Urest) as (E1 & E2 & E3 & E4).
    rewrite E1, E2, E3, E4. clear E1 E2 E3 E4 IH.
    unfold init_step, label_of.
    rewrite (proj2 (py_in_iff _ _) Ir).
    destruct (py_index_complete _ _ Ir) as (k & ->). simpl.
    destruct (Nat.eqb (nth k (unique_labels_seen a) 0) 0); simpl;
      now rewrite <- !app_assoc.
Qed.

(** Selecting the rows of set id 2 selects the first occurrences, and
    selecting those of set id 1 the later ones. *)
Lemma mask_val {A} (f : Row -> A) (rows : list Row) (seen : list nat)
      (met : list string) :
  (forall r, In r rows -> In (Id r) uniq) -> seen_agree uniq seen met ->
  bool_mask (map f rows) (map (Nat.eqb 2) (setids uniq seen rows)) =
  map f (first_occurrences met rows).
Proof.
  revert seen met. induction rows as [|r rows IH]; intros seen met U Ag;
    [reflexivity|].
  assert (Ir : In (Id r) uniq) by (apply U; now left).
  assert (Urest : forall r', In r' rows -> In (Id r') uniq)
    by (intros; apply U; now right).
  cbn [map setids first_occurrences later_occurrences].
  rewrite bool_mask_cons.
  rewrite (IH _ (Id r :: met) Urest (@seen_agree_step seen met (Id r) Ir Ag)).
  destruct Ag as (_ & Ag). specialize (Ag (Id r) Ir).
  destruct (Nat.eqb_spec (nth (label_of uniq (Id r)) seen 0) 0) as [Z|NZ];
    destruct (py_in (Id r) met) eqn:P; try reflexivity.
  - apply py_in_iff in P. apply Ag in Z. contradiction.
  - exfalso. apply NZ, Ag. intros I. apply py_in_iff in I. congruence.
Qed.

Lemma mask_train {A} (f : Row -> A) (rows : list Row) (seen : list nat)
      (met : list string) :
  (forall r, In r rows -> In (Id r) uniq) -> seen_agree uniq seen met ->
  bool_mask (map f rows) (map (Nat.eqb 1) (setids uniq seen rows)) =
  map f (later_occurrences met rows).
Proof.
  revert seen met. induction rows as [|r rows IH]; intros seen met U Ag;
    [reflexivity|].
  assert (Ir : In (Id r) uniq) by (apply U; now left).
  assert (Urest : forall r', In r' rows -> In (Id r') uniq)
    by (intros; apply U; now right).
  cbn [map setids first_occurrences later_occurrences].
  rewrite bool_mask_cons.
  rewrite (IH _ (Id r :: met) Urest (@seen_agree_step seen met (Id r) Ir Ag)).
  destruct Ag as (_ & Ag). specialize (Ag (Id r) Ir).
  destruct (Nat.eqb_spec (nth (label_of uniq (Id r)) seen 0) 0) as [Z|NZ];
    destruct (py_in (Id r) met) eqn:P; try reflexivity.
  - apply py_in_iff in P. apply Ag in Z. contradiction.
  - exfalso. apply NZ, Ag. intros I. apply py_in_iff in I. congruence.
Qed.

Lemma first_later_partition (rows : list Row) (met : list string) :
  Permutation (first_occurrences met rows ++ later_occurrences met rows)
              rows.
Proof.
  revert met. induction rows as [|r rows IH]; intros met; simpl.
  - constructor.
  - destruct (py_in (Id r) met).
    + apply Permutation_sym, Permutation_cons_app, Permutation_sym, IH.
    + simpl. constructor. apply IH.
Qed.

Lemma first_occurrences_spec (rows : list Row) (met : list string) (r : Row) :
  In r (first_occurrences met rows) -> In r rows /\ ~ In (Id r) met.
Proof.
  revert met. induction rows as [|r' rows IH]; intros met; simpl;
    [contradiction|].
  destruct (py_in (Id r') met) eqn:P.
  - intros I. destruct (IH _ I) as (I1 & I2). split; [now right|].
    intros C. apply I2. now right.
  - intros [->|I].
    + split; [now left|]. intros C. apply py_in_iff in C. congruence.
    + destruct (IH _ I) as (I1 & I2). split; [now right|].
      intros C. apply I2. now right.
Qed.

Lemma first_occurrences_distinct (rows : list Row) (met : list string) :
  NoDup (map Id (first_occurrences met rows)).
Proof.
  revert met. induction rows as [|r rows IH]; intros met; simpl;
    [constructor|].
  destruct (py_in (Id r) met); [apply IH|].
  simpl. constructor; [|apply IH].
  intros I. apply in_map_iff in I. destruct I as (r' & E & I).
  apply first_occurrences_spec in I. destruct I as (_ & I).
  apply I. rewrite E. now left.
Qed.

Lemma first_occurrences_cover (rows : list Row) (met : list string) (r : Row) :
  In r rows ->
  In (Id r) met \/ In (Id r) (map Id (first_occurrences met rows)).
Proof.
  revert met. induction rows as [|r' rows IH]; intros met; simpl;
    [contradiction|].
  intros [->|I].
  - destruct (py_in (Id r) met) eqn:P.
    + left. now apply py_in_iff.
    + right. now left.
  - destruct (IH (Id r' :: met) I) as [[E|M]|F].
    + destruct (py_in (Id r') met) eqn:P.
      * left. rewrite <- E. now apply py_in_iff.
      * right. left. exact E.
    + now left.
    + destruct (py_in (Id r') met); right; [exact F|now right].
Qed.

End WhaleSplit.

Section WhaleDatasetInit.

Import Datasets.
Local Open Scope nat_scope.

Variable data_path : string.
Variable train_data : list Row.
Variable height : Z.
Variable alt_data_path : option string.

Let uniq := np_unique (map Id train_data).

Lemma ids_in_uniq (r : Row) : In r train_data -> In (Id r) uniq.
Proof. intros I. apply np_unique_in. now apply in_map. Qed.

Lemma samples_of_rows (d : WhaleDataset) (rows : list Row) :
  labels d = map (fun r => label_of uniq (Id r)) rows ->
  label_ids d = map Id rows -> names d = map Image rows ->
  samples d = map (sample_of uniq) rows.
Proof.
  intros E1 E2 E3. unfold samples. rewrite E1, E2, E3.
  rewrite combine_map_map, combine_map_map. reflexivity.
Qed.

Lemma init_loop_result :
  let a := init_loop uniq train_data in
  acc_labels a = map (fun r => label_of uniq (Id r)) train_data /\
  acc_label_ids a = map Id train_data /\
  acc_names a = map Image train_data /\
  acc_setid a = setids uniq (repeat 0 (List.length uniq)) train_data.
Proof.
  apply (@init_loop_appends uniq train_data
           {| acc_labels := []; acc_label_ids := []; acc_setid := [];
              acc_names := [];
              unique_labels_seen := repeat 0 (List.length uniq) |}
           ids_in_uniq).
Qed.

Lemma init_no_set :
  exists d,
    WhaleDataset_init data_path train_data "no_set" height alt_data_path
      = Some d /\
    labels d = map (fun r => label_of uniq (Id r)) train_data /\
    label_ids d = map Id train_data /\
    names d = map Image train_data.
Proof.
  destruct init_loop_result as (L1 & L2 & L3 & L4).
  eexists. split; [reflexivity|]. simpl. fold uniq. auto.
Qed.

Lemma init_val :
  exists d,
    WhaleDataset_init data_path train_data "val" height alt_data_path
      = Some d /\
    labels d = map (fun r => label_of uniq (Id r))
                   (first_occurrences [] train_data) /\
    label_ids d = map Id (first_occurrences [] train_data) /\
    names d = map Image (first_occurrences [] train_data).
Proof.
  destruct init_loop_result as (L1 & L2 & L3 & L4).
  eexists. split; [reflexivity|]. simpl. fold uniq.
  rewrite L1, L2, L3, L4.
  repeat split; apply mask_val;
    solve [exact ids_in_uniq | apply seen_agree_init].
Qed.

Lemma init_train :
  exists d,
    WhaleDataset_init data_path train_data "train" height alt_data_path
      = Some d /\
    labels d = map (fun r => label_of uniq (Id r))
                   (later_occurrences [] train_data) /\
    label_ids d = map Id (later_occurrences [] train_data) /\
    names d = map Image (later_occurrences [] train_data).
Proof.
  destruct init_loop_result as (L1 & L2 & L3 & L4).
  eexists. split; [reflexivity|]. simpl. fold uniq.
  rewrite L1, L2, L3, L4.
  repeat split; apply mask_train;
    solve [exact ids_in_uniq | apply seen_agree_init].
Qed.

(** C10: the three modes build datasets; with mode "val" the samples are
    the first occurrence of each identifier, in row order, one per distinct
    label; with mode "train" they are the remaining rows; and the two
    together are, up to order, the samples of mode "no_set". *)
Theorem whale_split_partition :
  exists dv dt dn,
    WhaleDataset_init data_path train_data "val" height alt_data_path
      = Some dv /\
    WhaleDataset_init data_path train_data "train" height alt_data_path
      = Some dt /\
    WhaleDataset_init data_path train_data "no_set" height alt_data_path
      = Some dn /\
    samples dn = map (sample_of uniq) train_data /\
    samples dv = map (sample_of uniq) (first_occurrences [] train_data) /\
    samples dt = map (sample_of uniq) (later_occurrences [] train_data) /\
    NoDup (labels dv) /\
    List.length (labels dv) = List.length (names dv) /\
    (forall l, In l (labels dn) <-> In l (labels dv)) /\
    Permutation (samples dv ++ samples dt) (samples dn) /\
    (forall r, In r train_data ->
               nth_error uniq (label_of uniq (Id r)) = Some (Id r)).
Proof.
  destruct init_val as (dv & Ev & V1 & V2 & V3).
  destruct init_train as (dt & Et & T1 & T2 & T3).
  destruct init_no_set as (dn & En & N1 & N2 & N3).
  exists dv, dt, dn.
  assert (Sn := samples_of_rows dn train_data N1 N2 N3).
  assert (Sv := samples_of_rows dv _ V1 V2 V3).
  assert (St := samples_of_rows dt _ T1 T2 T3).
  repeat (split; [assumption|]).
  rewrite V1, V3, N1.
  split; [|split; [|split; [|split]]].
  - rewrite <- (map_map Id (label_of uniq)).
    apply NoDup_map_on; [|apply first_occurrences_distinct].
    intros x y Ix Iy. apply label_of_inj.
    + apply in_map_iff in Ix. destruct Ix as (r & <- & Ir).
      apply ids_in_uniq. now apply first_occurrences_spec in Ir.
    + apply in_map_iff in Iy. destruct Iy as (r & <- & Ir).
      apply ids_in_uniq. now apply first_occurrences_spec in Ir.
  - now rewrite !length_map.
  - intros l. rewrite !in_map_iff. split.
    + intros (r & <- & Ir).
      destruct (@first_occurrences_cover train_data [] r Ir) as [[]|F].
      apply in_map_iff in F. destruct F as (r' & E & Ir').
      exists r'. now rewrite E.
    + intros (r & <- & Ir). exists r. split; [reflexivity|].
      now apply first_occurrences_spec in Ir.
  - rewrite Sn, Sv, St, <- map_app. apply Permutation_map.
    apply first_later_partition.
  - intros r Ir. apply label_of_sound. now apply ids_in_uniq.
Qed.

End WhaleDatasetInit.

Section NumpyIndexing.

Import Datasets.
Local Open Scope nat_scope.

Lemma bool_mask_seq_in (m : list bool) (a j : nat) :
  In j (bool_mask (seq a (List.length m)) m) <->
  a <= j /\ nth_error m (j - a) = Some true.
Proof.
  revert a. induction m as [|b m IH]; intros a.
  - simpl. split; [contradiction|]. intros (_ & E).
    destruct (j - a); discriminate E.
  - cbn [List.length seq]. rewrite bool_mask_cons.
    assert (R : In j (bool_mask (seq (S a) (List.length m)) m) <->
                a < j /\ nth_error (b :: m) (j - a) = Some true).
    { rewrite IH. split.
      - intros (L & E). split; [lia|].
        replace (j - a) with (S (j - S a)) by lia. exact E.
      - intros (L & E). split; [lia|].
        replace (j - a) with (S (j - S a)) in E by lia. exact E. }
    destruct b; simpl In; rewrite ?R.
    + split.
      * intros [<-|(L & E)]; [|split; [lia|exact E]].
        split; [lia|]. now rewrite Nat.sub_diag.
      * intros (L & E). destruct (Nat.eq_dec a j) as [->|N]; [now left|].
        right. split; [lia|exact E].
    + split.
      * intros (L & E). split; [lia|exact E].
      * intros (L & E). split; [|exact E].
        destruct (Nat.eq_dec a j) as [->|N]; [|lia].
        rewrite Nat.sub_diag in E. discriminate E.
Qed.

Lemma bool_mask_seq_NoDup (m : list bool) (a : nat) :
  NoDup (bool_mask (seq a (List.length m)) m).
Proof.
  revert a. induction m as [|b m IH]; intros a.
  - constructor.
  - cbn [List.length seq]. rewrite bool_mask_cons.
    destruct b; [|apply IH]. constructor; [|apply IH].
    intros I. apply bool_mask_seq_in in I. lia.
Qed.

(** [np.where(mask)[0]] lists, without repetition, the positions at which
    the mask holds. *)
Lemma np_where_in (m : list bool) (j : nat) :
  In j (np_where m) <-> nth_error m j = Some true.
Proof.
  unfold np_where. rewrite bool_mask_seq_in, Nat.sub_0_r.
  split; [tauto|]. intros E. split; [lia|exact E].
Qed.

Lemma np_where_NoDup (m : list bool) : NoDup (np_where m).
Proof. apply bool_mask_seq_NoDup. Qed.

Lemma same_label_in (d : WhaleDataset) (lab j : nat) :
  In j (same_label d lab) <-> nth_error (labels d) j = Some lab.
Proof.
  unfold same_label. rewrite np_where_in, nth_error_map.
  destruct (nth_error (labels d) j) as [l|]; simpl; [|split; discriminate].
  destruct (Nat.eqb_spec l lab); split; congruence.
Qed.

Lemma other_label_in (d : WhaleDataset) (lab j : nat) :
  In j (other_label d lab) <->
  exists l, nth_error (labels d) j = Some l /\ l <> lab.
Proof.
  unfold other_label. rewrite np_where_in, nth_error_map.
  destruct (nth_error (labels d) j) as [l|]; simpl.
  - destruct (Nat.eqb_spec l lab); simpl; split.
    + discriminate.
    + intros (l' & [= <-] & N). contradiction.
    + intros _. now exists l.
    + reflexivity.
  - split; [discriminate|]. intros (l & E & _). discriminate E.
Qed.

Lemma py_getitem_ok {A} (l : list A) (idx : Z) (x : A) :
  py_getitem l idx = Ok x <->
  (0 <= position (List.length l) idx < Z.of_nat (List.length l))%Z /\
  nth_error l (Z.to_nat (position (List.length l) idx)) = Some x.
Proof.
  unfold py_getitem.
  destruct (Z.leb_spec 0 (position (List.length l) idx));
    destruct (Z.ltb_spec (position (List.length l) idx)
                (Z.of_nat (List.length l))); simpl;
    try (split; [discriminate|intros (? & _); lia]).
  destruct (nth_error l (Z.to_nat (position (List.length l) idx))).
  - split; [intros [= ->]; split; [lia|reflexivity]|].
    intros (_ & [= ->]). reflexivity.
  - split; [discriminate|]. intros (_ & E). discriminate E.
Qed.

Lemma py_getitem_of_nat {A} (l : list A) (j : nat) (x : A) :
  nth_error l j = Some x -> py_getitem l (Z.of_nat j) = Ok x.
Proof.
  intros E. apply py_getitem_ok.
  assert (L : j < List.length l) by (apply nth_error_Some; congruence).
  unfold position. destruct (Z.ltb_spec (Z.of_nat j) 0); [lia|].
  rewrite Nat2Z.id. split; [lia|exact E].
Qed.

End NumpyIndexing.

Section ImageSource.

Import Datasets.
Local Open Scope nat_scope.

Variable path_join : list string -> string.
Variable isfile : string -> bool.
Variable decoded_shape : string -> option (list Z).

Local Abbreviation getitem :=
  (WhaleDataset_getitem path_join isfile decoded_shape).

Lemma and_then_ok {A B} (o : outcome A) (k : A -> outcome B) (y : B) :
  and_then o k = Ok y -> exists x, o = Ok x /\ k x = Ok y.
Proof. destruct o as [x|e]; simpl; [eauto|discriminate]. Qed.

(** The label returned is the one stored at the index. *)
Lemma getitem_label (d : WhaleDataset) (idx : Z) (im : ndarray) (lab : nat) :
  getitem d idx = Ok (im, lab) -> py_getitem (labels d) idx = Ok lab.
Proof.
  unfold WhaleDataset_getitem. intros E.
  apply and_then_ok in E. destruct E as (r & _ & E).
  apply and_then_ok in E. destruct E as (im0 & _ & E).
  apply and_then_ok in E. destruct E as (l & El & E).
  apply and_then_ok in E. destruct E as (im1 & _ & E).
  injection E as _ <-. exact El.
Qed.


(** Whether an index is served, and with which label, does not depend on
    the height the dataset holds. *)
Lemma label_at_set_height (d : WhaleDataset) (h : Z) (idx : Z) :
  label_at path_join isfile decoded_shape (set_height h d) idx =
  label_at path_join isfile decoded_shape d idx.
Proof.
  unfold label_at, WhaleDataset_getitem.
  cbn [set_height alt_data_path names data_path labels height].
  destruct (match alt_data_path d with
            | Some alt => _
            | None => _
            end) as [r|e]; [|reflexivity].
  cbn [and_then].
  destruct (match r with Some im => _ | None => _ end) as [im|e];
    [|reflexivity].
  cbn [and_then].
  destruct (py_getitem (labels d) idx) as [l|e]; [|reflexivity].
  cbn [and_then]. unfold np_transpose_201, resize.
  cbn [shape List.length].
  destruct (skipn 2 (shape im)) as [|c [|c' rest]] eqn:Sk;
    cbn [List.length Nat.eqb app shape and_then]; rewrite ?Sk;
    cbn [List.length Nat.eqb app shape and_then]; reflexivity.
Qed.

Lemma label_at_some (d : WhaleDataset) (idx : Z) (lab : nat) :
  label_at path_join isfile decoded_shape d idx = Some lab <->
  exists im, getitem d idx = Ok (im, lab).
Proof.
  unfold label_at. destruct (getitem d idx) as [[im l]|e].
  - split; [intros [= ->]; now exists im|].
    intros (im' & [= _ ->]). reflexivity.
  - split; [discriminate|]. intros (im' & E). discriminate E.
Qed.

(** A dataset that serves its indices serves position [j] with the label
    stored there, at any height. *)
Lemma serves_at (d : WhaleDataset) (h : Z) (j l : nat) :
  serves path_join isfile decoded_shape d = true ->
  nth_error (labels d) j = Some l ->
  exists im, getitem (set_height h d) (Z.of_nat j) = Ok (im, l).
Proof.
  intros S E. unfold serves in S. rewrite forallb_forall in S.
  assert (L : j < List.length (labels d))
    by (apply nth_error_Some; congruence).
  specialize (S j (proj2 (in_seq _ _ _) (conj (Nat.le_0_l j) L))).
  apply label_at_some. rewrite label_at_set_height.
  unfold label_at.
  destruct (getitem d (Z.of_nat j)) as [[im l']|e] eqn:G;
    [|discriminate S].
  apply getitem_label in G. rewrite (@py_getitem_of_nat _ (labels d) j l E) in G.
  congruence.
Qed.

End ImageSource.

Section TripletSampling.

Import Datasets.
Local Open Scope nat_scope.

Variable path_join : list string -> string.
Variable isfile : string -> bool.
Variable decoded_shape : string -> option (list Z).

Local Abbreviation getitem :=
  (WhaleDataset_getitem path_join isfile decoded_shape).
Local Abbreviation triplet_getitem :=
  (WhaleTripletDataset_getitem path_join isfile decoded_shape).

Lemma bind_ok {S A B} (m : M S A) (k : A -> M S B) (s s' : S) (a : A) :
  m s = (Ok a, s') -> bind m k s = k a s'.
Proof. unfold bind. now intros ->. Qed.

Lemma bind_raise {S A B} (m : M S A) (k : A -> M S B) (s s' : S) (e : exn) :
  m s = (Raise e, s') -> bind m k s = (Raise e, s').
Proof. unfold bind. now intros ->. Qed.

Lemma assign_height_run (h : Z) (s : Heap) :
  assign_height h s =
  (Ok tt, {| orig := set_height h (orig s); tape := tape s;
             cursor := cursor s; trace := trace s ++ [SetHeight h] |}).
Proof. reflexivity. Qed.

Lemma orig_getitem_run (idx : Z) (s : Heap) :
  orig_getitem path_join isfile decoded_shape idx s =
  (getitem (orig s) idx,
   {| orig := orig s; tape := tape s; cursor := cursor s;
      trace := trace s ++ [Fetch idx (height (orig s))] |}).
Proof. reflexivity. Qed.

Lemma randint_run (high : nat) (s : Heap) :
  high <> 0 ->
  randint high s =
  (Ok (tape s (cursor s) mod high),
   {| orig := orig s; tape := tape s; cursor := S (cursor s);
      trace := trace s ++ [Randint high (tape s (cursor s) mod high)] |}).
Proof. destruct high; [congruence|reflexivity]. Qed.

Lemma set_height_twice (h h' : Z) (d : WhaleDataset) :
  set_height h' (set_height h d) = set_height h' d.
Proof. reflexivity. Qed.

Lemma height_list_1 (h0 h1 : Z) (rest : list Z) :
  py_getitem (h0 :: h1 :: rest) 1 = Ok h1.
Proof. exact (@py_getitem_of_nat _ (h0 :: h1 :: rest) 1 h1 eq_refl). Qed.

Lemma height_list_2 (h0 h1 h2 : Z) (rest : list Z) :
  py_getitem (h0 :: h1 :: h2 :: rest) 2 = Ok h2.
Proof.
  exact (@py_getitem_of_nat _ (h0 :: h1 :: h2 :: rest) 2 h2 eq_refl).
Qed.

(** The anchor's own position carries the anchor's label. *)
Lemma anchor_in_same_label (d : WhaleDataset) (idx : Z) (L : nat) :
  label_at path_join isfile decoded_shape d idx = Some L ->
  In (Z.to_nat (position (List.length (labels d)) idx)) (same_label d L).
Proof.
  intros E. apply label_at_some in E. destruct E as (im & G).
  apply getitem_label in G. apply py_getitem_ok in G.
  apply same_label_in. tauto.
Qed.

Lemma keeps_bind {A B} (m : M Heap A) (k : A -> M Heap B) :
  keeps_fields m -> (forall a, keeps_fields (k a)) -> keeps_fields (bind m k).
Proof.
  intros Km Kk s. unfold bind. specialize (Km s).
  destruct (m s) as [[a|e] s']; simpl in *.
  - now rewrite Kk.
  - exact Km.
Qed.

Lemma keeps_lift {A} (o : outcome A) : keeps_fields (lift (S:=Heap) o).
Proof. intros s. reflexivity. Qed.

Lemma keeps_assign_height (h : Z) : keeps_fields (assign_height h).
Proof. intros s. reflexivity. Qed.

Lemma keeps_orig_getitem (idx : Z) :
  keeps_fields (orig_getitem path_join isfile decoded_shape idx).
Proof. intros s. reflexivity. Qed.

Lemma keeps_randint (high : nat) : keeps_fields (randint high).
Proof. intros s. destruct high; reflexivity. Qed.

Lemma triplet_getitem_keeps_fields (self : WhaleTripletDataset) (idx : Z) :
  keeps_fields (triplet_getitem self idx).
Proof.
  unfold WhaleTripletDataset_getitem.
  repeat first
    [ apply keeps_lift | apply keeps_assign_height
    | apply keeps_orig_getitem | apply keeps_randint
    | (intros s; reflexivity)
    | apply keeps_bind; [|intros []]
    | apply keeps_bind; [|intros ?] ].
Qed.

(** A successful sampling call, step by step. *)
Lemma triplet_run (self : WhaleTripletDataset) (idx : Z) (s : Heap)
      (h0 h1 h2 : Z) (rest : list Z) (L : nat) :
  height_list self = h0 :: h1 :: h2 :: rest ->
  label_at path_join isfile decoded_shape (orig s) idx = Some L ->
  serves path_join isfile decoded_shape (orig s) = true ->
  other_label (orig s) L <> [] ->
  let same := same_label (orig s) L in
  let other := other_label (orig s) L in
  let kp := tape s (cursor s) mod List.length same in
  let kn := tape s (S (cursor s)) mod List.length other in
  let p := nth kp same 0 in
  let q := nth kn other 0 in
  exists im im_pos im_neg lab_neg,
    getitem (set_height h0 (orig s)) idx = Ok (im, L) /\
    getitem (set_height h1 (orig s)) (Z.of_nat p) = Ok (im_pos, L) /\
    getitem (set_height h2 (orig s)) (Z.of_nat q) = Ok (im_neg, lab_neg) /\
    In p same /\ In q other /\
    nth_error (labels (orig s)) q = Some lab_neg /\ lab_neg <> L /\
    triplet_getitem self idx s =
    (Ok (im, im_pos, im_neg, L, lab_neg),
     {| orig := set_height h2 (orig s); tape := tape s;
        cursor := S (S (cursor s));
        trace := trace s ++
          [SetHeight h0; Fetch idx h0;
           Randint (List.length same) kp; Randint (List.length other) kn;
           SetHeight h1; Fetch (Z.of_nat p) h1;
           SetHeight h2; Fetch (Z.of_nat q) h2] |}).
Proof.
  intros Hhl Hanchor Hserves Hother same other kp kn p q.
  assert (Hsame : same <> []).
  { intros C. apply anchor_in_same_label in Hanchor.
    fold same in Hanchor. rewrite C in Hanchor. contradiction. }
  assert (Lp : kp < List.length same).
  { apply Nat.mod_upper_bound. intros C.
    apply length_zero_iff_nil in C. contradiction. }
  assert (Lq : kn < List.length other).
  { apply Nat.mod_upper_bound. intros C.
    apply length_zero_iff_nil in C. contradiction. }
  assert (Ip : In p same) by (apply nth_In; exact Lp).
  assert (Iq : In q other) by (apply nth_In; exact Lq).
  assert (Ep := proj1 (same_label_in _ _ _) Ip).
  destruct (proj1 (other_label_in _ _ _) Iq) as (lab_neg & Eq & Nq).
  rewrite <- (label_at_set_height _ _ _ _ h0) in Hanchor.
  apply label_at_some in Hanchor. destruct Hanchor as (im & G0).
  destruct (serves_at _ _ _ _ h1 _ Hserves Ep) as (im_pos & G1).
  destruct (serves_at _ _ _ _ h2 _ Hserves Eq) as (im_neg & G2).
  exists im, im_pos, im_neg, lab_neg.
  repeat (split; [assumption|]).
  assert (Np : List.length same <> 0)
    by (intros C; apply length_zero_iff_nil in C; contradiction).
  assert (Nn : List.length other <> 0)
    by (intros C; apply length_zero_iff_nil in C; contradiction).
  unfold WhaleTripletDataset_getitem. rewrite Hhl.
  erewrite bind_ok by reflexivity.
  erewrite bind_ok by apply assign_height_run.
  erewrite bind_ok
    by (rewrite orig_getitem_run; cbn [orig height set_height];
        rewrite G0; reflexivity).
  cbn beta iota.
  erewrite bind_ok by reflexivity.
  cbn [orig labels set_height tape cursor trace].
  change (np_where (map (fun l => Nat.eqb l L) (labels (orig s))))
    with same.
  change (np_where (map (fun l => negb (Nat.eqb l L)) (labels (orig s))))
    with other.
  erewrite bind_ok by (apply randint_run; exact Np).
  erewrite bind_ok by (apply randint_run; exact Nn).
  cbn [orig labels set_height tape cursor trace].
  fold kp kn p q.
  erewrite bind_ok by (unfold lift; rewrite height_list_1; reflexivity).
  erewrite bind_ok by apply assign_height_run.
  cbn [orig labels tape cursor trace].
  erewrite bind_ok
    by (rewrite orig_getitem_run; cbn [orig]; rewrite set_height_twice;
        rewrite G1; reflexivity).
  cbn beta iota.
  erewrite bind_ok by (unfold lift; rewrite height_list_2; reflexivity).
  erewrite bind_ok by apply assign_height_run.
  cbn [orig labels tape cursor trace].
  erewrite bind_ok
    by (rewrite orig_getitem_run; cbn [orig]; rewrite !set_height_twice;
        rewrite G2; reflexivity).
  cbn beta iota. unfold ret.
  cbn [orig labels tape cursor trace height set_height].
  rewrite <- !app_assoc. reflexivity.
Qed.

(** With a single label in the dataset the second draw has no candidate. *)
Lemma single_label_no_other (d : WhaleDataset) (L : nat) :
  (forall l, In l (labels d) -> l = L) -> other_label d L = [].
Proof.
  intros A. destruct (other_label d L) as [|j o] eqn:E; [reflexivity|].
  assert (I : In j (other_label d L)) by (rewrite E; now left).
  apply other_label_in in I. destruct I as (l & El & N).
  exfalso. apply N, A. eapply nth_error_In. exact El.
Qed.

(** A sampling call on a dataset with a single label, step by step. *)
Lemma triplet_run_single_label (self : WhaleTripletDataset) (idx : Z)
      (s : Heap) (h0 : Z) (rest : list Z) (L : nat) :
  height_list self = h0 :: rest ->
  label_at path_join isfile decoded_shape (orig s) idx = Some L ->
  other_label (orig s) L = [] ->
  let same := same_label (orig s) L in
  triplet_getitem self idx s =
  (Raise ValueError,
   {| orig := set_height h0 (orig s); tape := tape s;
      cursor := S (cursor s);
      trace := trace s ++
        [SetHeight h0; Fetch idx h0;
         Randint (List.length same)
                 (tape s (cursor s) mod List.length same)] |}).
Proof.
  intros Hhl Hanchor Hother same.
  assert (Np : List.length same <> 0).
  { intros C. apply length_zero_iff_nil in C.
    apply anchor_in_same_label in Hanchor.
    fold same in Hanchor. rewrite C in Hanchor. contradiction. }
  rewrite <- (label_at_set_height _ _ _ _ h0) in Hanchor.
  apply label_at_some in Hanchor. destruct Hanchor as (im & G0).
  unfold WhaleTripletDataset_getitem. rewrite Hhl.
  erewrite bind_ok by reflexivity.
  erewrite bind_ok by apply assign_height_run.
  erewrite bind_ok
    by (rewrite orig_getitem_run; cbn [orig height set_height];
        rewrite G0; reflexivity).
  cbn beta iota.
  erewrite bind_ok by reflexivity.
  cbn [orig labels set_height tape cursor trace].
  change (np_where (map (fun l => Nat.eqb l L) (labels (orig s))))
    with same.
  change (np_where (map (fun l => negb (Nat.eqb l L)) (labels (orig s))))
    with (other_label (orig s) L).
  rewrite Hother.
  erewrite bind_ok by (apply randint_run; exact Np).
  erewrite bind_raise by reflexivity.
  cbn [orig labels set_height tape cursor trace].
  rewrite <- !app_assoc. reflexivity.
Qed.

End TripletSampling.

Section TripletClaims.

Import Datasets.
Local Open Scope nat_scope.

Variable path_join : list string -> string.
Variable isfile : string -> bool.
Variable decoded_shape : string -> option (list Z).

Local Abbreviation getitem :=
  (WhaleDataset_getitem path_join isfile decoded_shape).
Local Abbreviation triplet_getitem :=
  (WhaleTripletDataset_getitem path_join isfile decoded_shape).

Variable self : WhaleTripletDataset.
Variable idx : Z.
Variable s : Heap.
Variable L : nat.

Lemma skipn_own_length {A} (l l' : list A) :
  skipn (List.length l) (l ++ l') = l'.
Proof.
  rewrite skipn_app, skipn_all, Nat.sub_diag. reflexivity.
Qed.

Lemma drawn_from_all {A} (l : list A) (d x : A) :
  In x l -> exists t, nth (t mod List.length l) l d = x.
Proof.
  intros I. destruct (In_nth l x d I) as (k & Lk & E).
  exists k. now rewrite Nat.mod_small.
Qed.

(** C3: on a dataset that serves its indices and holds some label other
    than the anchor's label L, the call returns; the positive index is the
    element at position randint(len) of the duplicate-free list of the
    indices whose label is L (which contains the anchor's own position, and
    each of whose elements is drawn for some value of the generator), the
    negative index likewise from the indices whose label is not L; the
    positive sample has label L and the negative sample's label differs. *)
Theorem triplet_draws_by_label (h0 h1 h2 : Z) (rest : list Z) :
  height_list self = h0 :: h1 :: h2 :: rest ->
  label_at path_join isfile decoded_shape (orig s) idx = Some L ->
  serves path_join isfile decoded_shape (orig s) = true ->
  other_label (orig s) L <> [] ->
  let lbls := labels (orig s) in
  let same := same_label (orig s) L in
  let other := other_label (orig s) L in
  let kp := tape s (cursor s) mod List.length same in
  let kn := tape s (S (cursor s)) mod List.length other in
  let p := nth kp same 0 in
  let q := nth kn other 0 in
  (NoDup same /\ forall j, In j same <-> nth_error lbls j = Some L) /\
  In (Z.to_nat (position (List.length lbls) idx)) same /\
  (NoDup other /\
   forall j, In j other <-> exists l, nth_error lbls j = Some l /\ l <> L) /\
  kp < List.length same /\ kn < List.length other /\
  (forall j, In j same ->
             exists t, nth (t mod List.length same) same 0 = j) /\
  (forall j, In j other ->
             exists t, nth (t mod List.length other) other 0 = j) /\
  exists im im_pos im_neg lab_neg s',
    triplet_getitem self idx s = (Ok (im, im_pos, im_neg, L, lab_neg), s') /\
    trace s' = trace s ++
      [SetHeight h0; Fetch idx h0;
       Randint (List.length same) kp; Randint (List.length other) kn;
       SetHeight h1; Fetch (Z.of_nat p) h1;
       SetHeight h2; Fetch (Z.of_nat q) h2] /\
    nth_error lbls p = Some L /\
    nth_error lbls q = Some lab_neg /\ lab_neg <> L.
Proof.
  intros Hhl Hanchor Hserves Hother lbls same other kp kn p q.
  destruct (triplet_run path_join isfile decoded_shape self idx s
              Hhl Hanchor Hserves Hother)
    as (im & im_pos & im_neg & lab_neg & G0 & G1 & G2 & Ip & Iq & Eq & Nq
        & Run).
  fold same other kp kn p q in G1, G2, Ip, Iq, Eq, Run.
  assert (Ia := anchor_in_same_label _ _ _ _ _ Hanchor). fold same in Ia.
  split; [split; [apply np_where_NoDup|intros j; apply same_label_in]|].
  split; [exact Ia|].
  split; [split; [apply np_where_NoDup|intros j; apply other_label_in]|].
  split.
  { apply Nat.mod_upper_bound. intros C.
    apply length_zero_iff_nil in C. rewrite C in Ia. contradiction. }
  split.
  { apply Nat.mod_upper_bound. intros C.
    apply length_zero_iff_nil in C. contradiction. }
  split; [intros j; apply drawn_from_all|].
  split; [intros j; apply drawn_from_all|].
  exists im, im_pos, im_neg, lab_neg. eexists.
  split; [exact Run|]. split; [reflexivity|].
  split; [apply same_label_in; exact Ip|]. split; assumption.
Qed.

(** C7: when every sample carries the anchor's label L, the call raises
    ValueError at the draw of the negative index (after the anchor fetch
    and the positive draw); nothing is returned in its place. *)
Theorem triplet_single_label_raises (h0 : Z) (rest : list Z) :
  height_list self = h0 :: rest ->
  label_at path_join isfile decoded_shape (orig s) idx = Some L ->
  (forall l, In l (labels (orig s)) -> l = L) ->
  let same := same_label (orig s) L in
  other_label (orig s) L = [] /\
  randint 0 s = (Raise ValueError, s) /\
  exists s',
    triplet_getitem self idx s = (Raise ValueError, s') /\
    trace s' = trace s ++
      [SetHeight h0; Fetch idx h0;
       Randint (List.length same)
               (tape s (cursor s) mod List.length same)].
Proof.
  intros Hhl Hanchor Hall same.
  assert (Hother := @single_label_no_other (orig s) L Hall).
  split; [exact Hother|]. split; [reflexivity|].
  eexists. split.
  - apply (triplet_run_single_label path_join isfile decoded_shape
             self idx s Hhl Hanchor Hother).
  - reflexivity.
Qed.


(** C9: a call that returns has assigned orig_dataset.height three times,
    to height_list[0], [1] and [2] in this order; afterwards the wrapped
    dataset is the one before the call with height = height_list[2], every
    other field as it was; and no call, whatever its outcome, changes a
    field other than height. *)
Theorem triplet_getitem_mutates_height (h0 h1 h2 : Z) (rest : list Z) :
  height_list self = h0 :: h1 :: h2 :: rest ->
  label_at path_join isfile decoded_shape (orig s) idx = Some L ->
  serves path_join isfile decoded_shape (orig s) = true ->
  other_label (orig s) L <> [] ->
  exists r s',
    triplet_getitem self idx s = (Ok r, s') /\
    filter is_set_height (skipn (List.length (trace s)) (trace s')) =
      [SetHeight h0; SetHeight h1; SetHeight h2] /\
    orig s' = set_height h2 (orig s) /\
    height (orig s') = h2 /\
    data_path (orig s') = data_path (orig s) /\
    alt_data_path (orig s') = alt_data_path (orig s) /\
    unique_labels (orig s') = unique_labels (orig s) /\
    mode (orig s') = mode (orig s) /\
    labels (orig s') = labels (orig s) /\
    label_ids (orig s') = label_ids (orig s) /\
    names (orig s') = names (orig s) /\
    forall self' idx', keeps_fields (triplet_getitem self' idx').
Proof.
  intros Hhl Hanchor Hserves Hother.
  destruct (triplet_run path_join isfile decoded_shape self idx s
              Hhl Hanchor Hserves Hother)
    as (im & im_pos & im_neg & lab_neg & _ & _ & _ & _ & _ & _ & _ & Run).
  eexists. eexists. split; [exact Run|].
  cbn [trace orig]. rewrite skipn_own_length.
  repeat (split; [reflexivity|]).
  intros self' idx'. apply triplet_getitem_keeps_fields.
Qed.

End TripletClaims.

Section TripletWitnesses.

Import Datasets Examples.
Local Open Scope nat_scope.

Local Abbreviation ex_label_at :=
  (label_at ex_path_join ex_isfile ex_decoded_shape).
Local Abbreviation ex_serves :=
  (serves ex_path_join ex_isfile ex_decoded_shape).
Local Abbreviation ex_getitem :=
  (WhaleTripletDataset_getitem ex_path_join ex_isfile ex_decoded_shape).

Lemma triplet_draws_by_label_witness :
  height_list ex_triplet = [32; 64; 128]%Z /\
  ex_label_at (orig (ex_heap ex_whales)) 0 = Some 0 /\
  ex_serves (orig (ex_heap ex_whales)) = true /\
  other_label (orig (ex_heap ex_whales)) 0 <> [] /\
  exists im im_pos im_neg lab_neg s',
    ex_getitem ex_triplet 0%Z (ex_heap ex_whales)
    = (Ok (im, im_pos, im_neg, 0, lab_neg), s') /\
    trace s' =
      [SetHeight 32; Fetch 0 32; Randint 2 1; Randint 3 1;
       SetHeight 64; Fetch 1 64; SetHeight 128; Fetch 3 128] /\
    lab_neg <> 0.
Proof.
  assert (H1 : height_list ex_triplet = [32; 64; 128]%Z) by reflexivity.
  assert (H2 : ex_label_at (orig (ex_heap ex_whales)) 0 = Some 0)
    by (vm_compute; reflexivity).
  assert (H3 : ex_serves (orig (ex_heap ex_whales)) = true)
    by (vm_compute; reflexivity).
  assert (H4 : other_label (orig (ex_heap ex_whales)) 0 <> [])
    by (vm_compute; discriminate).
  repeat (split; [assumption|]).
  destruct (@triplet_draws_by_label ex_path_join ex_isfile ex_decoded_shape
              ex_triplet 0%Z (ex_heap ex_whales) 0 32%Z 64%Z 128%Z []
              H1 H2 H3 H4)
    as (_ & _ & _ & _ & _ & _ & _ & im & im_pos & im_neg & lab_neg & s'
        & Run & Tr & _ & _ & Ne).
  exists im, im_pos, im_neg, lab_neg, s'.
  split; [exact Run|]. split; [exact Tr|exact Ne].
Defined.

Lemma triplet_single_label_raises_witness :
  height_list ex_triplet = [32; 64; 128]%Z /\
  ex_label_at (orig (ex_heap ex_one_label)) 0 = Some 7 /\
  (forall l, In l (labels (orig (ex_heap ex_one_label))) -> l = 7) /\
  exists s',
    ex_getitem ex_triplet 0%Z (ex_heap ex_one_label)
    = (Raise ValueError, s') /\
    trace s' = [SetHeight 32; Fetch 0 32; Randint 3 1].
Proof.
  assert (H1 : height_list ex_triplet = [32; 64; 128]%Z) by reflexivity.
  assert (H2 : ex_label_at (orig (ex_heap ex_one_label)) 0 = Some 7)
    by (vm_compute; reflexivity).
  assert (H3 : forall l, In l (labels (orig (ex_heap ex_one_label))) -> l = 7)
    by (simpl; intros l [<-|[<-|[<-|[]]]]; reflexivity).
  repeat (split; [assumption|]).
  apply (@triplet_single_label_raises ex_path_join ex_isfile
           ex_decoded_shape ex_triplet 0%Z (ex_heap ex_one_label) 7 32%Z
           [64; 128]%Z H1 H2 H3).
Defined.


Lemma triplet_getitem_mutates_height_witness :
  height_list ex_triplet = [32; 64; 128]%Z /\
  ex_label_at (orig (ex_heap ex_whales)) 0 = Some 0 /\
  ex_serves (orig (ex_heap ex_whales)) = true /\
  other_label (orig (ex_heap ex_whales)) 0 <> [] /\
  height (orig (ex_heap ex_whales)) = 256%Z /\
  exists r s',
    ex_getitem ex_triplet 0%Z (ex_heap ex_whales) = (Ok r, s') /\
    filter is_set_height (trace s') =
      [SetHeight 32; SetHeight 64; SetHeight 128] /\
    orig s' = set_height 128 ex_whales /\
    height (orig s') = 128%Z.
Proof.
  assert (H1 : height_list ex_triplet = [32; 64; 128]%Z) by reflexivity.
  assert (H2 : ex_label_at (orig (ex_heap ex_whales)) 0 = Some 0)
    by (vm_compute; reflexivity).
  assert (H3 : ex_serves (orig (ex_heap ex_whales)) = true)
    by (vm_compute; reflexivity).
  assert (H4 : other_label (orig (ex_heap ex_whales)) 0 <> [])
    by (vm_compute; discriminate).
  repeat (split; [assumption|]).
  split; [reflexivity|].
  destruct (@triplet_getitem_mutates_height ex_path_join ex_isfile
              ex_decoded_shape ex_triplet 0%Z (ex_heap ex_whales) 0
              32%Z 64%Z 128%Z [] H1 H2 H3 H4)
    as (r & s' & Run & Tr & Eo & Eh & _).
  exists r, s'.
  split; [exact Run|]. split; [exact Tr|]. split; [exact Eo|exact Eh].
Defined.

End TripletWitnesses.

(** * Further properties of lib.py *)

Section MoreSums.

Import Lib.

Lemma sum_over_app (l1 l2 : list nat) (f : nat -> Q) :
  sum_over (l1 ++ l2) f == sum_over l1 f + sum_over l2 f.
Proof.
  induction l1 as [|a l1 IH]; simpl.
  - ring.
  - rewrite IH. ring.
Qed.

Lemma sum_upto_succ (n : nat) (f : nat -> Q) :
  sum_upto (S n) f == sum_upto n f + f n.
Proof.
  unfold sum_upto. rewrite seq_S, sum_over_app. simpl. ring.
Qed.





End MoreSums.

Section MoreLandmarks.

Import Lib LibMore.





End MoreLandmarks.

Section MoreRigidTransform.

Import Lib.

Variable Img : Type.
Variable affine : Img -> AffineCall -> outcome Img.

(** X3: in inverse mode with scale 0 the call raises ZeroDivisionError,
    and it does so after the first affine call (the translation by
    -translate) has been made: one call is logged, no image is returned. *)
Theorem rigid_transform_inverse_zero_scale (img img1 : Img) (angle : Z)
        (translate : list Z) (scale : Q) (log : list AffineCall) :
  let undo_translate :=
    {| a_angle := 0; a_translate := map Z.opp translate; a_scale := 1;
       a_shear := 0; a_interpolation := None |} in
  scale == 0 ->
  affine img undo_translate = Ok img1 ->
  rigid_transform affine img angle translate scale true log =
    (Raise ZeroDivisionError, log ++ [undo_translate]).
Proof.
  intros c1 Hs H1.
  unfold rigid_transform, call_affine, bind, lift, py_truediv. simpl.
  fold c1. rewrite H1.
  apply Qeq_bool_iff in Hs. rewrite Hs. reflexivity.
Qed.

End MoreRigidTransform.

Lemma rigid_transform_inverse_zero_scale_witness :
  let affine := fun (img : list Lib.AffineCall) c => Ok (img ++ [c]) in
  let c1 := {| Lib.a_angle := 0; Lib.a_translate := [-10; 5]%Z;
               Lib.a_scale := 1; Lib.a_shear := 0;
               Lib.a_interpolation := None |} in
  0 == 0 /\
  affine [] c1 = Ok [c1] /\
  Lib.rigid_transform affine [] 45 [10; -5]%Z 0 true [] =
    (Raise ZeroDivisionError, [c1]).
Proof.
  intros affine c1.
  split; [reflexivity|]. split; [reflexivity|].
  apply (@rigid_transform_inverse_zero_scale _ affine [] [c1] 45%Z
           [10; -5]%Z 0 []).
  - reflexivity.
  - reflexivity.
Defined.

Section LandmarksToRgb.

Import Lib Datasets LibMore.

Lemma for_each_app {S} (l1 l2 : list nat) (body : nat -> S -> outcome S)
      (s : S) :
  for_each (l1 ++ l2) body s =
  and_then (for_each l1 body s) (for_each l2 body).
Proof.
  revert s. induction l1 as [|k l1 IH]; intros s; simpl; [reflexivity|].
  destruct (body k s) as [s'|e]; [apply IH|reflexivity].
Qed.

Lemma COLORS_rows : Forall (fun col => List.length col = 3%nat) COLORS.
Proof. repeat constructor. Qed.

(** The lookup [COLORS[m % 25]] is always inside the 27 colours. *)
Lemma COLORS_lookup (m : nat) :
  py_getitem COLORS (Z.of_nat (Nat.modulo m 25)) =
    Ok (nth (Nat.modulo m 25) COLORS []) /\
  List.length (nth (Nat.modulo m 25) COLORS []) = 3%nat.
Proof.
  assert (L : (Nat.modulo m 25 < 25)%nat)
    by (apply Nat.mod_upper_bound; discriminate).
  assert (L' : (Nat.modulo m 25 < List.length COLORS)%nat)
    by (change (List.length COLORS) with 27%nat; lia).
  split.
  - apply py_getitem_of_nat. now apply nth_error_nth'.
  - apply (proj1 (Forall_forall _ _) COLORS_rows). now apply nth_In.
Qed.

Lemma color_lookup (col : list Q) (c : nat) :
  List.length col = 3%nat -> (c < 3)%nat ->
  py_getitem col (Z.of_nat c) = Ok (nth c col 0).
Proof.
  intros L C. apply py_getitem_of_nat. apply nth_error_nth'. lia.
Qed.

Lemma rgb_update_ok (maps : Tensor3) (m c : nat)
      (rgb : nat -> nat -> nat -> Q) :
  (c < 3)%nat ->
  rgb_update maps m c rgb =
  Ok (fun i j c' =>
        if Nat.eqb c' c then rgb i j c' + cell maps m i j * color_weight m c
        else rgb i j c').
Proof.
  intros C. unfold rgb_update.
  destruct (COLORS_lookup m) as (E & L). rewrite E. cbn [and_then].
  rewrite (color_lookup _ L C). reflexivity.
Qed.

(** One pass of the inner loop adds part [m] to the three channels. *)
Lemma rgb_part_ok (maps : Tensor3) (m : nat) (rgb : nat -> nat -> nat -> Q) :
  exists rgb',
    for_each (seq 0 3) (fun c rgb => rgb_update maps m c rgb) rgb = Ok rgb' /\
    forall i j c,
      rgb' i j c ==
      if Nat.ltb c 3 then rgb i j c + cell maps m i j * color_weight m c
      else rgb i j c.
Proof.
  eexists. split.
  - cbn [seq for_each].
    rewrite !rgb_update_ok by lia. reflexivity.
  - intros i j c. cbv beta.
    destruct c as [|[|[|c]]]; cbn [Nat.eqb Nat.ltb Nat.leb]; reflexivity.
Qed.

Lemma rgb_parts_ok (maps : Tensor3) (n : nat) :
  exists rgb,
    for_each (seq 0 n)
      (fun m rgb => for_each (seq 0 3)
                      (fun c rgb => rgb_update maps m c rgb) rgb)
      (fun _ _ _ => 0) = Ok rgb /\
    forall i j c,
      rgb i j c ==
      if Nat.ltb c 3
      then sum_upto n (fun m => cell maps m i j * color_weight m c)
      else 0.
Proof.
  induction n as [|n (rgb & E & P)].
  - eexists. split; [reflexivity|]. intros i j c. cbv beta.
    destruct (Nat.ltb c 3); reflexivity.
  - destruct (rgb_part_ok maps n rgb) as (rgb' & E' & P').
    exists rgb'. split.
    + rewrite seq_S, for_each_app, E. cbn [and_then for_each Nat.add].
      rewrite E'. reflexivity.
    + intros i j c. specialize (P i j c). specialize (P' i j c).
      destruct (Nat.ltb c 3); rewrite P', P; [|reflexivity].
      rewrite sum_upto_succ. reflexivity.
Qed.

(** X4: landmarks_to_rgb never raises, whatever the number of parts (the
    colour index m % 25 stays inside the 27 entries of COLORS), and channel
    c of pixel (i, j) is the sum over the parts m of
    maps[m, i, j] * COLORS[m % 25][c]. *)
Theorem landmarks_to_rgb_total (maps : Tensor3) :
  exists rgb,
    landmarks_to_rgb maps = Ok rgb /\
    forall i j c, (c < 3)%nat ->
      rgb i j c ==
      sum_upto (dim0 maps) (fun m => cell maps m i j * color_weight m c).
Proof.
  destruct (rgb_parts_ok maps (dim0 maps)) as (rgb & E & P).
  exists rgb. split; [exact E|].
  intros i j c C. rewrite P.
  destruct (Nat.ltb_spec c 3); [reflexivity|lia].
Qed.




End LandmarksToRgb.

Section GetEpochLoop.

Import Datasets LibMore.
Import Ascii.
Local Open Scope Z_scope.

Variable py_int : string -> outcome Z.

Lemma epoch_loop_max (files : list string) (e0 : Z) :
  all_parse py_int files ->
  exists e,
    epoch_loop py_int files e0 = Ok e /\ e0 <= e /\
    (forall f v, In f files -> carries py_int f v -> v <= e) /\
    (e = e0 \/ exists f, In f files /\ carries py_int f e).
Proof.
  revert e0. induction files as [|f files IH]; intros e0 A.
  - exists e0. simpl. repeat split; [lia|contradiction|now left].
  - assert (A' : all_parse py_int files)
      by (intros g Ig; apply A; now right).
    cbn [epoch_loop].
    destruct (has_char "_" f) eqn:Hc.
    + destruct (A f (or_introl eq_refl) Hc) as (v & Ev). rewrite Ev.
      destruct (Z.gtb_spec v e0) as [G|G].
      * destruct (IH v A') as (e & E & L & U & W).
        exists e. split; [exact E|]. split; [lia|]. split.
        -- intros g w [<-|Ig] (Cg & Pg).
           ++ rewrite Ev in Pg. injection Pg as <-. exact L.
           ++ apply (U g w Ig). now split.
        -- right. destruct W as [->|(g & Ig & Cg)].
           ++ exists f. split; [now left|now split].
           ++ exists g. split; [now right|exact Cg].
      * destruct (IH e0 A') as (e & E & L & U & W).
        exists e. split; [exact E|]. split; [exact L|]. split.
        -- intros g w [<-|Ig] (Cg & Pg).
           ++ rewrite Ev in Pg. injection Pg as <-. lia.
           ++ apply (U g w Ig). now split.
        -- destruct W as [->|(g & Ig & Cg)]; [now left|].
           right. exists g. split; [now right|exact Cg].
    + destruct (IH e0 A') as (e & E & L & U & W).
      exists e. split; [exact E|]. split; [exact L|]. split.
      * intros g w [<-|Ig] (Cg & Pg); [congruence|].
        apply (U g w Ig). now split.
      * destruct W as [->|(g & Ig & Cg)]; [now left|].
        right. exists g. split; [now right|exact Cg].
Qed.

Lemma epoch_loop_bad_file (files : list string) (e0 : Z) (f : string) :
  In f files -> has_char "_" f = true ->
  raises (py_int (split_head "_" f)) = true ->
  raises (epoch_loop py_int files e0) = true.
Proof.
  revert e0. induction files as [|g files IH]; intros e0 I Hc R;
    [contradiction|].
  cbn [epoch_loop]. destruct I as [->|I].
  - rewrite Hc. destruct (py_int (split_head "_" f)); [discriminate R|].
    reflexivity.
  - destruct (has_char "_" g); [|now apply IH].
    destruct (py_int (split_head "_" g)) as [v|e]; [|reflexivity].
    destruct (v >? e0); now apply IH.
Qed.

Lemma epoch_loop_ok_all_parse (files : list string) (e0 e : Z) :
  epoch_loop py_int files e0 = Ok e -> all_parse py_int files.
Proof.
  intros E f I Hc.
  destruct (py_int (split_head "_" f)) as [v|x] eqn:P; [now exists v|].
  assert (R := @epoch_loop_bad_file files e0 f I Hc).
  rewrite P, E in R. discriminate (R eq_refl).
Qed.

(** The value of the loop does not depend on the order of the files. *)
Lemma epoch_loop_permutation (files files' : list string) (e0 e : Z) :
  Permutation files files' ->
  epoch_loop py_int files e0 = Ok e -> epoch_loop py_int files' e0 = Ok e.
Proof.
  intros Pm E.
  assert (A := @epoch_loop_ok_all_parse files e0 e E).
  assert (A' : all_parse py_int files').
  { intros f I. apply A. apply Permutation_sym in Pm.
    now apply (Permutation_in _ Pm). }
  destruct (@epoch_loop_max files e0 A) as (e1 & E1 & L1 & U1 & W1).
  destruct (@epoch_loop_max files' e0 A') as (e2 & E2 & L2 & U2 & W2).
  rewrite E in E1. injection E1 as <-. rewrite E2. f_equal.
  apply Z.le_antisymm.
  - destruct W2 as [->|(g & Ig & Cg)]; [exact L1|].
    apply (U1 g e2); [|exact Cg].
    apply Permutation_sym in Pm. now apply (Permutation_in _ Pm).
  - destruct W1 as [->|(g & Ig & Cg)]; [exact L2|].
    apply (U2 g e); [|exact Cg]. now apply (Permutation_in _ Pm).
Qed.

End GetEpochLoop.

Section GetEpoch.

Import Datasets LibMore.
Import Ascii.
Local Open Scope Z_scope.

(** X6: when every listed file that contains '_' starts with something
    int() accepts, get_epoch returns the largest of 0 and the epochs of
    those files: it is never negative, no such file carries a larger epoch,
    and it is 0 or the epoch of one of them; files without '_' are
    ignored. *)
Theorem get_epoch_latest (listdir : string -> outcome (list string))
        (py_int : string -> outcome Z) (model_name : string)
        (files : list string) :
  listdir (String.append "../results_" model_name) = Ok files ->
  (forall f, In f files -> has_char "_" f = true ->
             exists v, py_int (split_head "_" f) = Ok v) ->
  exists e,
    get_epoch listdir py_int model_name = Ok e /\ 0 <= e /\
    (forall f v, In f files -> has_char "_" f = true ->
                 py_int (split_head "_" f) = Ok v -> v <= e) /\
    (e = 0 \/ exists f, In f files /\ has_char "_" f = true /\
                        py_int (split_head "_" f) = Ok e).
Proof.
  intros Hl A. unfold get_epoch. rewrite Hl. cbn [and_then].
  destruct (@epoch_loop_max py_int files 0 A) as (e & E & L & U & W).
  exists e. split; [exact E|]. split; [exact L|]. split.
  - intros f v I Hc P. apply (U f v I). now split.
  - destruct W as [->|(f & I & Hc & P)]; [now left|].
    right. now exists f.
Qed.

(** X7: one listed file that contains '_' and whose head int() rejects
    makes get_epoch fail, wherever it stands in the listing. *)
Theorem get_epoch_stray_file (listdir : string -> outcome (list string))
        (py_int : string -> outcome Z) (model_name : string)
        (files : list string) (f : string) :
  listdir (String.append "../results_" model_name) = Ok files ->
  In f files -> has_char "_" f = true ->
  raises (py_int (split_head "_" f)) = true ->
  raises (get_epoch listdir py_int model_name) = true.
Proof.
  intros Hl I Hc R. unfold get_epoch. rewrite Hl. cbn [and_then].
  now apply epoch_loop_bad_file with f.
Qed.

(** X8: the epoch returned does not depend on the order in which
    os.listdir lists the directory. *)
Theorem get_epoch_order_independent
        (listdir listdir' : string -> outcome (list string))
        (py_int : string -> outcome Z) (model_name : string)
        (files files' : list string) (e : Z) :
  listdir (String.append "../results_" model_name) = Ok files ->
  listdir' (String.append "../results_" model_name) = Ok files' ->
  Permutation files files' ->
  get_epoch listdir py_int model_name = Ok e ->
  get_epoch listdir' py_int model_name = Ok e.
Proof.
  intros Hl Hl' Pm. unfold get_epoch. rewrite Hl, Hl'. cbn [and_then].
  now apply epoch_loop_permutation.
Qed.

Lemma get_epoch_latest_witness :
  ex_listdir (String.append "../results_" "net") = Ok ex_files /\
  (forall f, In f ex_files -> has_char "_" f = true ->
             exists v, ex_py_int (split_head "_" f) = Ok v) /\
  exists e, get_epoch ex_listdir ex_py_int "net" = Ok e /\ 0 <= e.
Proof.
  assert (H1 : ex_listdir (String.append "../results_" "net") = Ok ex_files)
    by reflexivity.
  assert (H2 : forall f, In f ex_files -> has_char "_" f = true ->
                         exists v, ex_py_int (split_head "_" f) = Ok v).
  { intros f [<-|[<-|[<-|[<-|[]]]]] Hc;
      try discriminate Hc; eexists; vm_compute; reflexivity. }
  split; [exact H1|]. split; [exact H2|].
  destruct (@get_epoch_latest ex_listdir ex_py_int "net" ex_files H1 H2)
    as (e & E & L & _).
  exists e. split; [exact E|exact L].
Defined.

Lemma get_epoch_stray_file_witness :
  ex_listdir_stray (String.append "../results_" "net")
    = Ok ["12_net.pt"; "notes_old.txt"]%string /\
  In "notes_old.txt"%string ["12_net.pt"; "notes_old.txt"]%string /\
  has_char "_" "notes_old.txt" = true /\
  raises (ex_py_int (split_head "_" "notes_old.txt")) = true /\
  raises (get_epoch ex_listdir_stray ex_py_int "net") = true.
Proof.
  assert (H2 : In "notes_old.txt"%string
                  ["12_net.pt"; "notes_old.txt"]%string)
    by (right; left; reflexivity).
  split; [reflexivity|]. split; [exact H2|].
  split; [reflexivity|]. split; [reflexivity|].
  apply (@get_epoch_stray_file ex_listdir_stray ex_py_int "net"
           ["12_net.pt"; "notes_old.txt"]%string "notes_old.txt"%string
           eq_refl H2 eq_refl eq_refl).
Defined.

Lemma get_epoch_order_independent_witness :
  ex_listdir (String.append "../results_" "net") = Ok ex_files /\
  ex_listdir_rev (String.append "../results_" "net") = Ok (rev ex_files) /\
  Permutation ex_files (rev ex_files) /\
  get_epoch ex_listdir ex_py_int "net" = Ok 40 /\
  get_epoch ex_listdir_rev ex_py_int "net" = Ok 40.
Proof.
  assert (H3 : Permutation ex_files (rev ex_files))
    by apply Permutation_rev.
  split; [reflexivity|]. split; [reflexivity|]. split; [exact H3|].
  split; [reflexivity|].
  apply (@get_epoch_order_independent ex_listdir ex_listdir_rev ex_py_int
           "net" ex_files (rev ex_files) 40 eq_refl eq_refl H3 eq_refl).
Defined.

End GetEpoch.

(** * Further properties of datasets.py *)

Section MoreWhaleInit.

Import Datasets.
Local Open Scope nat_scope.

Lemma later_occurrences_in (rows : list Row) (met : list string) (r : Row) :
  In r (later_occurrences met rows) -> In r rows.
Proof.
  revert met. induction rows as [|r' rows IH]; intros met; simpl;
    [contradiction|].
  destruct (py_in (Id r') met).
  - intros [->|I]; [now left|right; now apply (IH _ I)].
  - intros I. right. now apply (IH _ I).
Qed.

Lemma init_unique_labels (dp : string) (rows : list Row) (mode : string)
      (h : Z) (alt : option string) (d : WhaleDataset) :
  WhaleDataset_init dp rows mode h alt = Some d ->
  unique_labels d = np_unique (map Id rows) /\ height d = h /\
  alt_data_path d = alt /\ data_path d = dp.
Proof.
  unfold WhaleDataset_init.
  destruct (String.eqb mode "train"); [intros [= <-]; auto|].
  destruct (String.eqb mode "val"); [intros [= <-]; auto|].
  destruct (String.eqb mode "no_set"); [intros [= <-]; auto|discriminate].
Qed.

(** The arrays of a constructed dataset come from a sub-list of rows. *)
Lemma init_rows (dp : string) (rows : list Row) (mode : string) (h : Z)
      (alt : option string) (d : WhaleDataset) :
  WhaleDataset_init dp rows mode h alt = Some d ->
  exists rows',
    (forall r, In r rows' -> In r rows) /\
    labels d = map (fun r => label_of (np_unique (map Id rows)) (Id r))
                   rows' /\
    label_ids d = map Id rows' /\ names d = map Image rows'.
Proof.
  intros E.
  destruct (String.eqb_spec mode "train") as [->|N1].
  { destruct (init_train dp rows h alt) as (d' & E' & F).
    rewrite E in E'. injection E' as <-.
    exists (later_occurrences [] rows). split; [|exact F].
    intros r. apply later_occurrences_in. }
  destruct (String.eqb_spec mode "val") as [->|N2].
  { destruct (init_val dp rows h alt) as (d' & E' & F).
    rewrite E in E'. injection E' as <-.
    exists (first_occurrences [] rows). split; [|exact F].
    intros r I. now apply first_occurrences_spec in I. }
  destruct (String.eqb_spec mode "no_set") as [->|N3].
  { destruct (init_no_set dp rows h alt) as (d' & E' & F).
    rewrite E in E'. injection E' as <-.
    exists rows. split; [auto|exact F]. }
  exfalso. unfold WhaleDataset_init in E.
  apply String.eqb_neq in N1, N2, N3. rewrite N1, N2, N3 in E.
  discriminate E.
Qed.

(** X9: in every dataset the constructor builds, in any of its three
    modes, the three arrays have one length, and each label is the position
    of its sample's identifier in unique_labels. *)
Theorem whale_init_arrays_consistent (dp : string) (rows : list Row)
        (mode : string) (h : Z) (alt : option string) (d : WhaleDataset) :
  WhaleDataset_init dp rows mode h alt = Some d ->
  List.length (labels d) = List.length (names d) /\
  List.length (label_ids d) = List.length (names d) /\
  forall i l, nth_error (labels d) i = Some l ->
    exists id, nth_error (label_ids d) i = Some id /\
               nth_error (unique_labels d) l = Some id.
Proof.
  intros E.
  destruct (init_unique_labels _ _ _ _ _ E) as (U & _).
  destruct (init_rows _ _ _ _ _ E) as (rows' & Sub & L1 & L2 & L3).
  rewrite L1, L2, L3, U, !length_map.
  split; [reflexivity|]. split; [reflexivity|].
  intros i l Hl. rewrite nth_error_map in Hl.
  destruct (nth_error rows' i) as [r|] eqn:Hr; [|discriminate Hl].
  injection Hl as <-. exists (Id r). split.
  - now rewrite nth_error_map, Hr.
  - apply label_of_sound. apply np_unique_in, in_map, Sub.
    eapply nth_error_In. exact Hr.
Qed.

Lemma whale_init_arrays_consistent_witness :
  exists d,
    WhaleDataset_init "happyWhale" ExamplesMore.ex_rows "train" 256 None
      = Some d /\
    List.length (labels d) = List.length (names d) /\
    List.length (label_ids d) = List.length (names d).
Proof.
  eexists. split; [reflexivity|].
  destruct (@whale_init_arrays_consistent "happyWhale" ExamplesMore.ex_rows
              "train" 256%Z None _ eq_refl) as (A & B & _).
  split; [exact A|exact B].
Defined.

End MoreWhaleInit.

Section MoreGetitem.

Import Datasets DatasetsMore.
Local Open Scope nat_scope.

Variable path_join : list string -> string.
Variable isfile : string -> bool.
Variable decoded_shape : string -> option (list Z).

Local Abbreviation getitem :=
  (WhaleDataset_getitem path_join isfile decoded_shape).

Lemma py_getitem_out_of_range {A} (l : list A) (idx : Z) :
  (idx < - Z.of_nat (List.length l) \/ Z.of_nat (List.length l) <= idx)%Z ->
  py_getitem l idx = Raise IndexError.
Proof.
  intros Hout. unfold py_getitem, position.
  destruct (Z.ltb_spec idx 0);
    [ destruct (Z.leb_spec 0 (idx + Z.of_nat (List.length l)));
      destruct (Z.ltb_spec (idx + Z.of_nat (List.length l))
                  (Z.of_nat (List.length l)))
    | destruct (Z.leb_spec 0 idx);
      destruct (Z.ltb_spec idx (Z.of_nat (List.length l))) ];
    simpl; try reflexivity; lia.
Qed.

(** [l[idx]] and [l[idx + len(l)]] are the same element for a negative
    index in range. *)
Lemma py_getitem_negative {A} (l : list A) (idx : Z) :
  (- Z.of_nat (List.length l) <= idx < 0)%Z ->
  py_getitem l idx = py_getitem l (idx + Z.of_nat (List.length l)).
Proof.
  intros R. unfold py_getitem, position.
  destruct (Z.ltb_spec idx 0); [|lia].
  destruct (Z.ltb_spec (idx + Z.of_nat (List.length l)) 0); [lia|].
  reflexivity.
Qed.

Lemma whale_getitem_index_error_at (d : WhaleDataset) (idx : Z) :
  (idx < - Z.of_nat (List.length (names d))
   \/ Z.of_nat (List.length (names d)) <= idx)%Z ->
  getitem d idx = Raise IndexError.
Proof.
  intros Hout. unfold WhaleDataset_getitem.
  rewrite (@py_getitem_out_of_range _ (names d) idx Hout).
  destruct (alt_data_path d); reflexivity.
Qed.

(** X10: an index outside [-len(names), len(names)) raises IndexError,
    with or without an alternative data path, before any file is read and
    whatever the files are. *)
Theorem whale_getitem_index_error (d : WhaleDataset) (idx : Z) :
  (idx < - Z.of_nat (List.length (names d))
   \/ Z.of_nat (List.length (names d)) <= idx)%Z ->
  getitem d idx = Raise IndexError /\
  label_at path_join isfile decoded_shape d idx = None.
Proof.
  intros Hout. unfold label_at.
  rewrite (whale_getitem_index_error_at d Hout). split; reflexivity.
Qed.

(** X11: counting from the end: when names and labels have one length n,
    a negative index idx >= -n fetches the same sample as idx + n. *)
Theorem whale_getitem_negative_index (d : WhaleDataset) (idx : Z) :
  List.length (labels d) = List.length (names d) ->
  (- Z.of_nat (List.length (names d)) <= idx < 0)%Z ->
  getitem d idx = getitem d (idx + Z.of_nat (List.length (names d))).
Proof.
  intros L R. unfold WhaleDataset_getitem.
  rewrite (@py_getitem_negative _ (names d) idx R).
  assert (R' : (- Z.of_nat (List.length (labels d)) <= idx < 0)%Z)
    by (rewrite L; exact R).
  rewrite (@py_getitem_negative _ (labels d) idx R'), L.
  reflexivity.
Qed.


(** X13: when the alternative path holds a file of that name, it is the
    one read (the file under data_path is not), its last axis is flipped,
    and a grey (2-D) alternative file raises AxisError. *)
Theorem whale_getitem_alt_path (d : WhaleDataset) (idx : Z) (alt name : string)
        (lab : nat) (shp : list Z) :
  alt_data_path d = Some alt ->
  py_getitem (names d) idx = Ok name ->
  py_getitem (labels d) idx = Ok lab ->
  isfile (path_join [alt; name]) = true ->
  decoded_shape (path_join [alt; name]) = Some shp ->
  (forall r c ch, shp = [r; c; ch] ->
     getitem d idx =
     Ok (Float32Div255
           (Transpose201
              (Resize (Flip (Decoded (path_join [alt; name]) shp) 2)
                      (height d) (height d * 2))), lab)) /\
  (forall r c, shp = [r; c] -> getitem d idx = Raise AxisError).
Proof.
  intros Ha Hn Hl Hf Hs. unfold WhaleDataset_getitem.
  rewrite Ha, Hn. cbn [and_then]. rewrite Hf. cbn [and_then].
  unfold imread. rewrite Hs. cbn [and_then]. split.
  - intros r c ch ->. unfold np_flip. cbn [shape List.length Nat.ltb Nat.leb].
    cbn [and_then]. rewrite Hl. reflexivity.
  - intros r c ->. reflexivity.
Qed.

End MoreGetitem.

Section MoreGetitemWitnesses.

Import Datasets DatasetsMore Examples ExamplesMore.
Local Open Scope nat_scope.

Lemma whale_getitem_index_error_witness :
  (5 < - Z.of_nat (List.length (names ex_whales))
   \/ Z.of_nat (List.length (names ex_whales)) <= 5)%Z /\
  WhaleDataset_getitem ex_path_join ex_isfile ex_decoded_shape ex_whales 5
  = Raise IndexError.
Proof.
  assert (H1 : (5 < - Z.of_nat (List.length (names ex_whales))
                \/ Z.of_nat (List.length (names ex_whales)) <= 5)%Z)
    by (right; simpl; lia).
  split; [exact H1|].
  apply (@whale_getitem_index_error ex_path_join ex_isfile ex_decoded_shape
           ex_whales 5%Z H1).
Defined.

Lemma whale_getitem_negative_index_witness :
  List.length (labels ex_whales) = List.length (names ex_whales) /\
  (- Z.of_nat (List.length (names ex_whales)) <= -1 < 0)%Z /\
  WhaleDataset_getitem ex_path_join ex_isfile ex_decoded_shape ex_whales (-1)
  = WhaleDataset_getitem ex_path_join ex_isfile ex_decoded_shape ex_whales 4.
Proof.
  assert (H2 : (- Z.of_nat (List.length (names ex_whales)) <= -1 < 0)%Z)
    by (simpl; lia).
  split; [reflexivity|]. split; [exact H2|].
  apply (@whale_getitem_negative_index ex_path_join ex_isfile
           ex_decoded_shape ex_whales (-1)%Z eq_refl H2).
Defined.


Lemma whale_getitem_alt_path_witness :
  alt_data_path ex_whales_alt = Some "alt"%string /\
  py_getitem (names ex_whales_alt) 0 = Ok "a.jpg"%string /\
  py_getitem (labels ex_whales_alt) 0 = Ok 0 /\
  ex_isfile_alt (ex_path_join ["alt"; "a.jpg"]%string) = true /\
  ex_shapes (ex_path_join ["alt"; "a.jpg"]%string)
  = Some [100; 200; 3]%Z /\
  WhaleDataset_getitem ex_path_join ex_isfile_alt ex_shapes ex_whales_alt 0
  = Ok (Float32Div255
          (Transpose201
             (Resize (Flip (Decoded "alt/a.jpg" [100; 200; 3]%Z) 2)
                     256 512)), 0).
Proof.
  do 5 (split; [reflexivity|]).
  apply (proj1 (@whale_getitem_alt_path ex_path_join ex_isfile_alt ex_shapes
                  ex_whales_alt 0%Z "alt"%string "a.jpg"%string 0
                  [100; 200; 3]%Z eq_refl eq_refl eq_refl eq_refl eq_refl)
               100%Z 200%Z 3%Z eq_refl).
Defined.

End MoreGetitemWitnesses.

Section MoreTriplet.

Import Datasets.
Local Open Scope nat_scope.

Variable path_join : list string -> string.
Variable isfile : string -> bool.
Variable decoded_shape : string -> option (list Z).

Local Abbreviation getitem :=
  (WhaleDataset_getitem path_join isfile decoded_shape).
Local Abbreviation triplet_getitem :=
  (WhaleTripletDataset_getitem path_join isfile decoded_shape).

Variable self : WhaleTripletDataset.
Variable idx : Z.
Variable s : Heap.
Variable L : nat.

(** X14: with a height list of one or two entries the call raises
    IndexError, and only when it reaches the missing entry: both random
    draws have been consumed and orig_dataset.height is left at the last
    entry of the list. *)
Theorem triplet_short_height_list (h0 : Z) (rest : list Z) :
  height_list self = h0 :: rest -> List.length rest < 2 ->
  label_at path_join isfile decoded_shape (orig s) idx = Some L ->
  serves path_join isfile decoded_shape (orig s) = true ->
  other_label (orig s) L <> [] ->
  exists s',
    triplet_getitem self idx s = (Raise IndexError, s') /\
    orig s' = set_height (last rest h0) (orig s) /\
    cursor s' = S (S (cursor s)) /\
    List.length (filter is_fetch (skipn (List.length (trace s)) (trace s')))
    = S (List.length rest).
Proof.
  intros Hhl Hlen Hanchor Hserves Hother.
  set (same := same_label (orig s) L).
  set (other := other_label (orig s) L).
  assert (Ia := anchor_in_same_label _ _ _ _ _ Hanchor). fold same in Ia.
  assert (Np : List.length same <> 0).
  { intros C. apply length_zero_iff_nil in C. rewrite C in Ia.
    contradiction. }
  assert (Nn : List.length other <> 0)
    by (intros C; apply length_zero_iff_nil in C; contradiction).
  set (kp := tape s (cursor s) mod List.length same).
  set (p := nth kp same 0).
  assert (Ip : In p same)
    by (apply nth_In, Nat.mod_upper_bound; exact Np).
  assert (Ep := proj1 (same_label_in _ _ _) Ip).
  rewrite <- (label_at_set_height _ _ _ _ h0) in Hanchor.
  apply label_at_some in Hanchor. destruct Hanchor as (im & G0).
  destruct (serves_at _ _ _ _ (hd h0 rest) _ Hserves Ep) as (im_pos & G1).
  unfold WhaleTripletDataset_getitem. rewrite Hhl.
  erewrite bind_ok by reflexivity.
  erewrite bind_ok by apply assign_height_run.
  erewrite bind_ok
    by (rewrite orig_getitem_run; cbn [orig height set_height];
        rewrite G0; reflexivity).
  cbn beta iota.
  erewrite bind_ok by reflexivity.
  cbn [orig labels set_height tape cursor trace].
  change (np_where (map (fun l => Nat.eqb l L) (labels (orig s))))
    with same.
  change (np_where (map (fun l => negb (Nat.eqb l L)) (labels (orig s))))
    with other.
  erewrite bind_ok by (apply randint_run; exact Np).
  erewrite bind_ok by (apply randint_run; exact Nn).
  cbn [orig labels set_height tape cursor trace].
  fold kp p.
  destruct rest as [|h1 [|h2 rest]]; [| |simpl in Hlen; lia].
  - erewrite bind_raise by reflexivity.
    eexists. split; [reflexivity|]. cbn [orig cursor trace last].
    rewrite <- !app_assoc, skipn_own_length.
    repeat split.
  - erewrite bind_ok by (unfold lift; rewrite height_list_1; reflexivity).
    erewrite bind_ok by apply assign_height_run.
    cbn [orig labels tape cursor trace].
    erewrite bind_ok
      by (rewrite orig_getitem_run; cbn [orig]; rewrite set_height_twice;
          cbn [hd] in G1; rewrite G1; reflexivity).
    cbn beta iota.
    erewrite bind_raise by reflexivity.
    eexists. split; [reflexivity|]. cbn [orig cursor trace last].
    rewrite <- !app_assoc, skipn_own_length.
    repeat split.
Qed.

(** X15: a call that fails for want of a second label is not undone:
    orig_dataset.height stays at height_list[0] and one random draw has
    been consumed. *)
Theorem triplet_failure_keeps_height (h0 : Z) (rest : list Z) :
  height_list self = h0 :: rest ->
  label_at path_join isfile decoded_shape (orig s) idx = Some L ->
  (forall l, In l (labels (orig s)) -> l = L) ->
  exists s',
    triplet_getitem self idx s = (Raise ValueError, s') /\
    orig s' = set_height h0 (orig s) /\
    tape s' = tape s /\ cursor s' = S (cursor s).
Proof.
  intros Hhl Hanchor Hall.
  assert (Hother := @single_label_no_other (orig s) L Hall).
  eexists. split.
  - apply (triplet_run_single_label path_join isfile decoded_shape
             self idx s Hhl Hanchor Hother).
  - repeat split.
Qed.

(** X16: when no other sample carries the anchor's label, the positive
    sample is the anchor itself, fetched again at height_list[1], whatever
    the random generator yields. *)
Theorem triplet_lone_anchor_is_positive (h0 h1 h2 : Z) (rest : list Z)
        (a : nat) :
  height_list self = h0 :: h1 :: h2 :: rest ->
  label_at path_join isfile decoded_shape (orig s) idx = Some L ->
  serves path_join isfile decoded_shape (orig s) = true ->
  other_label (orig s) L <> [] ->
  (forall j, nth_error (labels (orig s)) j = Some L -> j = a) ->
  Z.of_nat a = position (List.length (labels (orig s))) idx /\
  exists im im_pos im_neg lab_neg s',
    triplet_getitem self idx s = (Ok (im, im_pos, im_neg, L, lab_neg), s') /\
    getitem (set_height h1 (orig s)) (Z.of_nat a) = Ok (im_pos, L) /\
    filter is_fetch (skipn (List.length (trace s)) (trace s')) =
      [Fetch idx h0; Fetch (Z.of_nat a) h1;
       Fetch (Z.of_nat
                (nth (tape s (S (cursor s))
                      mod List.length (other_label (orig s) L))
                     (other_label (orig s) L) 0)) h2].
Proof.
  intros Hhl Hanchor Hserves Hother Hlone.
  assert (Ia := anchor_in_same_label _ _ _ _ _ Hanchor).
  assert (Ea := Hlone _ (proj1 (same_label_in _ _ _) Ia)).
  split.
  { rewrite <- Ea. apply Z2Nat.id.
    apply label_at_some in Hanchor. destruct Hanchor as (im & G).
    apply getitem_label, py_getitem_ok in G. lia. }
  destruct (triplet_run path_join isfile decoded_shape self idx s
              Hhl Hanchor Hserves Hother)
    as (im & im_pos & im_neg & lab_neg & G0 & G1 & G2 & Ip & _ & _ & _
        & Run).
  assert (Ep := Hlone _ (proj1 (same_label_in _ _ _) Ip)).
  rewrite Ep in G1, Run.
  exists im, im_pos, im_neg, lab_neg. eexists.
  split; [exact Run|]. split; [exact G1|].
  cbn [trace]. rewrite skipn_own_length. reflexivity.
Qed.

(** X17: an anchor index outside the dataset raises IndexError after
    orig_dataset.height has been set to height_list[0]; no random number
    is drawn. *)
Theorem triplet_anchor_out_of_range (h0 : Z) (rest : list Z) :
  height_list self = h0 :: rest ->
  (idx < - Z.of_nat (List.length (names (orig s)))
   \/ Z.of_nat (List.length (names (orig s))) <= idx)%Z ->
  triplet_getitem self idx s =
  (Raise IndexError,
   {| orig := set_height h0 (orig s); tape := tape s; cursor := cursor s;
      trace := trace s ++ [SetHeight h0; Fetch idx h0] |}).
Proof.
  intros Hhl Hout.
  unfold WhaleTripletDataset_getitem. rewrite Hhl.
  erewrite bind_ok by reflexivity.
  erewrite bind_ok by apply assign_height_run.
  erewrite bind_raise
    by (rewrite orig_getitem_run; cbn [orig height set_height];
        rewrite (@whale_getitem_index_error_at path_join isfile
                   decoded_shape (set_height h0 (orig s)) idx Hout);
        reflexivity).
  cbn [orig tape cursor trace]. rewrite <- !app_assoc. reflexivity.
Qed.

End MoreTriplet.

Section MoreTripletWitnesses.

Import Datasets Examples ExamplesMore.
Local Open Scope nat_scope.

Local Abbreviation ex_label_at :=
  (label_at ex_path_join ex_isfile ex_decoded_shape).
Local Abbreviation ex_serves :=
  (serves ex_path_join ex_isfile ex_decoded_shape).
Local Abbreviation ex_getitem :=
  (WhaleTripletDataset_getitem ex_path_join ex_isfile ex_decoded_shape).

Lemma triplet_short_height_list_witness :
  height_list ex_triplet_short = [32; 64]%Z /\
  List.length [64%Z] < 2 /\
  ex_label_at (orig (ex_heap ex_whales)) 0 = Some 0 /\
  ex_serves (orig (ex_heap ex_whales)) = true /\
  other_label (orig (ex_heap ex_whales)) 0 <> [] /\
  exists s',
    ex_getitem ex_triplet_short 0%Z (ex_heap ex_whales)
    = (Raise IndexError, s') /\
    orig s' = set_height 64 ex_whales /\ cursor s' = 2.
Proof.
  assert (H1 : height_list ex_triplet_short = [32; 64]%Z) by reflexivity.
  assert (H2 : List.length [64%Z] < 2) by (simpl; lia).
  assert (H3 : ex_label_at (orig (ex_heap ex_whales)) 0 = Some 0)
    by (vm_compute; reflexivity).
  assert (H4 : ex_serves (orig (ex_heap ex_whales)) = true)
    by (vm_compute; reflexivity).
  assert (H5 : other_label (orig (ex_heap ex_whales)) 0 <> [])
    by (vm_compute; discriminate).
  repeat (split; [assumption|]).
  destruct (@triplet_short_height_list ex_path_join ex_isfile
              ex_decoded_shape ex_triplet_short 0%Z (ex_heap ex_whales) 0
              32%Z [64%Z] H1 H2 H3 H4 H5)
    as (s' & Run & Eo & Ec & _).
  exists s'. split; [exact Run|]. split; [exact Eo|exact Ec].
Defined.

Lemma triplet_failure_keeps_height_witness :
  height_list ex_triplet = [32; 64; 128]%Z /\
  ex_label_at (orig (ex_heap ex_one_label)) 0 = Some 7 /\
  (forall l, In l (labels (orig (ex_heap ex_one_label))) -> l = 7) /\
  height ex_one_label = 256%Z /\
  exists s',
    ex_getitem ex_triplet 0%Z (ex_heap ex_one_label)
    = (Raise ValueError, s') /\
    height (orig s') = 32%Z /\ cursor s' = 1.
Proof.
  assert (H1 : height_list ex_triplet = [32; 64; 128]%Z) by reflexivity.
  assert (H2 : ex_label_at (orig (ex_heap ex_one_label)) 0 = Some 7)
    by (vm_compute; reflexivity).
  assert (H3 : forall l, In l (labels (orig (ex_heap ex_one_label))) -> l = 7)
    by (simpl; intros l [<-|[<-|[<-|[]]]]; reflexivity).
  repeat (split; [assumption|]).
  split; [reflexivity|].
  destruct (@triplet_failure_keeps_height ex_path_join ex_isfile
              ex_decoded_shape ex_triplet 0%Z (ex_heap ex_one_label) 7
              32%Z [64; 128]%Z H1 H2 H3)
    as (s' & Run & Eo & _ & Ec).
  exists s'. split; [exact Run|]. split; [|exact Ec].
  rewrite Eo. reflexivity.
Defined.

Lemma triplet_lone_anchor_is_positive_witness :
  height_list ex_triplet = [32; 64; 128]%Z /\
  ex_label_at (orig (ex_heap ex_lone_anchor)) 0 = Some 0 /\
  ex_serves (orig (ex_heap ex_lone_anchor)) = true /\
  other_label (orig (ex_heap ex_lone_anchor)) 0 <> [] /\
  (forall j, nth_error (labels (orig (ex_heap ex_lone_anchor))) j = Some 0
             -> j = 0) /\
  exists r s',
    ex_getitem ex_triplet 0%Z (ex_heap ex_lone_anchor) = (Ok r, s') /\
    filter is_fetch (trace s') = [Fetch 0 32; Fetch 0 64; Fetch 2 128].
Proof.
  assert (H1 : height_list ex_triplet = [32; 64; 128]%Z) by reflexivity.
  assert (H2 : ex_label_at (orig (ex_heap ex_lone_anchor)) 0 = Some 0)
    by (vm_compute; reflexivity).
  assert (H3 : ex_serves (orig (ex_heap ex_lone_anchor)) = true)
    by (vm_compute; reflexivity).
  assert (H4 : other_label (orig (ex_heap ex_lone_anchor)) 0 <> [])
    by (vm_compute; discriminate).
  assert (H5 : forall j,
             nth_error (labels (orig (ex_heap ex_lone_anchor))) j = Some 0
             -> j = 0).
  { intros [|[|[|[|[|j]]]]]; simpl; intros E;
      try reflexivity; discriminate E. }
  repeat (split; [assumption|]).
  destruct (@triplet_lone_anchor_is_positive ex_path_join ex_isfile
              ex_decoded_shape ex_triplet 0%Z (ex_heap ex_lone_anchor) 0
              32%Z 64%Z 128%Z [] 0 H1 H2 H3 H4 H5)
    as (_ & im & im_pos & im_neg & lab_neg & s' & Run & _ & Tr).
  eexists. exists s'. split; [exact Run|exact Tr].
Defined.

Lemma triplet_anchor_out_of_range_witness :
  height_list ex_triplet = [32; 64; 128]%Z /\
  (9 < - Z.of_nat (List.length (names (orig (ex_heap ex_whales))))
   \/ Z.of_nat (List.length (names (orig (ex_heap ex_whales)))) <= 9)%Z /\
  ex_getitem ex_triplet 9%Z (ex_heap ex_whales) =
  (Raise IndexError,
   {| orig := set_height 32 ex_whales; tape := tape (ex_heap ex_whales);
      cursor := 0; trace := [SetHeight 32; Fetch 9 32] |}).
Proof.
  assert (H1 : height_list ex_triplet = [32; 64; 128]%Z) by reflexivity.
  assert (H2 : (9 < - Z.of_nat (List.length
                                   (names (orig (ex_heap ex_whales))))
                \/ Z.of_nat (List.length
                               (names (orig (ex_heap ex_whales)))) <= 9)%Z)
    by (right; simpl; lia).
  split; [exact H1|]. split; [exact H2|].
  apply (@triplet_anchor_out_of_range ex_path_join ex_isfile
           ex_decoded_shape ex_triplet 9%Z (ex_heap ex_whales) 32%Z
           [64; 128]%Z H1 H2).
Defined.

End MoreTripletWitnesses.

Section FrameLemmas.

Import Datasets DatasetsMore.
Local Open Scope nat_scope.

Lemma firstn_in {A} (n : nat) (l : list A) (x : A) :
  In x (firstn n l) -> In x l.
Proof.
  intros I. rewrite <- (firstn_skipn n l). apply in_or_app. now left.
Qed.

Lemma firstn_NoDup {A} (n : nat) (l : list A) :
  NoDup l -> NoDup (firstn n l).
Proof.
  intros ND. rewrite <- (firstn_skipn n l) in ND.
  now apply NoDup_app_remove_r in ND.
Qed.

Lemma slice_to_in {A} (l : list A) (k : Z) (x : A) :
  In x (slice_to l k) -> In x l.
Proof. unfold slice_to. destruct (0 <=? k)%Z; apply firstn_in. Qed.

Lemma slice_to_NoDup {A} (l : list A) (k : Z) :
  NoDup l -> NoDup (slice_to l k).
Proof. unfold slice_to. destruct (0 <=? k)%Z; apply firstn_NoDup. Qed.

(** [iloc] succeeds on positions inside the frame and takes the rows at
    those positions. *)
Lemma iloc_ok {A} (df : list A) (ps : list nat) :
  (forall p, In p ps -> p < List.length df) ->
  exists rows,
    iloc df ps = Ok rows /\
    Forall2 (fun p r => nth_error df p = Some r) ps rows.
Proof.
  induction ps as [|p ps IH]; intros B.
  - exists []. split; [reflexivity|constructor].
  - destruct IH as (rows & E & F); [intros q Iq; apply B; now right|].
    assert (Lp : p < List.length df) by (apply B; now left).
    destruct (nth_error df p) as [r|] eqn:Hp;
      [|apply nth_error_None in Hp; lia].
    exists (r :: rows). cbn [iloc]. rewrite Hp, E.
    split; [reflexivity|constructor; assumption].
Qed.

Lemma iloc_map {A B} (f : A -> B) (df : list A) (ps : list nat)
      (rows : list A) :
  iloc df ps = Ok rows -> iloc (map f df) ps = Ok (map f rows).
Proof.
  revert rows. induction ps as [|p ps IH]; intros rows; cbn [iloc].
  - intros [= <-]. reflexivity.
  - rewrite nth_error_map.
    destruct (nth_error df p) as [r|]; [|discriminate].
    destruct (iloc df ps) as [rs|e]; [|discriminate].
    intros [= <-]. cbn [option_map]. rewrite (IH rs eq_refl). reflexivity.
Qed.

Lemma Forall2_in_r {A B} (R : A -> B -> Prop) (l : list A) (l' : list B)
      (y : B) :
  Forall2 R l l' -> In y l' -> exists x, In x l /\ R x y.
Proof.
  induction 1 as [|a b l l' Hab F IH]; [contradiction|].
  intros [<-|I].
  - exists a. split; [now left|exact Hab].
  - destruct (IH I) as (x & Ix & Rx). exists x. split; [now right|exact Rx].
Qed.

Lemma Forall2_in_l {A B} (R : A -> B -> Prop) (l : list A) (l' : list B)
      (x : A) :
  Forall2 R l l' -> In x l -> exists y, In y l' /\ R x y.
Proof.
  induction 1 as [|a b l l' Hab F IH]; [contradiction|].
  intros [<-|I].
  - exists b. split; [now left|exact Hab].
  - destruct (IH I) as (y & Iy & Ry). exists y. split; [now right|exact Ry].
Qed.

(** Rows taken at distinct positions of a duplicate-free frame are
    distinct. *)
Lemma taken_NoDup {A} (df : list A) (ps : list nat) (rows : list A) :
  NoDup df -> NoDup ps ->
  Forall2 (fun p r => nth_error df p = Some r) ps rows -> NoDup rows.
Proof.
  intros NDf NDp F. induction F as [|p r ps rows Hp F IH]; [constructor|].
  inversion NDp as [|? ? Hnot NDp']; subst. constructor; [|now apply IH].
  intros I. destruct (@Forall2_in_r _ _ _ _ _ r F I) as (q & Iq & Hq).
  assert (p = q).
  { apply (proj1 (NoDup_nth_error df) NDf).
    - apply nth_error_Some. congruence.
    - congruence. }
  subst q. contradiction.
Qed.

Lemma filter_split {A} (f : A -> bool) (l : list A) :
  Permutation (filter f l ++ filter (fun x => negb (f x)) l) l.
Proof.
  induction l as [|a l IH]; simpl; [constructor|].
  destruct (f a); simpl.
  - now constructor.
  - apply Permutation_sym, Permutation_cons_app, Permutation_sym, IH.
Qed.

Lemma existsb_eqb_in (k : nat) (l : list nat) :
  existsb (Nat.eqb k) l = true <-> In k l.
Proof.
  rewrite existsb_exists. split.
  - intros (x & I & E). apply Nat.eqb_eq in E. now subst.
  - intros I. exists k. split; [exact I|apply Nat.eqb_refl].
Qed.

(** Dropping the index labels found at some positions leaves, with the
    rows at those positions, the whole frame. *)
Lemma iloc_drop_partition {R} (df : list (nat * R)) (ps : list nat)
      (rows : list (nat * R)) :
  NoDup (map fst df) -> NoDup ps ->
  iloc df ps = Ok rows ->
  Forall2 (fun p r => nth_error df p = Some r) ps rows ->
  Permutation
    (rows ++ filter (fun r => negb (existsb (Nat.eqb (fst r))
                                             (map fst rows))) df)
    df.
Proof.
  intros NDl NDp E F.
  assert (NDf : NoDup df) by (apply NoDup_map_inv with (f := fst); exact NDl).
  eapply Permutation_trans; [|apply (filter_split
     (fun r => existsb (Nat.eqb (fst r)) (map fst rows)) df)].
  apply Permutation_app_tail.
  apply NoDup_Permutation.
  - apply (taken_NoDup NDf NDp F).
  - apply NoDup_filter. exact NDf.
  - intros x. rewrite filter_In, existsb_eqb_in. split.
    + intros I. destruct (@Forall2_in_r _ _ _ _ _ x F I) as (p & Ip & Hp).
      split.
      * eapply nth_error_In. exact Hp.
      * now apply in_map.
    + intros (Ix & Il). apply in_map_iff in Il.
      destruct Il as (y & Ey & Iy).
      assert (x = y); [|now subst].
      apply In_nth_error in Ix. destruct Ix as (i & Hi).
      assert (Iyd : In y df).
      { destruct (@Forall2_in_r _ _ _ _ _ y F Iy) as (p & _ & Hp).
        eapply nth_error_In. exact Hp. }
      apply In_nth_error in Iyd. destruct Iyd as (j & Hj).
      assert (i = j).
      { apply (proj1 (NoDup_nth_error (map fst df)) NDl).
        - rewrite length_map. apply nth_error_Some. congruence.
        - rewrite !nth_error_map, Hi, Hj. simpl. congruence. }
      subst j. congruence.
Qed.

Lemma frame_labels {R} (a : nat) (rows : list R) :
  map fst (combine (seq a (List.length rows)) rows) = seq a (List.length rows).
Proof.
  revert a. induction rows as [|r rows IH]; intros a; simpl; [reflexivity|].
  now rewrite IH.
Qed.

Lemma frame_rows {R} (f : R -> bool) (a : nat) (rows : list R) :
  map snd (filter (fun r => f (snd r))
                  (combine (seq a (List.length rows)) rows))
  = filter f rows.
Proof.
  revert a. induction rows as [|r rows IH]; intros a; simpl; [reflexivity|].
  destruct (f r); simpl; now rewrite IH.
Qed.

Lemma filter_labels_NoDup {R} (f : nat * R -> bool) (df : list (nat * R)) :
  NoDup (map fst df) -> NoDup (map fst (filter f df)).
Proof.
  induction df as [|r df IH]; simpl; intros ND; [constructor|].
  inversion ND as [|? ? Hnot ND']; subst.
  destruct (f r); simpl; [|now apply IH].
  constructor; [|now apply IH].
  intros I. apply Hnot. apply in_map_iff in I.
  destruct I as (y & Ey & Iy). apply filter_In in Iy.
  rewrite <- Ey. apply in_map. tauto.
Qed.

Lemma loc_train_labels_NoDup (v : Z) (rows : list CubRow) :
  NoDup (map fst (loc_train v (frame rows))).
Proof.
  apply filter_labels_NoDup. unfold frame. rewrite frame_labels.
  apply seq_NoDup.
Qed.

End FrameLemmas.

Section CubInit.

Import Datasets DatasetsMore.
Local Open Scope nat_scope.

Variable shuffle : list nat -> list nat.
Variable split : Q.
Variable shift : Z.
Variable dataset : list CubRow.
Variable image_parts : list PartRow.
Variable h : Z.

Lemma cub_samples_of_rows (d : CUBDataset) (rows : list (nat * CubRow)) :
  ids d = map (fun r => cub_id (snd r)) rows ->
  cub_names d = map (fun r => cub_filename (snd r)) rows ->
  cub_labels d = map (fun r => (cub_label (snd r) - shift)%Z) rows ->
  cub_samples d = map (fun r => cub_sample_of shift (snd r)) rows.
Proof.
  intros E1 E2 E3. unfold cub_samples. rewrite E1, E2, E3.
  rewrite combine_map_map, combine_map_map. reflexivity.
Qed.

(** The training constructor and the validation constructor given its
    trainsamples, side by side. *)
Lemma cub_train_val_run :
  (forall l, Permutation (shuffle l) l) ->
  let train_rows := filter (fun r => Z.eqb (cub_train r) 1) dataset in
  let n := List.length train_rows in
  exists dt ts dv,
    CUBDataset_init_with shuffle split shift dataset image_parts
      "train" h None = Done dt /\
    trainsamples dt = Some ts /\
    CUBDataset_init_with shuffle split shift dataset image_parts
      "val" h (Some ts) = Done dv /\
    Permutation (cub_samples dt ++ cub_samples dv)
      (map (cub_sample_of shift) train_rows) /\
    ts = slice_to (shuffle (seq 0 n))
           (py_int_of (inject_Z (Z.of_nat (List.length (shuffle (seq 0 n))))
                       * split)) /\
    List.length (cub_samples dt) = List.length ts.
Proof.
  intros Hsh train_rows n.
  assert (En : List.length (loc_train 1 (frame dataset)) = n).
  { unfold n, train_rows.
    rewrite <- (frame_rows (fun r => Z.eqb (cub_train r) 1) 0 dataset).
    rewrite length_map. reflexivity. }
  set (base := loc_train 1 (frame dataset)).
  set (perm := shuffle (seq 0 (List.length base))).
  set (ts := slice_to perm
               (py_int_of (inject_Z (Z.of_nat (List.length perm)) * split))).
  assert (Pp : Permutation perm (seq 0 (List.length base))) by apply Hsh.
  assert (NDt : NoDup ts).
  { apply slice_to_NoDup.
    apply (Permutation_NoDup (Permutation_sym Pp)), seq_NoDup. }
  assert (Bt : forall p, In p ts -> p < List.length base).
  { intros p Ip. apply slice_to_in in Ip.
    apply (Permutation_in _ Pp) in Ip. apply in_seq in Ip. lia. }
  destruct (iloc_ok base ts Bt) as (rows & E & F).
  assert (El := iloc_map fst _ _ E).
  assert (NDl : NoDup (map fst base)) by apply loc_train_labels_NoDup.
  pose (dt := {| cub_mode := "train"; trainsamples := Some ts;
            ids := map (fun r => cub_id (snd r)) rows;
            cub_names := map (fun r => cub_filename (snd r)) rows;
            cub_labels := map (fun r => (cub_label (snd r) - shift)%Z) rows;
            parts := collect_parts
                       (filter (fun p => negb (Z.eqb (part_visible p) 0))
                               image_parts)
                       (map (fun r => cub_id (snd r)) rows);
            cub_height := h |}).
  pose (dv := {| cub_mode := "val"; trainsamples := None;
            ids := map (fun r => cub_id (snd r)) (drop base (map fst rows));
            cub_names := map (fun r => cub_filename (snd r))
                             (drop base (map fst rows));
            cub_labels := map (fun r => (cub_label (snd r) - shift)%Z)
                              (drop base (map fst rows));
            parts := collect_parts
                       (filter (fun p => negb (Z.eqb (part_visible p) 0))
                               image_parts)
                       (map (fun r => cub_id (snd r))
                            (drop base (map fst rows)));
            cub_height := h |}).
  exists dt, ts, dv.
  split.
  { unfold CUBDataset_init_with. cbn [String.eqb Ascii.eqb Bool.eqb].
    fold base. fold perm. fold ts. rewrite E. reflexivity. }
  split; [reflexivity|]. split.
  { unfold CUBDataset_init_with. cbn [String.eqb Ascii.eqb Bool.eqb].
    fold base. rewrite El. reflexivity. }
  rewrite (cub_samples_of_rows dt rows eq_refl eq_refl eq_refl).
  rewrite (cub_samples_of_rows dv (drop base (map fst rows))
             eq_refl eq_refl eq_refl).
  split; [|split; [unfold ts, perm, base; rewrite En; reflexivity|]].
  - rewrite <- map_app. unfold train_rows.
    rewrite <- (frame_rows (fun r => Z.eqb (cub_train r) 1) 0 dataset).
    rewrite map_map. apply Permutation_map.
    apply (@iloc_drop_partition _ base ts rows NDl NDt E F).
  - rewrite length_map. symmetry. apply (Forall2_length F).
Qed.

(** X18: the training constructor keeps the rows marked train = 1 at the
    positions the shuffle put first, and the validation constructor given
    its trainsamples keeps the others: the two datasets together hold every
    row marked train = 1 exactly once. *)
Theorem cub_train_val_partition :
  (forall l, Permutation (shuffle l) l) ->
  exists dt ts dv,
    CUBDataset_init_with shuffle split shift dataset image_parts
      "train" h None = Done dt /\
    trainsamples dt = Some ts /\
    CUBDataset_init_with shuffle split shift dataset image_parts
      "val" h (Some ts) = Done dv /\
    Permutation (cub_samples dt ++ cub_samples dv)
      (map (cub_sample_of shift)
           (filter (fun r => Z.eqb (cub_train r) 1) dataset)).
Proof.
  intros Hsh.
  destruct (cub_train_val_run Hsh) as (dt & ts & dv & Et & Es & Ev & P & _).
  exists dt, ts, dv. auto.
Qed.



End CubInit.

Lemma cub_train_val_partition_witness :
  (forall l, Permutation (DatasetsMore.ex_shuffle l) l) /\
  exists dt ts dv,
    DatasetsMore.CUBDataset_init DatasetsMore.ex_shuffle
      DatasetsMore.ex_cub_rows DatasetsMore.ex_cub_parts "train" 256 None
    = DatasetsMore.Done dt /\
    DatasetsMore.trainsamples dt = Some ts /\
    DatasetsMore.CUBDataset_init DatasetsMore.ex_shuffle
      DatasetsMore.ex_cub_rows DatasetsMore.ex_cub_parts "val" 256 (Some ts)
    = DatasetsMore.Done dv /\
    Permutation (DatasetsMore.cub_samples dt ++ DatasetsMore.cub_samples dv)
      (map (DatasetsMore.cub_sample_of 0)
           (filter (fun r => Z.eqb (DatasetsMore.cub_train r) 1)
                   DatasetsMore.ex_cub_rows)).
Proof.
  assert (H1 : forall l, Permutation (DatasetsMore.ex_shuffle l) l)
    by (intros l; apply Permutation_sym, Permutation_rev).
  split; [exact H1|].
  destruct (@cub_train_val_partition DatasetsMore.ex_shuffle (9 # 10) 0%Z
              DatasetsMore.ex_cub_rows DatasetsMore.ex_cub_parts 256%Z H1)
    as (dt & ts & dv & Et & Es & Ev & P).
  exists dt, ts, dv.
  split; [exact Et|]. split; [exact Es|]. split; [exact Ev|exact P].
Defined.


Section CubParts.

Import Datasets DatasetsMore.
Local Open Scope nat_scope.

Lemma dict_get_set_same {V} (k : Z) (v : V) (d : list (Z * V)) :
  dict_get (dict_set k v d) k = Done v.
Proof.
  induction d as [|[k' v'] d IH]; simpl.
  - now rewrite Z.eqb_refl.
  - destruct (Z.eqb_spec k' k); simpl.
    + now rewrite Z.eqb_refl.
    + destruct (Z.eqb_spec k' k); [contradiction|exact IH].
Qed.

Lemma dict_get_set_other {V} (k k0 : Z) (v : V) (d : list (Z * V)) :
  k <> k0 -> dict_get (dict_set k v d) k0 = dict_get d k0.
Proof.
  intros N. induction d as [|[k' v'] d IH]; simpl.
  - destruct (Z.eqb_spec k k0); [contradiction|reflexivity].
  - destruct (Z.eqb_spec k' k) as [->|N']; simpl.
    + destruct (Z.eqb_spec k k0); [contradiction|reflexivity].
    + destruct (Z.eqb_spec k' k0); [reflexivity|exact IH].
Qed.

Lemma collect_parts_from (image_parts : list PartRow) (ids : list Z)
      (d0 : list (Z * list PartRow)) (i : Z) :
  dict_get
    (fold_left
       (fun parts i =>
          dict_set i (filter (fun p => Z.eqb (part_image p) i) image_parts)
                   parts)
       ids d0) i
  = if in_dec Z.eq_dec i ids
    then Done (filter (fun p => Z.eqb (part_image p) i) image_parts)
    else dict_get d0 i.
Proof.
  revert d0. induction ids as [|a ids IH]; intros d0; [reflexivity|].
  cbn [fold_left]. rewrite IH.
  destruct (in_dec Z.eq_dec i ids) as [I|NI];
    destruct (in_dec Z.eq_dec i (a :: ids)) as [I'|NI'];
    try reflexivity.
  - exfalso. apply NI'. now right.
  - destruct I' as [->|I']; [|contradiction].
    apply dict_get_set_same.
  - apply dict_get_set_other. intros ->. apply NI'. now left.
Qed.

Lemma py_getitem_in {A} (l : list A) (idx : Z) (x : A) :
  py_getitem l idx = Ok x -> In x l.
Proof.
  intros E. apply py_getitem_ok in E. destruct E as (_ & E).
  eapply nth_error_In. exact E.
Qed.

Lemma cub_init_parts (shuffle : list nat -> list nat) (split : Q)
      (shift : Z) (dataset : list CubRow) (image_parts : list PartRow)
      (mode : string) (h : Z) (ts : option (list nat)) (d : CUBDataset) :
  CUBDataset_init_with shuffle split shift dataset image_parts mode h ts
  = Done d ->
  parts d =
  collect_parts (filter (fun p => negb (Z.eqb (part_visible p) 0))
                        image_parts) (ids d) /\
  List.length (cub_names d) = List.length (ids d) /\
  List.length (cub_labels d) = List.length (ids d).
Proof.
  unfold CUBDataset_init_with.
  match goal with
  | |- then_do ?c _ = _ -> _ => destruct c as [[tsopt rows]|e]
  end; cbn [then_do]; [|discriminate].
  intros [= <-]. cbn [parts ids cub_names cub_labels].
  rewrite !length_map. auto.
Qed.

(** X19: in a dataset the constructor built, get_visible_parts of a valid
    index never raises KeyError: it returns, in table order, exactly the
    rows of the parts table that belong to that sample's image id and are
    marked visible. *)
Theorem cub_get_visible_parts (shuffle : list nat -> list nat) (split : Q)
        (shift : Z) (dataset : list CubRow) (image_parts : list PartRow)
        (mode : string) (h : Z) (ts : option (list nat)) (d : CUBDataset)
        (idx : Z) (i : Z) :
  CUBDataset_init_with shuffle split shift dataset image_parts mode h ts
  = Done d ->
  py_getitem (ids d) idx = Ok i ->
  get_visible_parts d idx =
  Done (filter (fun p => Z.eqb (part_image p) i)
          (filter (fun p => negb (Z.eqb (part_visible p) 0)) image_parts)).
Proof.
  intros E G. destruct (cub_init_parts _ _ _ _ _ _ _ _ E) as (Ep & _).
  unfold get_visible_parts. rewrite G. cbn [of_outcome then_do].
  rewrite Ep. unfold collect_parts. rewrite collect_parts_from.
  destruct (in_dec Z.eq_dec i (ids d)) as [_|N]; [reflexivity|].
  exfalso. apply N. eapply py_getitem_in. exact G.
Qed.

Lemma cub_get_visible_parts_witness :
  exists d,
    CUBDataset_init ex_shuffle ex_cub_rows ex_cub_parts "val" 256
      (Some [3; 2; 1]) = Done d /\
    py_getitem (ids d) 0 = Ok 1%Z /\
    get_visible_parts d 0 =
    Done [ {| part_image := 1; part_id := 1; part_x := 10; part_y := 20;
              part_visible := 1 |} ].
Proof.
  eexists. split; [reflexivity|]. split; [reflexivity|].
  apply (@cub_get_visible_parts ex_shuffle (9 # 10) 0%Z ex_cub_rows
           ex_cub_parts "val" 256%Z (Some [3; 2; 1]) _ 0%Z 1%Z
           eq_refl eq_refl).
Defined.

End CubParts.

Section PartImageNetInit.

Import Datasets DatasetsMore.
Local Open Scope nat_scope.

Lemma then_do_done {A B} (r : result A) (k : A -> result B) (b : B) :
  then_do r k = Done b -> exists a, r = Done a /\ k a = Done b.
Proof. destruct r as [a|e]; simpl; [eauto|discriminate]. Qed.

(** At most one distinct value: all the values are equal. *)
Lemma nodup_at_most_one (l : list string) :
  List.length (nodup string_dec l) <= 1 <->
  forall x y, In x l -> In y l -> x = y.
Proof.
  split.
  - intros Len x y Ix Iy.
    apply (nodup_In string_dec) in Ix, Iy.
    destruct (nodup string_dec l) as [|a [|b rest]]; simpl in *;
      try contradiction; try lia.
    destruct Ix as [<-|[]], Iy as [<-|[]]. reflexivity.
  - intros Eq.
    assert (ND := NoDup_nodup string_dec l).
    assert (Sub : forall x, In x (nodup string_dec l) -> In x l)
      by (intros x; apply nodup_In).
    destruct (nodup string_dec l) as [|a [|b rest]]; simpl; try lia.
    exfalso. inversion ND as [|? ? Hnot _]; subst. apply Hnot.
    left. apply Eq; apply Sub; simpl; auto.
Qed.

Variable c : COCO.

Lemma supercats_of_done (anns : list CocoAnn) (scs : list string) :
  supercats_of c anns = Done scs -> Forall2 (resolves_to c) anns scs.
Proof.
  revert scs. induction anns as [|ann anns IH]; intros scs; cbn [supercats_of].
  - intros [= <-]. constructor.
  - intros E. apply then_do_done in E. destruct E as (cat & Ec & E).
    apply then_do_done in E. destruct E as (scs' & Es & E).
    injection E as <-. constructor; [|now apply IH].
    exists cat. now split.
Qed.

Lemma supercats_of_resolved (anns : list CocoAnn) :
  (forall ann, In ann anns ->
               exists cat, dict_get (cats c) (category_id ann) = Done cat) ->
  exists scs, supercats_of c anns = Done scs.
Proof.
  induction anns as [|ann anns IH]; intros R; cbn [supercats_of].
  - now exists [].
  - destruct (R ann (or_introl eq_refl)) as (cat & ->).
    destruct IH as (scs & ->); [intros a Ia; apply R; now right|].
    cbn [then_do]. eexists. reflexivity.
Qed.

Lemma resolves_to_unique (ann : CocoAnn) (sc sc' : string) :
  resolves_to c ann sc -> resolves_to c ann sc' -> sc = sc'.
Proof. intros (cat & E & <-) (cat' & E' & <-). congruence. Qed.

(** What the loop body returns is the supercategory all the annotations of
    the image share. *)
Lemma image_supercat_done (anns : list CocoAnn) (sc : string) :
  image_supercat c anns = Done sc ->
  anns <> [] /\ uniform_image c anns sc.
Proof.
  unfold image_supercat. intros E.
  apply then_do_done in E. destruct E as (scs & Es & E).
  apply supercats_of_done in Es.
  destruct (Nat.leb_spec (List.length (nodup string_dec scs)) 1) as [Le|Gt];
    cbn [negb] in E; [|discriminate E].
  destruct scs as [|sc0 scs]; [discriminate E|]. injection E as ->.
  split; [intros ->; inversion Es|].
  intros ann Ia.
  destruct (@Forall2_in_l _ _ _ _ _ ann Es Ia) as (sc' & Is & R).
  assert (sc' = sc)
    by (apply (proj1 (nodup_at_most_one _) Le); simpl; auto).
  subst sc'. exact R.
Qed.

(** With every category known and an annotation present, the loop body
    returns the shared supercategory or raises RuntimeError. *)
Lemma image_supercat_resolved (anns : list CocoAnn) :
  anns <> [] ->
  (forall ann, In ann anns ->
               exists cat, dict_get (cats c) (category_id ann) = Done cat) ->
  (exists sc, image_supercat c anns = Done sc) \/
  (image_supercat c anns = Failed RuntimeError /\
   exists a1 a2 s1 s2, In a1 anns /\ In a2 anns /\
                       resolves_to c a1 s1 /\ resolves_to c a2 s2 /\ s1 <> s2).
Proof.
  intros NE R. unfold image_supercat.
  destruct (supercats_of_resolved anns R) as (scs & Es). rewrite Es.
  cbn [then_do]. apply supercats_of_done in Es.
  destruct (Nat.leb_spec (List.length (nodup string_dec scs)) 1) as [Le|Gt];
    cbn [negb].
  - left. destruct scs as [|sc scs]; [|now exists sc].
    inversion Es; subst. contradiction.
  - right. split; [reflexivity|].
    destruct (list_eq_dec string_dec scs
                (repeat (hd EmptyString scs) (List.length scs))) as [E|N].
    + exfalso.
      assert (Le : List.length (nodup string_dec scs) <= 1); [|lia].
      apply nodup_at_most_one. intros x y Ix Iy. rewrite E in Ix, Iy.
      apply repeat_spec in Ix, Iy. congruence.
    + assert (X : exists x y, In x scs /\ In y scs /\ x <> y).
      { clear - N. destruct scs as [|a scs]; [now contradiction N|].
        cbn [hd List.length repeat] in N.
        assert (N' : scs <> repeat a (List.length scs)) by congruence.
        clear N. induction scs as [|b scs IH]; [now contradiction N'|].
        destruct (string_dec a b) as [<-|D].
        - cbn [List.length repeat] in N'.
          assert (N'' : scs <> repeat a (List.length scs)) by congruence.
          destruct (IH N'') as (x & y & Ix & Iy & D).
          exists x, y. simpl in *. tauto.
        - exists a, b. simpl. tauto. }
      destruct X as (x & y & Ix & Iy & D).
      destruct (@Forall2_in_r _ _ _ _ _ x Es Ix) as (a1 & I1 & R1).
      destruct (@Forall2_in_r _ _ _ _ _ y Es Iy) as (a2 & I2 & R2).
      exists a1, a2, x, y. tauto.
Qed.

Lemma dict_set_in {V} (k k0 : Z) (v v0 : V) (d : list (Z * V)) :
  In (k0, v0) (dict_set k v d) -> (k0, v0) = (k, v) \/ In (k0, v0) d.
Proof.
  induction d as [|[k' v'] d IH]; simpl.
  - intros [E|[]]. left. now symmetry.
  - destruct (Z.eqb k' k); simpl.
    + intros [E|I]; [left; now symmetry|right; now right].
    + intros [E|I]; [right; now left|].
      destruct (IH I) as [E|I']; [now left|right; now right].
Qed.

(** The labels the loop has gathered belong to images it went through. *)
Lemma image_labels_done (items : list (Z * list CocoAnn))
      (d0 d : list (Z * string)) :
  image_labels c items d0 = Done d ->
  (forall id anns, In (id, anns) items ->
                   exists sc, anns <> [] /\ uniform_image c anns sc) /\
  (forall id sc, In (id, sc) d ->
     In (id, sc) d0 \/
     exists anns, In (id, anns) items /\ uniform_image c anns sc).
Proof.
  revert d0. induction items as [|[id anns] items IH]; intros d0;
    cbn [image_labels].
  - intros [= <-]. split; [contradiction|auto].
  - intros E. apply then_do_done in E. destruct E as (sc & Es & E).
    apply image_supercat_done in Es. destruct Es as (NE & U).
    destruct (IH _ E) as (A & B). split.
    + intros id' anns' [[= <- <-]|I]; [now exists sc|now apply (A id')].
    + intros id' sc' I. destruct (B id' sc' I) as [I0|(anns' & I' & U')].
      * apply dict_set_in in I0. destruct I0 as [[= -> ->]|I0]; [|now left].
        right. exists anns. split; [now left|exact U].
      * right. exists anns'. split; [now right|exact U'].
Qed.

Lemma insert_by_key_perm {V} (x : Z * V) (l : list (Z * V)) :
  Permutation (insert_by_key x l) (x :: l).
Proof.
  induction l as [|y l IH]; simpl; [reflexivity|].
  destruct (fst x <=? fst y)%Z; [reflexivity|].
  eapply Permutation_trans; [apply perm_skip, IH|apply perm_swap].
Qed.

Lemma sorted_by_key_perm {V} (l : list (Z * V)) :
  Permutation (sorted_by_key l) l.
Proof.
  induction l as [|x l IH]; simpl; [constructor|].
  eapply Permutation_trans; [apply insert_by_key_perm|now constructor].
Qed.

Lemma index_all_done (names xs : list string) (ks : list nat) :
  index_all names xs = Done ks ->
  Forall2 (fun k x => nth_error names k = Some x) ks xs.
Proof.
  revert ks. induction xs as [|x xs IH]; intros ks; cbn [index_all].
  - intros [= <-]. constructor.
  - destruct (py_index x names) as [k|] eqn:P; [|discriminate].
    intros E. apply then_do_done in E. destruct E as (ks' & E' & E).
    injection E as <-. constructor; [|now apply IH].
    now apply py_index_sound.
Qed.

Lemma index_all_total (names xs : list string) :
  (forall x, In x xs -> In x names) -> exists ks, index_all names xs = Done ks.
Proof.
  induction xs as [|x xs IH]; intros S; cbn [index_all].
  - now exists [].
  - destruct (py_index_complete x names (S x (or_introl eq_refl)))
      as (k & ->).
    destruct IH as (ks & ->); [intros y Iy; apply S; now right|].
    cbn [then_do]. eexists. reflexivity.
Qed.

End PartImageNetInit.

Section PartImageNetClaims.

Import Datasets DatasetsMore.
Local Open Scope nat_scope.

Variable data_path : string.
Variable c : COCO.
Variable mode : string.
Variable height : Z.

Lemma dict_get_in {V} (d : list (Z * V)) (k : Z) (v : V) :
  dict_get d k = Done v -> In (k, v) d.
Proof.
  induction d as [|[k' v'] d IH]; simpl; [discriminate|].
  destruct (Z.eqb_spec k' k) as [->|N].
  - intros [= ->]. now left.
  - intros E. right. now apply IH.
Qed.

Lemma dict_set_fresh {V} (k : Z) (v : V) (d : list (Z * V)) :
  ~ In k (map fst d) ->
  map fst (dict_set k v d) = map fst d ++ [k].
Proof.
  induction d as [|[k' v'] d IH]; simpl; intros N; [reflexivity|].
  destruct (Z.eqb_spec k' k) as [->|D]; [exfalso; apply N; now left|].
  simpl. rewrite IH; [reflexivity|]. intros I. apply N. now right.
Qed.

(** With every category known the loop returns or raises RuntimeError. *)
Lemma image_labels_resolved (items : list (Z * list CocoAnn))
      (d0 : list (Z * string)) :
  (forall id anns, In (id, anns) items ->
     anns <> [] /\
     forall ann, In ann anns ->
                 exists cat, dict_get (cats c) (category_id ann) = Done cat) ->
  (exists d, image_labels c items d0 = Done d) \/
  image_labels c items d0 = Failed RuntimeError.
Proof.
  revert d0. induction items as [|[id anns] items IH]; intros d0 R;
    cbn [image_labels].
  - left. now exists d0.
  - destruct (R id anns (or_introl eq_refl)) as (NE & Ra).
    destruct (image_supercat_resolved c NE Ra) as [(sc & ->)|(-> & _)];
      cbn [then_do]; [|now right].
    apply IH. intros id' anns' I. apply (R id' anns'). now right.
Qed.

(** When every image is uniform the loop returns, with one entry per
    image id. *)
Lemma image_labels_total (items : list (Z * list CocoAnn))
      (d0 : list (Z * string)) :
  (forall id anns, In (id, anns) items ->
     anns <> [] /\ exists sc, uniform_image c anns sc) ->
  NoDup (map fst items) ->
  (forall k, In k (map fst items) -> ~ In k (map fst d0)) ->
  exists d, image_labels c items d0 = Done d /\
            List.length d = List.length d0 + List.length items.
Proof.
  revert d0. induction items as [|[id anns] items IH]; intros d0 U ND Fr;
    cbn [image_labels].
  - exists d0. split; [reflexivity|simpl; lia].
  - destruct (U id anns (or_introl eq_refl)) as (NE & sc & Us).
    assert (Ra : forall ann, In ann anns ->
               exists cat, dict_get (cats c) (category_id ann) = Done cat).
    { intros ann Ia. destruct (Us ann Ia) as (cat & E & _). now exists cat. }
    destruct (image_supercat_resolved c NE Ra)
      as [(sc' & E)|(_ & a1 & a2 & s1 & s2 & I1 & I2 & R1 & R2 & D)].
    + rewrite E. cbn [then_do].
      inversion ND as [|? ? Hnot ND']; subst.
      assert (Fid : ~ In id (map fst d0)) by (apply Fr; now left).
      destruct (IH (dict_set id sc' d0)) as (d & Ed & Ld).
      * intros id' anns' I. apply (U id' anns'). now right.
      * exact ND'.
      * intros k Ik. rewrite (@dict_set_fresh _ id sc' d0 Fid).
        intros I. apply in_app_or in I. destruct I as [I|[<-|[]]].
        -- apply (Fr k); [now right|exact I].
        -- contradiction.
      * exists d. split; [exact Ed|]. rewrite Ld.
        rewrite <- (length_map fst (dict_set id sc' d0)).
        rewrite (@dict_set_fresh _ id sc' d0 Fid), length_app, length_map.
        simpl. lia.
    + exfalso. apply D.
      rewrite (resolves_to_unique R1 (Us a1 I1)).
      rewrite (resolves_to_unique R2 (Us a2 I2)). reflexivity.
Qed.

(** X21: in a dataset the constructor built, every label is the position
    of its sample's supercategory in unique_label_names; the annotations of
    every listed image share one supercategory; and every label id is the
    supercategory of a listed image. *)
Theorem pin_init_labels_consistent (d : PartImageNetDataset) :
  PartImageNetDataset_init data_path c mode height = Done d ->
  Forall2 (fun k name => nth_error (unique_label_names d) k = Some name)
          (pin_labels d) (pin_label_ids d) /\
  (forall id anns, In (id, anns) (imgToAnns c) ->
                   exists sc, anns <> [] /\ uniform_image c anns sc) /\
  (forall name, In name (pin_label_ids d) ->
     exists id anns, In (id, anns) (imgToAnns c) /\
                     uniform_image c anns name).
Proof.
  unfold PartImageNetDataset_init. intros E.
  apply then_do_done in E. destruct E as (dict & El & E).
  apply then_do_done in E. destruct E as (ks & Ei & E).
  injection E as <-. cbn [unique_label_names pin_labels pin_label_ids].
  apply image_labels_done in El. destruct El as (A & B).
  split; [now apply index_all_done|]. split; [exact A|].
  intros name I. apply in_map_iff in I. destruct I as ([id sc] & <- & I).
  apply (Permutation_in _ (sorted_by_key_perm dict)) in I.
  destruct (B id sc I) as [[]|(anns & Ia & U)].
  exists id, anns. now split.
Qed.

(** X22: when every annotation names a known category and every listed
    image has an annotation, one image with annotations of two different
    supercategories makes the constructor raise RuntimeError. *)
Theorem pin_init_mixed_raises (id : Z) (anns : list CocoAnn)
        (a1 a2 : CocoAnn) (s1 s2 : string) :
  coco_resolves c ->
  In (id, anns) (imgToAnns c) -> In a1 anns -> In a2 anns ->
  resolves_to c a1 s1 -> resolves_to c a2 s2 -> s1 <> s2 ->
  PartImageNetDataset_init data_path c mode height = Failed RuntimeError.
Proof.
  intros R I I1 I2 R1 R2 D. unfold PartImageNetDataset_init.
  destruct (image_labels_resolved (imgToAnns c) [] R) as [(dict & E)| ->];
    [|reflexivity].
  exfalso. apply image_labels_done in E. destruct E as (A & _).
  destruct (A id anns I) as (sc & _ & U). apply D.
  rewrite (resolves_to_unique R1 (U a1 I1)).
  rewrite (resolves_to_unique R2 (U a2 I2)). reflexivity.
Qed.

(** X23: when every listed image has an annotation and its annotations
    name known categories of one supercategory, the constructor returns a
    dataset with one label per listed image. *)
Theorem pin_init_total :
  (forall id anns, In (id, anns) (imgToAnns c) ->
     anns <> [] /\ exists sc, uniform_image c anns sc) ->
  NoDup (map fst (imgToAnns c)) ->
  exists d,
    PartImageNetDataset_init data_path c mode height = Done d /\
    List.length (pin_labels d) = List.length (imgToAnns c) /\
    List.length (pin_label_ids d) = List.length (imgToAnns c).
Proof.
  intros U ND. unfold PartImageNetDataset_init.
  destruct (image_labels_total (imgToAnns c) [] U ND) as (dict & E & Ld);
    [intros k _ []|].
  rewrite E. cbn [then_do].
  assert (El := @image_labels_done c (imgToAnns c) [] dict E).
  destruct El as (_ & B).
  destruct (index_all_total
              (np_unique (map (fun x => supercategory (snd x)) (cats c)))
              (map snd (sorted_by_key dict))) as (ks & Ek).
  { intros name I. apply in_map_iff in I. destruct I as ([id sc] & <- & I).
    apply (Permutation_in _ (sorted_by_key_perm dict)) in I.
    destruct (B id sc I) as [[]|(anns & Ia & Us)].
    destruct (U id anns Ia) as (NE & _).
    destruct anns as [|ann anns]; [contradiction|].
    destruct (Us ann (or_introl eq_refl)) as (cat & Ec & <-).
    apply np_unique_in, in_map_iff.
    exists (category_id ann, cat). split; [reflexivity|].
    now apply dict_get_in. }
  rewrite Ek. cbn [then_do]. eexists. split; [reflexivity|].
  cbn [pin_labels pin_label_ids].
  assert (Ll : List.length (map snd (sorted_by_key dict))
               = List.length (imgToAnns c)).
  { rewrite length_map, (Permutation_length (sorted_by_key_perm dict)), Ld.
    reflexivity. }
  split; [|exact Ll].
  rewrite <- Ll. apply (Forall2_length (@index_all_done _ _ ks Ek)).
Qed.

End PartImageNetClaims.

Section PartImageNetWitnesses.

Import Datasets DatasetsMore.
Local Open Scope nat_scope.

Lemma pin_init_labels_consistent_witness :
  exists d,
    PartImageNetDataset_init "pim" ex_coco "train" 256 = Done d /\
    Forall2 (fun k name => nth_error (unique_label_names d) k = Some name)
            (pin_labels d) (pin_label_ids d).
Proof.
  eexists. split; [reflexivity|].
  apply (@pin_init_labels_consistent "pim" ex_coco "train" 256%Z _ eq_refl).
Defined.

Lemma ex_coco_mixed_resolves : coco_resolves ex_coco_mixed.
Proof.
  intros id anns [E|[E|[]]]; injection E as <- <-;
    (split; [discriminate|]).
  - intros ann [<-|[]]. eexists. reflexivity.
  - intros ann [<-|[<-|[]]]; eexists; reflexivity.
Qed.

Lemma pin_init_mixed_raises_witness :
  let a1 := {| category_id := 0; segmentation := [] |} in
  let a2 := {| category_id := 2; segmentation := [] |} in
  coco_resolves ex_coco_mixed /\
  In (3%Z, [a1; a2]) (imgToAnns ex_coco_mixed) /\
  In a1 [a1; a2] /\ In a2 [a1; a2] /\
  resolves_to ex_coco_mixed a1 "bird" /\
  resolves_to ex_coco_mixed a2 "fish" /\
  "bird"%string <> "fish"%string /\
  PartImageNetDataset_init "pim" ex_coco_mixed "train" 256
  = Failed RuntimeError.
Proof.
  intros a1 a2.
  assert (H2 : In (3%Z, [a1; a2]) (imgToAnns ex_coco_mixed))
    by (right; left; reflexivity).
  assert (H3 : In a1 [a1; a2]) by (left; reflexivity).
  assert (H4 : In a2 [a1; a2]) by (right; left; reflexivity).
  assert (H5 : resolves_to ex_coco_mixed a1 "bird")
    by (eexists; split; reflexivity).
  assert (H6 : resolves_to ex_coco_mixed a2 "fish")
    by (eexists; split; reflexivity).
  assert (H7 : "bird"%string <> "fish"%string) by discriminate.
  split; [exact ex_coco_mixed_resolves|].
  repeat (split; [assumption|]).
  apply (@pin_init_mixed_raises "pim" ex_coco_mixed "train" 256%Z 3%Z
           [a1; a2] a1 a2 "bird" "fish"
           ex_coco_mixed_resolves H2 H3 H4 H5 H6 H7).
Defined.

Lemma ex_coco_uniform :
  forall id anns, In (id, anns) (imgToAnns ex_coco) ->
    anns <> [] /\ exists sc, uniform_image ex_coco anns sc.
Proof.
  intros id anns [E|[E|[E|[]]]]; injection E as <- <-;
    (split; [discriminate|]).
  - exists "fish"%string. intros ann [<-|[]]. eexists. split; reflexivity.
  - exists "bird"%string.
    intros ann [<-|[<-|[]]]; eexists; split; reflexivity.
  - exists "bird"%string. intros ann [<-|[]]. eexists. split; reflexivity.
Qed.

Lemma pin_init_total_witness :
  (forall id anns, In (id, anns) (imgToAnns ex_coco) ->
     anns <> [] /\ exists sc, uniform_image ex_coco anns sc) /\
  NoDup (map fst (imgToAnns ex_coco)) /\
  exists d,
    PartImageNetDataset_init "pim" ex_coco "train" 256 = Done d /\
    List.length (pin_labels d) = 3.
Proof.
  assert (H2 : NoDup (map fst (imgToAnns ex_coco))).
  { simpl. repeat constructor; simpl; intuition discriminate. }
  split; [exact ex_coco_uniform|]. split; [exact H2|].
  destruct (@pin_init_total "pim" ex_coco "train" 256%Z ex_coco_uniform H2)
    as (d & E & L & _).
  exists d. split; [exact E|exact L].
Defined.

End PartImageNetWitnesses.

Section GetMasks.

Import Datasets DatasetsMore.
Local Open Scope nat_scope.

Lemma pair_up_of_length (n : nat) (seg : list Q) :
  List.length seg = 2 * n ->
  exists poly, pair_up seg = Ok poly /\ List.length poly = n.
Proof.
  revert seg. induction n as [|n IH]; intros seg L.
  - destruct seg; [|discriminate L]. now exists [].
  - destruct seg as [|x [|y seg]]; simpl in L; try lia.
    destruct (IH seg) as (poly & E & Lp); [lia|].
    exists ((x, y) :: poly). cbn [pair_up]. rewrite E.
    split; [reflexivity|simpl; lia].
Qed.

Lemma pair_up_even (seg : list Q) :
  Nat.even (List.length seg) = true -> exists poly, pair_up seg = Ok poly.
Proof.
  intros E. apply Nat.even_spec in E. destruct E as (n & L).
  destruct (pair_up_of_length n seg L) as (poly & Ep & _). now exists poly.
Qed.





Variable self : PartImageNetDataset.
Variable idx : Z.
Variable img : CocoImg.

Let anns := anns_of_image (imgToAnns (coco self)) (img_id img).


End GetMasks.

Section GetMasksErrors.

Import Datasets DatasetsMore.
Local Open Scope nat_scope.

Lemma pair_up_odd_length (n : nat) (seg : list Q) :
  List.length seg = 2 * n + 1 -> pair_up seg = Raise ValueError.
Proof.
  revert seg. induction n as [|n IH]; intros seg L.
  - destruct seg as [|x [|y seg]]; simpl in L; try lia. reflexivity.
  - destruct seg as [|x [|y seg]]; simpl in L; try lia.
    cbn [pair_up]. rewrite (IH seg); [reflexivity|lia].
Qed.

Lemma pair_up_odd (seg : list Q) :
  Nat.odd (List.length seg) = true -> pair_up seg = Raise ValueError.
Proof.
  intros E. apply Nat.odd_spec in E. destruct E as (n & L).
  exact (pair_up_odd_length n seg L).
Qed.

(** reshape raises nothing but ValueError. *)
Lemma pair_up_raises (seg : list Q) (e : exn) :
  pair_up seg = Raise e -> e = ValueError.
Proof.
  destruct (Nat.even (List.length seg)) eqn:Ev.
  - destruct (pair_up_even seg Ev) as (poly & ->). discriminate.
  - rewrite pair_up_odd; [congruence|].
    unfold Nat.odd. now rewrite Ev.
Qed.

Lemma polygons_of_segs_odd (segs : list (list Q)) (seg : list Q)
      (acc : list (list (Q * Q))) :
  In seg segs -> Nat.odd (List.length seg) = true ->
  polygons_of_segs segs acc = Raise ValueError.
Proof.
  revert acc. induction segs as [|s segs IH]; intros acc I Od;
    [contradiction|].
  cbn [polygons_of_segs]. destruct (pair_up s) as [poly|e] eqn:E.
  - destruct I as [->|I]; [rewrite (pair_up_odd seg Od) in E; discriminate|].
    now apply IH.
  - now rewrite (pair_up_raises s E).
Qed.

Lemma polygons_of_segs_raises (segs : list (list Q))
      (acc : list (list (Q * Q))) (e : exn) :
  polygons_of_segs segs acc = Raise e -> e = ValueError.
Proof.
  revert acc. induction segs as [|s segs IH]; intros acc;
    cbn [polygons_of_segs]; [discriminate|].
  destruct (pair_up s) as [poly|e'] eqn:E.
  - apply IH.
  - intros [= <-]. exact (pair_up_raises s E).
Qed.

Lemma polygons_of_anns_odd (anns : list CocoAnn) (ann : CocoAnn)
      (seg : list Q) (acc : list (list (Q * Q))) :
  In ann anns -> In seg (segmentation ann) ->
  Nat.odd (List.length seg) = true ->
  polygons_of_anns anns acc = Raise ValueError.
Proof.
  revert acc. induction anns as [|a anns IH]; intros acc I Is Od;
    [contradiction|].
  cbn [polygons_of_anns].
  destruct (polygons_of_segs (segmentation a) acc) as [polys|e] eqn:E.
  - destruct I as [->|I]; [|now apply IH].
    rewrite (@polygons_of_segs_odd _ seg acc Is Od) in E. discriminate.
  - now rewrite (polygons_of_segs_raises _ _ E).
Qed.

(** X25: one polygon with an odd number of coordinates among the
    annotations of the image makes getmasks raise ValueError, whatever the
    other polygons are: no mask is returned for the image. *)
Theorem getmasks_odd_polygon_raises (self : PartImageNetDataset) (idx : Z)
        (img : CocoImg) (ann : CocoAnn) (seg : list Q) :
  dict_get (imgs (coco self)) idx = Done img ->
  In ann (anns_of_image (imgToAnns (coco self)) (img_id img)) ->
  In seg (segmentation ann) ->
  Nat.odd (List.length seg) = true ->
  getmasks self idx = Failed (Builtin ValueError).
Proof.
  intros Hi Ia Is Od. unfold getmasks. rewrite Hi. cbn [then_do].
  rewrite (@polygons_of_anns_odd _ ann seg [] Ia Is Od). reflexivity.
Qed.

End GetMasksErrors.

Section GetMasksWitnesses.

Import Datasets DatasetsMore.
Local Open Scope nat_scope.



Lemma getmasks_odd_polygon_raises_witness :
  let img := {| img_id := 4; file_name := "n01_12.JPEG";
                img_width := 500; img_height := 375 |}%Z in
  let ann := {| category_id := 1%Z;
                segmentation := [[1; 1; 2; 1; 2]]%Q |} in
  let seg := [1; 1; 2; 1; 2]%Q in
  dict_get (imgs (coco ex_pin_odd)) 4%Z = Done img /\
  In ann (anns_of_image (imgToAnns (coco ex_pin_odd)) (img_id img)) /\
  In seg (segmentation ann) /\
  Nat.odd (List.length seg) = true /\
  getmasks ex_pin_odd 4%Z = Failed (Builtin ValueError).
Proof.
  intros img ann seg.
  assert (H1 : dict_get (imgs (coco ex_pin_odd)) 4%Z = Done img)
    by reflexivity.
  assert (H2 : In ann (anns_of_image (imgToAnns (coco ex_pin_odd))
                                     (img_id img)))
    by (right; left; reflexivity).
  assert (H3 : In seg (segmentation ann)) by (left; reflexivity).
  assert (H4 : Nat.odd (List.length seg) = true) by reflexivity.
  repeat (split; [assumption|]).
  exact (@getmasks_odd_polygon_raises ex_pin_odd 4%Z img ann seg
           H1 H2 H3 H4).
Defined.

End GetMasksWitnesses.

Section SortedByKey.

Import Datasets DatasetsMore.
Local Open Scope nat_scope.

Lemma insert_by_key_sorted {V} (x : Z * V) (l : list (Z * V)) :
  Sorted Z.le (map fst l) -> Sorted Z.le (map fst (insert_by_key x l)).
Proof.
  induction l as [|y l IH]; cbn [insert_by_key map]; intros S.
  - repeat constructor.
  - destruct (Z.leb_spec (fst x) (fst y)) as [Le|Gt]; cbn [map].
    + constructor; [exact S|]. now constructor.
    + apply Sorted_inv in S. destruct S as (S & Hd).
      constructor; [now apply IH|].
      destruct l as [|z l]; cbn [insert_by_key map].
      * constructor. lia.
      * destruct (fst x <=? fst z)%Z; cbn [map]; constructor; [lia|].
        now inversion Hd.
Qed.

Lemma sorted_by_key_sorted {V} (l : list (Z * V)) :
  Sorted Z.le (map fst (sorted_by_key l)).
Proof.
  induction l as [|x l IH]; simpl; [constructor|].
  now apply insert_by_key_sorted.
Qed.

Lemma sorted_nodup_strict (l : list Z) :
  Sorted Z.le l -> NoDup l -> StronglySorted Z.lt l.
Proof.
  intros S ND. apply Sorted_StronglySorted in S;
    [|intros a b c' ? ?; lia].
  induction S as [|a l S IH F]; [constructor|].
  inversion ND as [|? ? Hnot ND']; subst.
  constructor; [now apply IH|].
  rewrite Forall_forall in *. intros b Ib.
  assert (a <= b)%Z by now apply F.
  assert (a <> b) by (intros ->; contradiction). lia.
Qed.

(** Two increasing lists with the same elements are equal. *)
Lemma strictly_sorted_unique (l1 l2 : list Z) :
  StronglySorted Z.lt l1 -> StronglySorted Z.lt l2 ->
  Permutation l1 l2 -> l1 = l2.
Proof.
  intros S1. revert l2. induction S1 as [|a l1 S1 IH F1]; intros l2 S2 P.
  - apply Permutation_nil in P. now subst.
  - destruct S2 as [|b l2 S2 F2];
      [apply Permutation_sym, Permutation_nil in P; discriminate|].
    rewrite Forall_forall in F1, F2.
    assert (E : a = b).
    { assert (Ia : In a (b :: l2))
        by (apply (Permutation_in _ P); now left).
      assert (Ib : In b (a :: l1))
        by (apply (Permutation_in _ (Permutation_sym P)); now left).
      destruct Ia as [->|Ia]; [reflexivity|].
      destruct Ib as [->|Ib]; [reflexivity|].
      specialize (F1 b Ib). specialize (F2 a Ia). lia. }
    subst b. f_equal. apply IH; [exact S2|].
    now apply Permutation_cons_inv in P.
Qed.

Lemma seq_strictly_sorted (a n : nat) :
  StronglySorted Z.lt (map Z.of_nat (seq a n)).
Proof.
  revert a. induction n as [|n IH]; intros a; cbn [seq map];
    constructor; [apply IH|].
  rewrite Forall_forall. intros z I. apply in_map_iff in I.
  destruct I as (k & <- & I). apply in_seq in I. lia.
Qed.

Lemma Forall2_fst_snd {A B} (P : A -> B -> Prop) (l : list (A * B)) :
  (forall x, In x l -> P (fst x) (snd x)) ->
  Forall2 P (map fst l) (map snd l).
Proof.
  induction l as [|x l IH]; intros H; cbn [map]; constructor.
  - apply H. now left.
  - apply IH. intros y I. apply H. now right.
Qed.

Lemma Forall2_nth_error_r {A B} (R : A -> B -> Prop) (l : list A)
      (l' : list B) (k : nat) (b : B) :
  Forall2 R l l' -> nth_error l' k = Some b ->
  exists a, nth_error l k = Some a /\ R a b.
Proof.
  intros F. revert k. induction F as [|x y l l' Hxy F IH]; intros k.
  - destruct k; discriminate.
  - destruct k as [|k]; cbn [nth_error].
    + intros [= <-]. now exists x.
    + apply IH.
Qed.

Lemma Forall2_nth_error_l {A B} (R : A -> B -> Prop) (l : list A)
      (l' : list B) (k : nat) (a : A) :
  Forall2 R l l' -> nth_error l k = Some a ->
  exists b, nth_error l' k = Some b /\ R a b.
Proof.
  intros F. revert k. induction F as [|x y l l' Hxy F IH]; intros k.
  - destruct k; discriminate.
  - destruct k as [|k]; cbn [nth_error].
    + intros [= <-]. now exists y.
    + apply IH.
Qed.

End SortedByKey.

Section PartImageNetOrder.

Import Datasets DatasetsMore.
Local Open Scope nat_scope.

Variable data_path : string.
Variable c : COCO.
Variable mode : string.
Variable height : Z.

Lemma image_labels_keys (items : list (Z * list CocoAnn))
      (d0 d : list (Z * string)) :
  NoDup (map fst items) ->
  (forall k, In k (map fst items) -> ~ In k (map fst d0)) ->
  image_labels c items d0 = Done d ->
  map fst d = map fst d0 ++ map fst items.
Proof.
  revert d0. induction items as [|[id anns] items IH]; intros d0 ND Fr;
    cbn [image_labels map].
  - intros [= <-]. now rewrite app_nil_r.
  - intros E. apply then_do_done in E. destruct E as (sc & _ & E).
    inversion ND as [|? ? Hnot ND']; subst.
    assert (Fid : ~ In id (map fst d0)) by (apply Fr; now left).
    rewrite (IH _ ND') with (2 := E).
    + rewrite (@dict_set_fresh _ id sc d0 Fid), <- app_assoc. reflexivity.
    + intros k Ik. rewrite (@dict_set_fresh _ id sc d0 Fid).
      intros I. apply in_app_or in I. destruct I as [I|[<-|[]]].
      * apply (Fr k); [now right|exact I].
      * contradiction.
Qed.

(** The label ids follow the image ids in increasing order. *)
Lemma labels_in_id_order (dict : list (Z * string)) :
  image_labels c (imgToAnns c) [] = Done dict ->
  NoDup (map fst (imgToAnns c)) ->
  Permutation (map fst (sorted_by_key dict)) (map fst (imgToAnns c)) /\
  StronglySorted Z.lt (map fst (sorted_by_key dict)) /\
  Forall2 (labelled_by c) (map fst (sorted_by_key dict))
          (map snd (sorted_by_key dict)).
Proof.
  intros E ND.
  assert (K : map fst dict = map fst (imgToAnns c)).
  { rewrite (@image_labels_keys (imgToAnns c) [] dict ND); [reflexivity| |exact E].
    intros k _ []. }
  assert (P : Permutation (map fst (sorted_by_key dict))
                          (map fst (imgToAnns c))).
  { rewrite <- K. apply Permutation_map, sorted_by_key_perm. }
  split; [exact P|]. split.
  - apply sorted_nodup_strict; [apply sorted_by_key_sorted|].
    apply (Permutation_NoDup (Permutation_sym P) ND).
  - apply Forall2_fst_snd. intros [id sc] I. cbn [fst snd].
    apply (Permutation_in _ (sorted_by_key_perm dict)) in I.
    destruct (@image_labels_done c (imgToAnns c) [] dict E) as (_ & B).
    destruct (B id sc I) as [[]|(anns & Ia & U)].
    exists anns. now split.
Qed.

(** X26: in a dataset the constructor built from an annotation table with
    one entry per image id, the label ids are ordered by increasing image
    id, whatever the order of the table: the k-th label id is the
    supercategory of the image with the k-th smallest id. *)
Theorem pin_init_labels_in_id_order (d : PartImageNetDataset) :
  PartImageNetDataset_init data_path c mode height = Done d ->
  NoDup (map fst (imgToAnns c)) ->
  exists ids,
    Permutation ids (map fst (imgToAnns c)) /\
    StronglySorted Z.lt ids /\
    Forall2 (fun id name =>
               exists anns, In (id, anns) (imgToAnns c) /\
                            uniform_image c anns name)
            ids (pin_label_ids d).
Proof.
  unfold PartImageNetDataset_init. intros E ND.
  apply then_do_done in E. destruct E as (dict & El & E).
  apply then_do_done in E. destruct E as (ks & Ei & E).
  injection E as <-. cbn [pin_label_ids].
  exists (map fst (sorted_by_key dict)).
  exact (labels_in_id_order El ND).
Qed.

Variable path_join : list string -> string.
Variable decoded_shape : string -> option (list Z).

Local Abbreviation pin_getitem :=
  (PartImageNetDataset_getitem path_join decoded_shape).

(** X27: when the annotated image ids are 0, 1, ..., n - 1 in some order,
    the label a constructed dataset returns with the image of a
    non-negative index is the one of that image: the position of the
    supercategory of its annotations in unique_label_names. *)
Theorem pin_getitem_aligned (d : PartImageNetDataset) (n : nat) (idx : Z)
        (im : ndarray) (lab : nat) :
  PartImageNetDataset_init data_path c mode height = Done d ->
  Permutation (map fst (imgToAnns c)) (map Z.of_nat (seq 0 n)) ->
  (0 <= idx)%Z ->
  pin_getitem d idx = Done (im, lab) ->
  exists anns name,
    In (idx, anns) (imgToAnns c) /\ uniform_image c anns name /\
    nth_error (unique_label_names d) lab = Some name.
Proof.
  unfold PartImageNetDataset_init. intros E P Pos G.
  apply then_do_done in E. destruct E as (dict & El & E).
  apply then_do_done in E. destruct E as (ks & Ei & E).
  injection E as <-.
  unfold PartImageNetDataset_getitem in G.
  cbn [coco pin_labels pin_height pin_data_path pin_mode] in G.
  cbn [unique_label_names].
  apply then_do_done in G. destruct G as (img & _ & G).
  apply then_do_done in G. destruct G as (im0 & _ & G).
  apply then_do_done in G. destruct G as (lab' & Hl & G).
  apply then_do_done in G. destruct G as (im1 & _ & G).
  injection G as _ ->.
  destruct (py_getitem ks idx) as [l0|e] eqn:Hk; [|discriminate Hl].
  injection Hl as ->.
  apply py_getitem_ok in Hk. destruct Hk as (_ & Hk).
  unfold position in Hk. destruct (Z.ltb_spec idx 0); [lia|].
  assert (ND : NoDup (map fst (imgToAnns c))).
  { apply (Permutation_NoDup (Permutation_sym P)).
    apply Finite.Injective_map_NoDup; [intros a b; lia|apply seq_NoDup]. }
  destruct (labels_in_id_order El ND) as (Pi & Si & F).
  assert (Ids : map fst (sorted_by_key dict) = map Z.of_nat (seq 0 n)).
  { apply strictly_sorted_unique;
      [exact Si|apply seq_strictly_sorted|].
    eapply Permutation_trans; [exact Pi|exact P]. }
  destruct (Forall2_nth_error_l _ (index_all_done _ _ Ei) Hk)
    as (name & Hn & Hu).
  destruct (Forall2_nth_error_r _ F Hn) as (id & Hid & (anns & Ia & U)).
  rewrite Ids in Hid.
  assert (id = idx).
  { assert (L : Z.to_nat idx < List.length (map Z.of_nat (seq 0 n)))
      by (apply nth_error_Some; congruence).
    rewrite length_map, length_seq in L.
    rewrite nth_error_map, (nth_error_nth' _ 0 ) in Hid
      by (rewrite length_seq; exact L).
    rewrite seq_nth in Hid by exact L. cbn [option_map] in Hid.
    injection Hid as <-. lia. }
  subst id. exists anns, name. repeat split; assumption.
Qed.


End PartImageNetOrder.

Section PartImageNetOrderWitnesses.

Import Datasets DatasetsMore Examples.
Local Open Scope nat_scope.

Lemma ex_coco_ids_nodup : NoDup (map fst (imgToAnns ex_coco)).
Proof.
  repeat (constructor; [simpl; intuition discriminate|]). constructor.
Qed.

Lemma pin_init_labels_in_id_order_witness :
  exists d,
    PartImageNetDataset_init "pim" ex_coco "train" 256 = Done d /\
    NoDup (map fst (imgToAnns ex_coco)) /\
    exists ids,
      Permutation ids (map fst (imgToAnns ex_coco)) /\
      StronglySorted Z.lt ids /\
      Forall2 (fun id name =>
                 exists anns, In (id, anns) (imgToAnns ex_coco) /\
                              uniform_image ex_coco anns name)
              ids (pin_label_ids d).
Proof.
  eexists. split; [reflexivity|]. split; [exact ex_coco_ids_nodup|].
  exact (@pin_init_labels_in_id_order "pim" ex_coco "train" 256%Z _
           eq_refl ex_coco_ids_nodup).
Defined.

Lemma ex_coco_aligned_ids :
  Permutation (map fst (imgToAnns ex_coco_aligned)) (map Z.of_nat (seq 0 3)).
Proof.
  cbn. eapply perm_trans; [apply perm_swap|]. apply perm_skip, perm_swap.
Qed.

Lemma pin_getitem_aligned_witness :
  exists im,
    PartImageNetDataset_init "pim" ex_coco_aligned "train" 224
    = Done ex_pin_aligned /\
    Permutation (map fst (imgToAnns ex_coco_aligned))
                (map Z.of_nat (seq 0 3)) /\
    (0 <= 1)%Z /\
    PartImageNetDataset_getitem ex_path_join ex_pin_shapes ex_pin_aligned 1
    = Done (im, 0) /\
    exists anns name,
      In (1%Z, anns) (imgToAnns ex_coco_aligned) /\
      uniform_image ex_coco_aligned anns name /\
      nth_error (unique_label_names ex_pin_aligned) 0 = Some name.
Proof.
  eexists. split; [reflexivity|]. split; [exact ex_coco_aligned_ids|].
  split; [lia|]. split; [reflexivity|].
  refine (@pin_getitem_aligned "pim" ex_coco_aligned "train" 224%Z
            ex_path_join ex_pin_shapes ex_pin_aligned 3 1%Z _ 0
            eq_refl ex_coco_aligned_ids _ eq_refl).
  lia.
Defined.


End PartImageNetOrderWitnesses.
